(** * Persistent game-state store of the roulette game: model and properties

    The development embeds the storage module ([app/lib/storage.ts], as
    reproduced in the repository's setup notes), the game API route
    ([app/api/game/route.ts], both revisions) and the pieces of the balance
    ledger and of the prize calculator the route relies on.

    Conventions of the embedding.
    - JavaScript numbers that count things ([triggerPulls], [deaths],
      [maxStreak], [participants], timestamps) are integers, [Z].
    - The amounts that the deposit handler computes from the chain are
      JavaScript numbers, that is IEEE 754 doubles ([Double], on the
      Standard Library's [SpecFloat]). The amounts of the ledger, of the
      prize pool and of the prize calculator are exact rationals kept in
      lowest terms ([Q] with [Qred] after every operation); a double enters
      the ledger with its exact value.
    - An optional or possibly [undefined] property is an [option].
    - [Date.now()] is an explicit argument [now].
    - Objects of the persisted document are values; a function that mutates
      the document in place returns the new document. *)

From Stdlib Require Import ZArith QArith Qabs Qpower String Ascii List Sorted Lia.
From Stdlib Require Import SpecFloat.
From stdpp Require Import gmap strings list fin_maps sorting.

Open Scope Z_scope.

(** ** JavaScript helpers *)

Module Js.

(** [c.toLowerCase()] on one ASCII character. *)
Definition lowerAscii (c : ascii) : ascii :=
  let n := N_of_ascii c in
  if ((65 <=? n) && (n <=? 90))%N then ascii_of_N (n + 32) else c.

(** [s.toLowerCase()]; addresses are ASCII hexadecimal strings. *)
Fixpoint toLowerCase (s : string) : string :=
  match s with
  | EmptyString => EmptyString
  | String c r => String (lowerAscii c) (toLowerCase r)
  end.

(** [a.toLowerCase() === b.toLowerCase()] *)
Definition sameAddress (a b : string) : bool :=
  bool_decide (toLowerCase a = toLowerCase b).

(** [x || 0] on an optional integer: [undefined] and [0] are falsy. *)
Definition orZero (x : option Z) : Z :=
  match x with
  | Some v => v
  | None => 0
  end.

(** [x || d] on an optional integer. *)
Definition orElseZ (x : option Z) (d : option Z) : option Z :=
  match x with
  | Some v => if v =? 0 then d else Some v
  | None => d
  end.

(** [x || d] on an optional string: [undefined] and the empty string are
    falsy. *)
Definition orElseS (x : option string) (d : option string) : option string :=
  match x with
  | Some EmptyString => d
  | Some s => Some s
  | None => d
  end.

(** A string property that passes the test [if (!s) return ...]: defined
    and not empty. *)
Definition given (x : option string) : option string :=
  match x with
  | Some EmptyString => None
  | Some s => Some s
  | None => None
  end.

(** A number property that passes the test [if (!x) return ...]: defined
    and not zero. *)
Definition givenQ (x : option Q) : option Q :=
  match x with
  | Some v => if Qeq_bool v 0 then None else Some v
  | None => None
  end.

(** [arr.findIndex(p)]: first index satisfying [p], or [-1]. *)
Fixpoint findIndex {A : Type} (p : A -> bool) (l : list A) : Z :=
  match l with
  | [] => -1
  | x :: r =>
      if p x then 0
      else let i := findIndex p r in if i <? 0 then -1 else i + 1
  end.

(** [arr.splice(i, 1)] for [i >= 0]: the array without its element at
    index [i]. *)
Fixpoint splice1 {A : Type} (i : nat) (l : list A) : list A :=
  match l, i with
  | [], _ => []
  | _ :: r, O => r
  | x :: r, S j => x :: splice1 j r
  end.

(** Insertion of [x] in front of the first element that the comparator
    places strictly after it. *)
Fixpoint insertBy {A : Type} (cmp : A -> A -> Z) (x : A) (l : list A) : list A :=
  match l with
  | [] => [x]
  | y :: r => if cmp y x <=? 0 then y :: insertBy cmp x r else x :: y :: r
  end.

(** [arr.sort(cmp)]: a stable sort; [cmp a b < 0] places [a] first, equal
    elements keep their order. Elements are taken from the first to the
    last, each one placed behind the earlier elements that compare smaller
    or equal. *)
Definition sort {A : Type} (cmp : A -> A -> Z) (l : list A) : list A :=
  fold_left (fun acc x => insertBy cmp x acc) l [].

(** How a call ends: a JavaScript function returns or throws. *)
Inductive Completion (A : Type) : Type :=
| Returns (a : A)
| Throws (message : string).
Arguments Returns {A} a.
Arguments Throws {A} message.

End Js.

(** ** JavaScript numbers *)

(** A [number] is an IEEE 754 binary64 value. The operations are those of
    the Standard Library's specification of floating-point arithmetic with
    a precision of 53 bits and exponents up to 1024; each returns the double
    nearest to the exact result, ties to even. *)
Module Double.

Record t : Type := mk { bits : spec_float }.

Definition prec : Z := 53.
Definition emax : Z := 1024.

(** The double nearest to a rational: the value of a decimal literal, of a
    number in a JSON body and of [Number(n)] for a [bigint]. *)
Definition ofQ (q : Q) : t :=
  match Qnum q with
  | Z0 => mk (S754_zero false)
  | Zpos n => mk (SFdiv prec emax (S754_finite false n 0) (S754_finite false (Qden q) 0))
  | Zneg n => mk (SFdiv prec emax (S754_finite true n 0) (S754_finite false (Qden q) 0))
  end.

Definition ofZ (z : Z) : t := ofQ (inject_Z z).
Definition ofN (n : N) : t := ofZ (Z.of_N n).

(** [x * y], [x / y], [x - y], [Math.abs(x)] and [x > y]. *)
Definition mul (x y : t) : t := mk (SFmul prec emax (bits x) (bits y)).
Definition div (x y : t) : t := mk (SFdiv prec emax (bits x) (bits y)).
Definition sub (x y : t) : t := mk (SFsub prec emax (bits x) (bits y)).
Definition abs (x : t) : t := mk (SFabs (bits x)).
Definition gt (x y : t) : bool := SFltb (bits y) (bits x).

(** The exact value of a finite double. [Infinity] and [NaN] have none;
    they are beyond what a division or a product of the 256-bit quantities
    of the chain can give, and are read as 0. *)
Definition toQ (x : t) : Q :=
  match bits x with
  | S754_finite s m e => Qred ((if s then -1 else 1) * inject_Z (Zpos m) * 2 ^ e)
  | _ => 0%Q
  end.

(** The sign bit; [NaN] has none. *)
Definition negative (x : t) : bool :=
  match bits x with
  | S754_zero s | S754_infinity s | S754_finite s _ _ => s
  | S754_nan => false
  end.

End Double.

#[warnings="-ambiguous-paths"]
Coercion Double.ofQ : Q >-> Double.t.
#[warnings="-ambiguous-paths"]
Coercion Double.toQ : Double.t >-> Q.
Bind Scope Q_scope with Double.t.

(** ** The persisted document ([StorageData]) *)

Module LeaderboardEntry.
Record t : Type := mk {
  address : string;
  username : option string;
  triggerPulls : Z;
  deaths : Z;
  maxStreak : Z;
  rank : option Z;
  isPaid : option bool;
  lastPlayed : option Z
}.

(** [entry.rank = r] *)
Definition setRank (e : t) (r : Z) : t :=
  mk (address e) (username e) (triggerPulls e) (deaths e) (maxStreak e)
     (Some r) (isPaid e) (lastPlayed e).
End LeaderboardEntry.

Module PrizePool.
Record t : Type := mk {
  totalAmount : Q;
  participants : Z;
  lastUpdated : Z
}.
End PrizePool.

(** The record stored under [playerStats[address]]: an untyped object in the
    source, with the properties that the route reads and writes. *)
Module PlayerStats.
Record t : Type := mk {
  address : string;
  username : option string;
  triggerPulls : option Z;
  deaths : option Z;
  maxStreak : option Z;
  currentStreak : option Z;
  lastPlayed : option Z;
  isPaid : option bool;
  lastUpdated : option Z
}.

Definition over {A : Type} (new old : option A) : option A :=
  match new with
  | Some v => Some v
  | None => old
  end.

(** [{ ...old, ...new }]: the properties of [new] win. Every [new] that
    the route passes was itself built by spreading [old], so a property
    absent from [new] is absent from [old] too. *)
Definition spread (old new : t) : t :=
  mk (address new)
     (over (username new) (username old))
     (over (triggerPulls new) (triggerPulls old))
     (over (deaths new) (deaths old))
     (over (maxStreak new) (maxStreak old))
     (over (currentStreak new) (currentStreak old))
     (over (lastPlayed new) (lastPlayed old))
     (over (isPaid new) (isPaid old))
     (over (lastUpdated new) (lastUpdated old)).
End PlayerStats.

Module PlayerBalance.
Inductive TxKind : Type := deposit | withdrawal | prize | entry_fee.

Record Transaction : Type := mkTx {
  type : TxKind;
  amount : Q;
  timestamp : Z;
  transactionHash : option string
}.

Record t : Type := mk {
  balance : Q;
  pendingPrizes : Q;
  totalDeposited : Q;
  totalWithdrawn : Q;
  lastUpdated : Z;
  transactions : list Transaction
}.
End PlayerBalance.

Module StorageData.
Record t : Type := mk {
  free : list LeaderboardEntry.t;
  paid : list LeaderboardEntry.t;
  prizePool : PrizePool.t;
  playerStats : gmap string PlayerStats.t;
  playerBalances : gmap string PlayerBalance.t
}.

Definition setFree (d : t) (b : list LeaderboardEntry.t) : t :=
  mk b (paid d) (prizePool d) (playerStats d) (playerBalances d).
Definition setPaid (d : t) (b : list LeaderboardEntry.t) : t :=
  mk (free d) b (prizePool d) (playerStats d) (playerBalances d).
Definition setPrizePool (d : t) (p : PrizePool.t) : t :=
  mk (free d) (paid d) p (playerStats d) (playerBalances d).
Definition setPlayerStats (d : t) (s : gmap string PlayerStats.t) : t :=
  mk (free d) (paid d) (prizePool d) s (playerBalances d).
Definition setPlayerBalances (d : t) (b : gmap string PlayerBalance.t) : t :=
  mk (free d) (paid d) (prizePool d) (playerStats d) b.

(** The value written by the initialisation routes. *)
Definition initialData (now : Z) : t :=
  mk [] [] (PrizePool.mk 0 0 now) ∅ ∅.
End StorageData.

Inductive Mode : Type := FreeMode | PaidMode.

(** ** The storage module *)

Module Storage.
Import LeaderboardEntry.

(** [data.leaderboard[mode]] *)
Definition board (mode : Mode) (data : StorageData.t) : list LeaderboardEntry.t :=
  match mode with
  | FreeMode => StorageData.free data
  | PaidMode => StorageData.paid data
  end.

Definition setBoard (mode : Mode) (data : StorageData.t)
    (b : list LeaderboardEntry.t) : StorageData.t :=
  match mode with
  | FreeMode => StorageData.setFree data b
  | PaidMode => StorageData.setPaid data b
  end.

(** The comparator handed to [board.sort]. *)
Definition compareEntries (a b : LeaderboardEntry.t) : Z :=
  if negb (maxStreak b =? maxStreak a) then maxStreak b - maxStreak a
  else if negb (triggerPulls b =? triggerPulls a) then triggerPulls b - triggerPulls a
  else deaths a - deaths b.

(** [board.forEach((entry, idx) => { entry.rank = idx + 1 })] *)
Definition updateRanks (b : list LeaderboardEntry.t) : list LeaderboardEntry.t :=
  imap (fun idx entry => setRank entry (Z.of_nat idx + 1)) b.

(** Removal of the existing entry: [findIndex] with the lower-cased
    addresses, then [splice(index, 1)] when [index >= 0]. *)
Definition removeExisting (b : list LeaderboardEntry.t) (entry : LeaderboardEntry.t)
    : list LeaderboardEntry.t :=
  let index := Js.findIndex (fun e => Js.sameAddress (address e) (address entry)) b in
  if 0 <=? index then Js.splice1 (Z.to_nat index) b else b.

(** The leaderboard part of [updateLeaderboardEntry] in the file-backed
    storage module: remove, push, sort, re-rank. *)
Definition upsert (b : list LeaderboardEntry.t) (entry : LeaderboardEntry.t)
    : list LeaderboardEntry.t :=
  updateRanks (Js.sort compareEntries (removeExisting b entry ++ [entry])).

(** The same in the Edge Config storage module, which then keeps the top
    50: [if (board.length > 50) board.splice(50)]. *)
Definition upsertTop50 (b : list LeaderboardEntry.t) (entry : LeaderboardEntry.t)
    : list LeaderboardEntry.t :=
  let sorted := upsert b entry in
  if (50 <? length sorted)%nat then take 50 sorted else sorted.

(** [updateLeaderboardEntry(mode, entry)] (file-backed module). *)
Definition updateLeaderboardEntry (mode : Mode) (entry : LeaderboardEntry.t)
    (data : StorageData.t) : StorageData.t :=
  setBoard mode data (upsert (board mode data) entry).

(** [updateLeaderboardEntry(mode, entry)] (Edge Config module). *)
Definition updateLeaderboardEntryEdge (mode : Mode) (entry : LeaderboardEntry.t)
    (data : StorageData.t) : StorageData.t :=
  setBoard mode data (upsertTop50 (board mode data) entry).

(** [getPlayerStats(address)]: [data.playerStats[address] || null]. *)
Definition getPlayerStats (address : string) (data : StorageData.t)
    : option PlayerStats.t :=
  StorageData.playerStats data !! address.

(** [updatePlayerStats(address, stats)]:
    [{ ...data.playerStats[address], ...stats, lastUpdated: Date.now() }]. *)
Definition updatePlayerStats (now : Z) (address : string) (stats : PlayerStats.t)
    (data : StorageData.t) : StorageData.t :=
  let merged :=
    match StorageData.playerStats data !! address with
    | Some old => PlayerStats.spread old stats
    | None => stats
    end in
  let stored :=
    PlayerStats.mk (PlayerStats.address merged) (PlayerStats.username merged)
      (PlayerStats.triggerPulls merged) (PlayerStats.deaths merged)
      (PlayerStats.maxStreak merged) (PlayerStats.currentStreak merged)
      (PlayerStats.lastPlayed merged) (PlayerStats.isPaid merged) (Some now) in
  StorageData.setPlayerStats data (<[address := stored]> (StorageData.playerStats data)).

(** The argument of [updatePrizePool]: the absolute properties of the
    first storage modules and the relative ones of the later revision. *)
Record PoolUpdate : Type := mkUpdate {
  totalAmount : option Q;
  participants : option Z;
  incrementAmount : option Q;
  incrementParticipants : option Z;
  setAmount : option Q;
  setParticipants : option Z
}.

(** [{ totalAmount: a, participants: n }] *)
Definition absolute (a : Q) (n : Z) : PoolUpdate :=
  mkUpdate (Some a) (Some n) None None None None.

(** [{ incrementAmount: a, incrementParticipants: n }] *)
Definition relative (a : Q) (n : Z) : PoolUpdate :=
  mkUpdate None None (Some a) (Some n) None None.

Definition orZeroQ (x : option Q) : Q :=
  match x with
  | Some v => v
  | None => 0%Q
  end.

(** The pool computed by [updatePrizePool] of the file-backed and of the
    first Edge Config module:
    [{ ...data.prizePool, ...update, lastUpdated: Date.now() }]. *)
Definition mergePool (now : Z) (update : PoolUpdate) (pool : PrizePool.t) : PrizePool.t :=
  PrizePool.mk
    (match totalAmount update with Some a => a | None => PrizePool.totalAmount pool end)
    (match participants update with Some n => n | None => PrizePool.participants pool end)
    now.

(** The pool computed by [updatePrizePool] of the revision with relative
    updates: an explicit [setAmount] / [setParticipants] wins, otherwise
    the increment is added to the loaded value. *)
Definition incrementPool (now : Z) (update : PoolUpdate) (pool : PrizePool.t) : PrizePool.t :=
  PrizePool.mk
    (match setAmount update with
     | Some a => a
     | None => Qred (PrizePool.totalAmount pool + orZeroQ (incrementAmount update))
     end)
    (match setParticipants update with
     | Some n => n
     | None => PrizePool.participants pool + Js.orZero (incrementParticipants update)
     end)
    now.

(** [updatePrizePool(update)], first modules. *)
Definition updatePrizePool (now : Z) (update : PoolUpdate) (data : StorageData.t)
    : StorageData.t :=
  StorageData.setPrizePool data (mergePool now update (StorageData.prizePool data)).

(** [updatePrizePool(update)], revision with relative updates. *)
Definition updatePrizePoolAtomic (now : Z) (update : PoolUpdate) (data : StorageData.t)
    : StorageData.t :=
  StorageData.setPrizePool data (incrementPool now update (StorageData.prizePool data)).

(** *** [saveData] and its empty-write guard *)

(** The backend as one instance sees it: the value under the key
    [game-data] ([None] when the key is absent) and the console. *)
Record Backend : Type := mkBackend {
  gameData : option StorageData.t;
  console : list string
}.

Definition entryCount (d : StorageData.t) : nat :=
  (length (StorageData.free d) + length (StorageData.paid d))%nat.

Definition blockedMessages : list string :=
  [ "BLOCKED: Attempting to overwrite existing data with EMPTY leaderboard!";
    "This would DELETE all leaderboard data! Write rejected." ]%string.

(** The guard at the head of [saveData]: with a current document of
    [currentEntries > 0] and a new one of [newEntries === 0]. *)
Definition guardTrips (current : option StorageData.t) (data : StorageData.t) : bool :=
  match current with
  | Some currentData =>
      (0 <? entryCount currentData)%nat && (entryCount data =? 0)%nat
  | None => false
  end.

(** [saveData(data)]: the guard logs two errors and returns; otherwise the
    document is written under [game-data] (the request to the backend is
    taken to succeed). The function returns nothing in both cases. *)
Definition saveData (data : StorageData.t) (st : Backend)
    : Js.Completion unit * Backend :=
  if guardTrips (gameData st) data
  then (Js.Returns tt, mkBackend (gameData st) (console st ++ blockedMessages))
  else (Js.Returns tt, mkBackend (Some data) (console st ++ ["Saved data to Edge Config"%string])).

End Storage.

(** ** The balance ledger *)

(** Modelled from the spec: the balance functions of [app/lib/storage.ts]
    ([getPlayerBalance], [addBalance], [deductBalance], [addPendingPrize],
    [approvePendingPrize]), which the route imports and which are not part
    of the sources at hand. They follow the Balance Ledger of the
    specification ([credit], [debit], [addPendingPrize],
    [approvePendingPrize]). *)
Module Ledger.
Import PlayerBalance.

Inductive LedgerError : Type :=
| DuplicateTransaction
| InsufficientBalance
| InsufficientPending.

Definition message (e : LedgerError) : string :=
  match e with
  | DuplicateTransaction => "DuplicateTransaction"
  | InsufficientBalance => "InsufficientBalance"
  | InsufficientPending => "InsufficientPending"
  end.

(** The record of an address without activity. *)
Definition emptyBalance (now : Z) : PlayerBalance.t :=
  PlayerBalance.mk 0 0 0 0 now [].

Definition getPlayerBalance (now : Z) (address : string) (data : StorageData.t)
    : PlayerBalance.t :=
  match StorageData.playerBalances data !! address with
  | Some b => b
  | None => emptyBalance now
  end.

Definition store (address : string) (b : PlayerBalance.t) (data : StorageData.t)
    : StorageData.t :=
  StorageData.setPlayerBalances data (<[address := b]> (StorageData.playerBalances data)).

(** [externalTxRef] already appears in the transaction history. *)
Definition seen (ref : option string) (history : list Transaction) : bool :=
  match ref with
  | Some r => existsb (fun tx => bool_decide (transactionHash tx = Some r)) history
  | None => false
  end.

(** The record after a credit: [balance += amount], [totalDeposited +=
    amount] for a deposit, and one more transaction. *)
Definition credited (now : Z) (amount : Q) (kind : TxKind)
    (externalTxRef : option string) (b : PlayerBalance.t) : PlayerBalance.t :=
  PlayerBalance.mk
    (Qred (balance b + amount))
    (pendingPrizes b)
    (match kind with
     | deposit => Qred (totalDeposited b + amount)
     | _ => totalDeposited b
     end)
    (totalWithdrawn b)
    now
    (transactions b ++ [mkTx kind amount now externalTxRef]).

(** The record after a debit: [balance -= amount], [totalWithdrawn +=
    amount] for a withdrawal. *)
Definition debited (now : Z) (amount : Q) (kind : TxKind) (b : PlayerBalance.t)
    : PlayerBalance.t :=
  PlayerBalance.mk
    (Qred (balance b - amount))
    (pendingPrizes b)
    (totalDeposited b)
    (match kind with
     | withdrawal => Qred (totalWithdrawn b + amount)
     | _ => totalWithdrawn b
     end)
    now
    (transactions b).

(** The record after an approval: [pendingPrizes -= amount],
    [balance += amount]. *)
Definition approved (now : Z) (amount : Q) (b : PlayerBalance.t) : PlayerBalance.t :=
  PlayerBalance.mk
    (Qred (balance b + amount))
    (Qred (pendingPrizes b - amount))
    (totalDeposited b) (totalWithdrawn b) now (transactions b).

(** [credit(address, amount, kind, externalTxRef?)] *)
Definition addBalance (now : Z) (address : string) (amount : Q) (kind : TxKind)
    (externalTxRef : option string) (data : StorageData.t)
    : LedgerError + (PlayerBalance.t * StorageData.t) :=
  let b := getPlayerBalance now address data in
  if seen externalTxRef (transactions b) then inl DuplicateTransaction
  else
    let b' := credited now amount kind externalTxRef b in
    inr (b', store address b' data).

(** [debit(address, amount, kind)] *)
Definition deductBalance (now : Z) (address : string) (amount : Q) (kind : TxKind)
    (data : StorageData.t) : LedgerError + (PlayerBalance.t * StorageData.t) :=
  let b := getPlayerBalance now address data in
  if Qlt_le_dec (balance b) amount then inl InsufficientBalance
  else
    let b' := debited now amount kind b in
    inr (b', store address b' data).

(** [addPendingPrize(address, amount)] *)
Definition addPendingPrize (now : Z) (address : string) (amount : Q)
    (data : StorageData.t) : PlayerBalance.t * StorageData.t :=
  let b := getPlayerBalance now address data in
  let b' := PlayerBalance.mk (balance b) (Qred (pendingPrizes b + amount))
              (totalDeposited b) (totalWithdrawn b) now (transactions b) in
  (b', store address b' data).

(** [approvePendingPrize(address, amount)] *)
Definition approvePendingPrize (now : Z) (address : string) (amount : Q)
    (data : StorageData.t) : LedgerError + (PlayerBalance.t * StorageData.t) :=
  let b := getPlayerBalance now address data in
  if Qlt_le_dec (pendingPrizes b) amount then inl InsufficientPending
  else
    let b' := approved now amount b in
    inr (b', store address b' data).

End Ledger.

(** ** The prize calculator *)

(** Modelled from the spec: [calculatePrizeDistributionForLeaderboard],
    [saveDistributionLog] and [getDistributionLogs] of
    [app/utils/prizeDistribution.ts], which the route imports and which are
    not part of the sources at hand. They follow the Prize Distribution
    Calculator of the specification and the change log (40% / 25% / 15%,
    10% split among the other players, 10% kept by the house). *)
Module PrizeDistribution.

Record Participant : Type := mkParticipant {
  address : string;
  maxStreak : Z;
  totalPulls : Z;
  totalDeaths : Z
}.

Inductive Status : Type := pending | approved.

Record t : Type := mk {
  dist_address : string;
  amount : Q;
  status : Status;
  distributionId : string;
  timestamp : Z;
  approvedAt : option Z
}.

Record DistributionLog : Type := mkLog {
  log_distributionId : string;
  log_timestamp : Z;
  prizePoolAmount : Q;
  log_participants : nat;
  distributions : list t;
  approvedBy : option string;
  log_approvedAt : option Z
}.

(** The ordering of the leaderboard: more streak first, then more pulls,
    then fewer deaths. *)
Definition compareParticipants (a b : Participant) : Z :=
  if negb (maxStreak b =? maxStreak a) then maxStreak b - maxStreak a
  else if negb (totalPulls b =? totalPulls a) then totalPulls b - totalPulls a
  else totalDeaths a - totalDeaths b.

(** The payout of the participant at position [idx] (0-based) among [n]
    ranked participants. *)
Definition share (totalAmount : Q) (n idx : nat) : Q :=
  match idx with
  | 0%nat => Qred (totalAmount * (40 # 100))
  | 1%nat => Qred (totalAmount * (25 # 100))
  | 2%nat => Qred (totalAmount * (15 # 100))
  | _ => Qred (totalAmount * (10 # 100) / inject_Z (Z.of_nat (n - 3)))
  end.

Definition calculatePrizeDistributionForLeaderboard (now : Z) (newId : string)
    (totalAmount : Q) (entries : list Participant) : list t :=
  let ranked := Js.sort compareParticipants entries in
  imap (fun idx p =>
          mk (address p) (share totalAmount (length ranked) idx) pending newId now None)
       ranked.

(** [saveDistributionLog(log)]: the log is append-only. *)
Definition saveDistributionLog (log : DistributionLog) (logs : list DistributionLog)
    : list DistributionLog :=
  logs ++ [log].

Definition payouts (ds : list t) : list Q := map amount ds.

Definition total (ds : list t) : Q := fold_right Qplus 0%Q (payouts ds).

End PrizeDistribution.

(** ** The blockchain client and the configuration of the route *)

Module Chain.

Inductive ReceiptStatus : Type := success | reverted.

(** [Transfer(address indexed from, address indexed to, uint256 value)] *)
Record TransferEvent : Type := mkTransfer {
  ev_from : string;
  ev_to : string;
  ev_value : N
}.

(** A log entry with the outcome of [decodeEventLog] on it: [None] when
    decoding throws. *)
Record Log : Type := mkLogEntry {
  log_address : string;
  decoded : option TransferEvent
}.

Record Receipt : Type := mkReceipt {
  status : ReceiptStatus;
  receipt_to : option string;
  logs : list Log
}.

Record Transaction : Type := mkTransaction {
  from : string;
  to : option string;
  value : N
}.

(** [publicClient]: both calls throw when the hash is unknown. *)
Record Client : Type := mkClient {
  getTransactionReceipt : string -> Js.Completion Receipt;
  getTransaction : string -> Js.Completion Transaction
}.

Record Config : Type := mkConfig {
  mainnet : bool;
  DEPOSIT_WALLET : option string
}.

Definition USDC_ADDRESS (cfg : Config) : string :=
  if mainnet cfg
  then "0x833589fCD6eDb6E08f4c7C32D4f71b54bdA02913"
  else "0x036CbD53842c5426634e7929541eC2318f3dCF7e".

Definition ETH_DEPOSIT_WALLET : string := "0x0B9188dCE5f4C8a9eAd3BF4d2fAF1A7AFd7027AA".

Definition ETH_PRICE_USD : Double.t := 3000.

(** The loop over [receipt.logs]: the first log of the USDC contract that
    decodes gives [(from, to, value)]; the others are skipped. *)
Fixpoint findTransfer (usdc : string) (ls : list Log) : option TransferEvent :=
  match ls with
  | [] => None
  | l :: r =>
      if Js.sameAddress (log_address l) usdc then
        match decoded l with
        | Some ev => Some ev
        | None => findTransfer usdc r
        end
      else findTransfer usdc r
  end.

End Chain.

(** ** The game route ([POST /api/game]) *)

Module Route.
Import Js.

(** The [stats] object of an [updateStats] request. *)
Record StatsInput : Type := mkStatsInput {
  in_triggerPulls : option Z;
  in_deaths : option Z;
  in_maxStreak : option Z;
  in_isPaid : option bool
}.

(** The JSON body of a request. *)
Record Body : Type := mkBody {
  action : string;
  address : option string;
  username : option string;
  stats : option StatsInput;
  transactionHash : option string;
  expectedAmount : option Q;
  currency : option string;
  amount : option Q;
  distributionId : option string
}.

(** What the server holds: the persisted document, the distribution log
    and the warnings and errors written to the console. *)
Record Server : Type := mkServer {
  data : StorageData.t;
  logs : list PrizeDistribution.DistributionLog;
  console : list string
}.

Definition withData (s : Server) (d : StorageData.t) : Server :=
  mkServer d (logs s) (console s).
Definition consoleLine (s : Server) (line : string) : Server :=
  mkServer (data s) (logs s) (console s ++ [line]).

Inductive Payload : Type :=
| StatsPayload (stats : PlayerStats.t)
| PoolPayload (prizePool : PrizePool.t)
| DistributionPayload (distribution : PrizeDistribution.DistributionLog)
    (prizePool : PrizePool.t)
| LogsPayload (logs : list PrizeDistribution.DistributionLog)
| DepositPayload (balance : PlayerBalance.t) (verifiedAmount : Double.t)
    (currency : string) (usdValue : Double.t) (transactionHash : string)
| BalancePayload (balance : PlayerBalance.t).

(** [NextResponse.json({ success: true, ... })] or
    [NextResponse.json({ error }, { status })]. *)
Inductive Response : Type :=
| Success (payload : Payload)
| Failure (status : Z) (error : string).

Definition truthy (b : option bool) : bool :=
  match b with
  | Some true => true
  | _ => false
  end.

(** [stats.isPaid ? 'paid' : 'free'] *)
Definition modeOf (isPaid : option bool) : Mode :=
  if truthy isPaid then PaidMode else FreeMode.

(** The defaults used when [getPlayerStats] finds nothing. *)
Definition newStats (now : Z) (address : string) : PlayerStats.t :=
  PlayerStats.mk address None (Some 0) (Some 0) (Some 0) (Some 0) (Some now)
    (Some false) None.
Definition newStatsFirstRevision (now : Z) (address : string) : PlayerStats.t :=
  PlayerStats.mk address None (Some 0) (Some 0) (Some 0) None (Some now)
    (Some false) None.
Definition newStatsJoin (now : Z) (address : string) : PlayerStats.t :=
  PlayerStats.mk address None (Some 0) (Some 0) None None (Some now)
    (Some false) None.

(** [getPlayerStats(address) || defaults] *)
Definition existingOr (defaults : PlayerStats.t) (address : string) (d : StorageData.t)
    : PlayerStats.t :=
  match Storage.getPlayerStats address d with
  | Some st => st
  | None => defaults
  end.

(** The entry handed to [updateLeaderboardEntry] by the stat handlers. *)
Definition entryOf (updated : PlayerStats.t) : LeaderboardEntry.t :=
  LeaderboardEntry.mk
    (PlayerStats.address updated)
    (PlayerStats.username updated)
    (orZero (PlayerStats.triggerPulls updated))
    (orZero (PlayerStats.deaths updated))
    (orZero (PlayerStats.maxStreak updated))
    None
    (PlayerStats.isPaid updated)
    (PlayerStats.lastPlayed updated).

(** The same in [updateStats], which writes [isPaid || false]. *)
Definition entryOfFirstRevision (updated : PlayerStats.t) : LeaderboardEntry.t :=
  LeaderboardEntry.mk
    (PlayerStats.address updated)
    (PlayerStats.username updated)
    (orZero (PlayerStats.triggerPulls updated))
    (orZero (PlayerStats.deaths updated))
    (orZero (PlayerStats.maxStreak updated))
    None
    (Some (truthy (PlayerStats.isPaid updated)))
    (PlayerStats.lastPlayed updated).

(** [updatePlayerStats] followed by [updateLeaderboardEntry]. *)
Definition saveStats (now : Z) (address : string) (updated : PlayerStats.t)
    (s : Server) : Server :=
  let d1 := Storage.updatePlayerStats now address updated (data s) in
  withData s
    (Storage.updateLeaderboardEntryEdge
       (modeOf (PlayerStats.isPaid updated)) (entryOf updated) d1).

Definition saveStatsFirstRevision (now : Z) (address : string) (updated : PlayerStats.t)
    (s : Server) : Server :=
  let d1 := Storage.updatePlayerStats now address updated (data s) in
  withData s
    (Storage.updateLeaderboardEntry
       (modeOf (PlayerStats.isPaid updated)) (entryOfFirstRevision updated) d1).

(** [existingStats.isPaid = true] *)
Definition markPaid (st : PlayerStats.t) : PlayerStats.t :=
  PlayerStats.mk (PlayerStats.address st) (PlayerStats.username st)
    (PlayerStats.triggerPulls st) (PlayerStats.deaths st) (PlayerStats.maxStreak st)
    (PlayerStats.currentStreak st) (PlayerStats.lastPlayed st) (Some true)
    (PlayerStats.lastUpdated st).

(** *** First revision of the route *)

(** [action === 'updateStats'] *)
Definition updateStats (now : Z) (body : Body) (s : Server) : Response * Server :=
  match given (address body), stats body with
  | Some addr, Some st =>
      let existingStats := existingOr (newStatsFirstRevision now addr) addr (data s) in
      let updatedStats :=
        PlayerStats.mk
          (PlayerStats.address existingStats)
          (orElseS (username body) (PlayerStats.username existingStats))
          (orElseZ (in_triggerPulls st) (PlayerStats.triggerPulls existingStats))
          (orElseZ (in_deaths st) (PlayerStats.deaths existingStats))
          (match in_maxStreak st with
           | Some m => Some (Z.max (orZero (PlayerStats.maxStreak existingStats)) m)
           | None => Some (orZero (PlayerStats.maxStreak existingStats))
           end)
          (PlayerStats.currentStreak existingStats)
          (Some now)
          (match in_isPaid st with
           | Some b => Some b
           | None => PlayerStats.isPaid existingStats
           end)
          (PlayerStats.lastUpdated existingStats) in
      (Success (StatsPayload updatedStats),
       saveStatsFirstRevision now addr updatedStats s)
  | _, _ => (Failure 400 "Missing data", s)
  end.

(** [action === 'joinPrizePool'], first revision: the handler reads the
    pool with [getData()] and writes absolute values computed from it.
    [snapshot] is the document that [getData()] returned. *)
Definition joinPrizePoolStale (now : Z) (snapshot : StorageData.t) (body : Body)
    (s : Server) : Response * Server :=
  match given (address body) with
  | Some addr =>
      let pool := StorageData.prizePool snapshot in
      let d1 := Storage.updatePrizePool now
                  (Storage.absolute (Qred (PrizePool.totalAmount pool + 1))
                                    (PrizePool.participants pool + 1))
                  (data s) in
      let existingStats := existingOr (newStatsJoin now addr) addr d1 in
      let d2 := Storage.updatePlayerStats now addr (markPaid existingStats) d1 in
      (Success (PoolPayload (StorageData.prizePool d2)), withData s d2)
  | None => (Failure 400 "Missing address", s)
  end.

(** *** Second revision of the route: server-authoritative game events *)

(** [action === 'triggerPull'] *)
Definition triggerPull (now : Z) (body : Body) (s : Server) : Response * Server :=
  match given (address body) with
  | Some addr =>
      let existingStats := existingOr (newStats now addr) addr (data s) in
      let updatedStats :=
        PlayerStats.mk
          (PlayerStats.address existingStats)
          (PlayerStats.username existingStats)
          (Some (orZero (PlayerStats.triggerPulls existingStats) + 1))
          (PlayerStats.deaths existingStats)
          (PlayerStats.maxStreak existingStats)
          (Some (orZero (PlayerStats.currentStreak existingStats) + 1))
          (Some now)
          (PlayerStats.isPaid existingStats)
          (PlayerStats.lastUpdated existingStats) in
      (Success (StatsPayload updatedStats), saveStats now addr updatedStats s)
  | None => (Failure 400 "Missing address", s)
  end.

(** [action === 'death'] *)
Definition death (now : Z) (body : Body) (s : Server) : Response * Server :=
  match given (address body) with
  | Some addr =>
      let existingStats := existingOr (newStats now addr) addr (data s) in
      let updatedStats :=
        PlayerStats.mk
          (PlayerStats.address existingStats)
          (PlayerStats.username existingStats)
          (PlayerStats.triggerPulls existingStats)
          (Some (orZero (PlayerStats.deaths existingStats) + 1))
          (Some (Z.max (orZero (PlayerStats.maxStreak existingStats))
                       (orZero (PlayerStats.currentStreak existingStats))))
          (Some 0)
          (Some now)
          (PlayerStats.isPaid existingStats)
          (PlayerStats.lastUpdated existingStats) in
      (Success (StatsPayload updatedStats), saveStats now addr updatedStats s)
  | None => (Failure 400 "Missing address", s)
  end.

(** [action === 'cashout'] *)
Definition cashout (now : Z) (body : Body) (s : Server) : Response * Server :=
  match given (address body) with
  | Some addr =>
      let existingStats := existingOr (newStats now addr) addr (data s) in
      let updatedStats :=
        PlayerStats.mk
          (PlayerStats.address existingStats)
          (PlayerStats.username existingStats)
          (PlayerStats.triggerPulls existingStats)
          (PlayerStats.deaths existingStats)
          (Some (Z.max (orZero (PlayerStats.maxStreak existingStats)) 7))
          (Some 0)
          (Some now)
          (PlayerStats.isPaid existingStats)
          (PlayerStats.lastUpdated existingStats) in
      (Success (StatsPayload updatedStats), saveStats now addr updatedStats s)
  | None => (Failure 400 "Missing address", s)
  end.

(** [action === 'setUsername'] *)
Definition setUsername (now : Z) (body : Body) (s : Server) : Response * Server :=
  match given (address body), given (username body) with
  | Some addr, Some name =>
      let existingStats := existingOr (newStats now addr) addr (data s) in
      let updatedStats :=
        PlayerStats.mk
          (PlayerStats.address existingStats)
          (Some name)
          (PlayerStats.triggerPulls existingStats)
          (PlayerStats.deaths existingStats)
          (PlayerStats.maxStreak existingStats)
          (PlayerStats.currentStreak existingStats)
          (Some now)
          (PlayerStats.isPaid existingStats)
          (PlayerStats.lastUpdated existingStats) in
      (Success (StatsPayload updatedStats), saveStats now addr updatedStats s)
  | _, _ => (Failure 400 "Missing address or username", s)
  end.

(** [action === 'joinPrizePool'], second revision: one relative update,
    applied by [updatePrizePool] to the document it loads itself. *)
Definition joinPrizePool (now : Z) (body : Body) (s : Server) : Response * Server :=
  match given (address body) with
  | Some addr =>
      let d1 := Storage.updatePrizePoolAtomic now (Storage.relative 1 1) (data s) in
      let existingStats := existingOr (newStatsJoin now addr) addr d1 in
      let d2 := Storage.updatePlayerStats now addr (markPaid existingStats) d1 in
      (Success (PoolPayload (StorageData.prizePool d2)), withData s d2)
  | None => (Failure 400 "Missing address", s)
  end.

(** *** Prize distribution *)

(** [data.leaderboard.paid.map(entry => ({ ... }))] *)
Definition paidEntries (d : StorageData.t) : list PrizeDistribution.Participant :=
  map (fun entry =>
         PrizeDistribution.mkParticipant
           (LeaderboardEntry.address entry)
           (LeaderboardEntry.maxStreak entry)
           (LeaderboardEntry.triggerPulls entry)
           (LeaderboardEntry.deaths entry))
      (StorageData.paid d).

(** The first half of [distributePrizes], on the document [d] that the
    handler loaded: [None] when the request is refused, otherwise the
    distribution log. [newId] is the identifier generated for the
    distribution. *)
Definition calculate (now : Z) (newId : string) (d : StorageData.t)
    : option PrizeDistribution.DistributionLog :=
  let entries := paidEntries d in
  let totalAmount := PrizePool.totalAmount (StorageData.prizePool d) in
  if (length entries =? 0)%nat || Qeq_bool totalAmount 0 then None
  else
    let distributions :=
      PrizeDistribution.calculatePrizeDistributionForLeaderboard
        now newId totalAmount entries in
    Some (PrizeDistribution.mkLog
            (match distributions with
             | dist :: _ => PrizeDistribution.distributionId dist
             | [] => newId
             end)
            now totalAmount (length entries) distributions None None).

(** The second half: [updatePrizePool({ totalAmount: 0, participants: 0 })],
    with the absolute properties of the first storage modules, applied to
    the document current at that moment. *)
Definition resetPool (now : Z) (d : StorageData.t) : StorageData.t :=
  Storage.updatePrizePool now (Storage.absolute 0 0) d.

(** [action === 'distributePrizes']. [interference] stands for the writes
    of other instances that reach the backend after the handler has loaded
    its document and before [updatePrizePool] loads it again. *)
Definition distributePrizesWith (interference : StorageData.t -> StorageData.t)
    (now : Z) (newId : string) (s : Server) : Response * Server :=
  match calculate now newId (data s) with
  | None => (Failure 400 "No participants or empty prize pool", s)
  | Some log =>
      let d' := resetPool now (interference (data s)) in
      (Success (DistributionPayload log (StorageData.prizePool d')),
       mkServer d' (PrizeDistribution.saveDistributionLog log (logs s)) (console s))
  end.

(** The handler on its own, nothing written in between. *)
Definition distributePrizes (now : Z) (newId : string) (s : Server)
    : Response * Server :=
  distributePrizesWith (fun d => d) now newId s.

(** The inner loop of [approveDistribution]: the first pending
    distribution of the user is approved; [None] when there is none. *)
Fixpoint approveFirst (now : Z) (user : string) (ds : list PrizeDistribution.t)
    : option (list PrizeDistribution.t) :=
  match ds with
  | [] => None
  | dist :: r =>
      if sameAddress (PrizeDistribution.dist_address dist) user
         && match PrizeDistribution.status dist with
            | PrizeDistribution.pending => true
            | PrizeDistribution.approved => false
            end
      then Some (PrizeDistribution.mk
                   (PrizeDistribution.dist_address dist)
                   (PrizeDistribution.amount dist)
                   PrizeDistribution.approved
                   (PrizeDistribution.distributionId dist)
                   (PrizeDistribution.timestamp dist)
                   (Some now) :: r)
      else match approveFirst now user r with
           | Some r' => Some (dist :: r')
           | None => None
           end
  end.

Definition stamp (now : Z) (user : string) (ds : list PrizeDistribution.t)
    (log : PrizeDistribution.DistributionLog) : PrizeDistribution.DistributionLog :=
  PrizeDistribution.mkLog
    (PrizeDistribution.log_distributionId log)
    (PrizeDistribution.log_timestamp log)
    (PrizeDistribution.prizePoolAmount log)
    (PrizeDistribution.log_participants log)
    ds (Some user) (Some now).

(** [logs.forEach(log => ...)] with the flag [found] shared by all logs. *)
Fixpoint approveLogs (now : Z) (id user : string) (found : bool)
    (ls : list PrizeDistribution.DistributionLog)
    : bool * list PrizeDistribution.DistributionLog :=
  match ls with
  | [] => (found, [])
  | log :: r =>
      if bool_decide (PrizeDistribution.log_distributionId log = id) then
        match approveFirst now user (PrizeDistribution.distributions log) with
        | Some ds =>
            let (f, r') := approveLogs now id user true r in
            (f, stamp now user ds log :: r')
        | None =>
            let (f, r') := approveLogs now id user found r in
            (f, (if found
                 then stamp now user (PrizeDistribution.distributions log) log
                 else log) :: r')
        end
      else
        let (f, r') := approveLogs now id user found r in (f, log :: r')
  end.

(** How the write of the log file after an approval ends:
    [fs.writeFileSync] returns, or it throws (the directory is not created
    and no [try] stands around the call) and the [catch] of the route
    answers 500. The approved objects were changed in the array that
    [getDistributionLogs()] returned; [kept] says whether that array is what
    [getDistributionLogs()] returns next, which the sources at hand do not
    tell. *)
Inductive LogWrite : Type :=
| LogWritten
| LogWriteThrows (kept : bool).

(** [action === 'approveDistribution'] *)
Definition approveDistribution (now : Z) (write : LogWrite) (body : Body) (s : Server)
    : Response * Server :=
  match given (distributionId body), given (address body) with
  | Some id, Some userAddress =>
      let (found, logs') := approveLogs now id userAddress false (logs s) in
      if found
      then match write with
           | LogWritten =>
               (Success (LogsPayload logs'), mkServer (data s) logs' (console s))
           | LogWriteThrows kept =>
               (Failure 500 "Internal server error",
                mkServer (data s) (if kept then logs' else logs s) (console s))
           end
      else (Failure 404 "Distribution not found", mkServer (data s) logs' (console s))
  | _, _ => (Failure 400 "Missing distributionId or address", s)
  end.

(** *** Server-authoritative balance operations *)

Definition SenderMismatch : Response :=
  Failure 400 "Invalid transaction: sender mismatch".
Definition RecipientMismatch : Response :=
  Failure 400 "Invalid transaction: recipient mismatch".

(** The transfer that the route reads from the chain: [transferFrom],
    [transferTo] and [transferAmount]. *)
Record Transfer : Type := mkTransfer {
  transferFrom : string;
  transferTo : string;
  transferAmount : Double.t
}.

(** What the verification of a deposit establishes: the transferred
    amount in the currency of the transfer and its value in USD. *)
Record Verified : Type := mkVerified {
  verifiedAmount : Double.t;
  usdValue : Double.t
}.

Definition isEth (currency : string) : bool := bool_decide (currency = "ETH"%string).

(** ETH: sender, recipient ([tx.to || '']) and [Number(tx.value) / 1e18]. *)
Definition ethTransfer (tx : Chain.Transaction) : Transfer :=
  mkTransfer
    (Chain.from tx)
    (match Chain.to tx with Some t => t | None => ""%string end)
    (Double.div (Double.ofN (Chain.value tx)) (Double.ofZ (10 ^ 18))).

(** USDC: the decoded transfer event with [Number(value) / 1_000_000];
    without one the three variables keep their initial values [''], ['']
    and [0]. *)
Definition usdcTransfer (cfg : Chain.Config) (receipt : Chain.Receipt) : Transfer :=
  match Chain.findTransfer (Chain.USDC_ADDRESS cfg) (Chain.logs receipt) with
  | Some ev =>
      mkTransfer (Chain.ev_from ev) (Chain.ev_to ev)
        (Double.div (Double.ofN (Chain.ev_value ev)) (Double.ofZ 1000000))
  | None => mkTransfer "" "" 0
  end.

(** The reading of the chain: receipt, status, then the transaction (ETH)
    or the contract and the logs (USDC). *)
Definition readTransfer (cfg : Chain.Config) (client : Chain.Client)
    (hash : string) (currency : string) : Response + Transfer :=
  match Chain.getTransactionReceipt client hash with
  | Throws message => inl (Failure 500 message)
  | Returns receipt =>
      match Chain.status receipt with
      | Chain.reverted => inl (Failure 400 "Transaction failed on-chain")
      | Chain.success =>
          if isEth currency then
            match Chain.getTransaction client hash with
            | Throws message => inl (Failure 500 message)
            | Returns tx => inr (ethTransfer tx)
            end
          else if match Chain.receipt_to receipt with
                  | Some t => negb (sameAddress t (Chain.USDC_ADDRESS cfg))
                  | None => true
                  end
          then inl (Failure 400 "Invalid transaction: not a USDC transfer")
          else inr (usdcTransfer cfg receipt)
      end
  end.

(** The wallet that must receive the transfer: the fixed ETH wallet, or
    [DEPOSIT_WALLET] of the environment. *)
Definition depositWallet (cfg : Chain.Config) (currency : string) : option string :=
  if isEth currency then Some Chain.ETH_DEPOSIT_WALLET else Chain.DEPOSIT_WALLET cfg.

(** [transferTo.toLowerCase() !== wallet?.toLowerCase()] *)
Definition differsFrom (transferTo : string) (wallet : option string) : bool :=
  match wallet with
  | Some w => negb (sameAddress transferTo w)
  | None => true
  end.

(** The two checks on the parties of the transfer, sender first. *)
Definition checkParties (t : Transfer) (address : string) (wallet : option string)
    : option Response :=
  if negb (sameAddress (transferFrom t) address) then Some SenderMismatch
  else if differsFrom (transferTo t) wallet then Some RecipientMismatch
  else None.

(** [usdValue]: the product of doubles [transferAmount * ETH_PRICE_USD], or
    the amount itself for USDC. *)
Definition usdValueOf (currency : string) (t : Transfer) : Double.t :=
  if isEth currency then Double.mul (transferAmount t) Chain.ETH_PRICE_USD
  else transferAmount t.

(** The verification of a deposit (['USDC'] when the body names no
    currency). *)
Definition verifyDeposit (cfg : Chain.Config) (client : Chain.Client)
    (address hash : string) (currency : string) : Response + Verified :=
  match readTransfer cfg client hash currency with
  | inl failure => inl failure
  | inr t =>
      match checkParties t address (depositWallet cfg currency) with
      | Some failure => inl failure
      | None => inr (mkVerified (transferAmount t) (usdValueOf currency t))
      end
  end.

(** [expectedAmount && Math.abs(transferAmount - expectedAmount) > 0.0001],
    in doubles; [expectedAmount] is the decimal of the JSON body, read as
    the double nearest to it. *)
Definition amountMismatch (expectedAmount : option Q) (transferred : Double.t) : bool :=
  match givenQ expectedAmount with
  | Some e => Double.gt (Double.abs (Double.sub transferred (Double.ofQ e)))
                (Double.ofQ 0.0001)
  | None => false
  end.

Definition currencyOf (body : Body) : string :=
  match currency body with
  | Some c => c
  | None => "USDC"%string
  end.

(** [action === 'deposit'] *)
Definition deposit (now : Z) (cfg : Chain.Config) (client : Chain.Client)
    (body : Body) (s : Server) : Response * Server :=
  match given (address body), given (transactionHash body) with
  | Some addr, Some hash =>
      match verifyDeposit cfg client addr hash (currencyOf body) with
      | inl failure => (failure, s)
      | inr v =>
          let s1 := if amountMismatch (expectedAmount body) (verifiedAmount v)
                    then consoleLine s "Amount mismatch"
                    else s in
          match Ledger.addBalance now addr (Double.toQ (usdValue v))
                  PlayerBalance.deposit None (data s1) with
          | inl e => (Failure 500 (Ledger.message e), s1)
          | inr (updated, d') =>
              (Success (DepositPayload updated (verifiedAmount v) (currencyOf body)
                          (usdValue v) hash),
               withData s1 d')
          end
      end
  | _, _ => (Failure 400 "Missing transaction hash", s)
  end.

(** [!address || !amount || amount <= 0] *)
Definition validAmount (body : Body) : option (string * Q) :=
  match given (address body), givenQ (amount body) with
  | Some addr, Some a => if Qle_bool a 0 then None else Some (addr, a)
  | _, _ => None
  end.

(** [action === 'withdraw'] *)
Definition withdraw (now : Z) (body : Body) (s : Server) : Response * Server :=
  match validAmount body with
  | Some (addr, a) =>
      match Ledger.deductBalance now addr a PlayerBalance.withdrawal (data s) with
      | inl e => (Failure 400 (Ledger.message e), s)
      | inr (updated, d') => (Success (BalancePayload updated), withData s d')
      end
  | None => (Failure 400 "Invalid withdrawal data", s)
  end.

(** [action === 'approvePrize'] *)
Definition approvePrize (now : Z) (body : Body) (s : Server) : Response * Server :=
  match validAmount body with
  | Some (addr, a) =>
      match Ledger.approvePendingPrize now addr a (data s) with
      | inl e => (Failure 400 (Ledger.message e), s)
      | inr (updated, d') => (Success (BalancePayload updated), withData s d')
      end
  | None => (Failure 400 "Invalid prize approval data", s)
  end.

(** *** The dispatch on [action] *)

(** What a request depends on besides its body and the server: the clock,
    the identifier generator, the configuration, the blockchain and the
    file system under the distribution logs. *)
Record Env : Type := mkEnv {
  now : Z;
  newId : string;
  config : Chain.Config;
  client : Chain.Client;
  logWrite : LogWrite
}.

(** [POST], second revision. *)
Definition POST (env : Env) (body : Body) (s : Server) : Response * Server :=
  let a := action body in
  if bool_decide (a = "triggerPull"%string) then triggerPull (now env) body s
  else if bool_decide (a = "death"%string) then death (now env) body s
  else if bool_decide (a = "cashout"%string) then cashout (now env) body s
  else if bool_decide (a = "setUsername"%string) then setUsername (now env) body s
  else if bool_decide (a = "joinPrizePool"%string) then joinPrizePool (now env) body s
  else if bool_decide (a = "distributePrizes"%string)
       then distributePrizes (now env) (newId env) s
  else if bool_decide (a = "approveDistribution"%string)
       then approveDistribution (now env) (logWrite env) body s
  else if bool_decide (a = "deposit"%string)
       then deposit (now env) (config env) (client env) body s
  else if bool_decide (a = "withdraw"%string) then withdraw (now env) body s
  else if bool_decide (a = "approvePrize"%string) then approvePrize (now env) body s
  else (Failure 400 "Invalid action", s).

(** [POST], first revision; [getData()] returns the document of the
    server. *)
Definition POSTFirstRevision (env : Env) (body : Body) (s : Server)
    : Response * Server :=
  let a := action body in
  if bool_decide (a = "updateStats"%string) then updateStats (now env) body s
  else if bool_decide (a = "joinPrizePool"%string)
       then joinPrizePoolStale (now env) (data s) body s
  else if bool_decide (a = "distributePrizes"%string)
       then distributePrizes (now env) (newId env) s
  else if bool_decide (a = "approveDistribution"%string)
       then approveDistribution (now env) (logWrite env) body s
  else (Failure 400 "Invalid action", s).

End Route.

(** ** Two instances on one backend *)

(** The backend has no transaction: an instance that runs
    [updatePrizePool] first awaits [loadData()] and later awaits
    [saveData(data)], and steps of another instance may fall in between.
    Each instance keeps what it has read; the backend holds the pool. *)
Module Concurrency.

Inductive Who : Type := A | B.

#[global] Instance Who_eq_dec : EqDecision Who.
Proof. solve_decision. Defined.

(** The awaited steps of a [joinPrizePool] request: the read of the
    handler itself (first revision only), then the load and the save of
    [updatePrizePool]. *)
Inductive Step : Type := GetData | LoadData | SaveData.

Inductive Revision : Type := StaleAbsolute | FreshRelative.

Definition program (r : Revision) : list Step :=
  match r with
  | StaleAbsolute => [GetData; LoadData; SaveData]
  | FreshRelative => [LoadData; SaveData]
  end.

Record Instance : Type := mkInstance {
  todo : list Step;
  snapshot : option PrizePool.t;
  loaded : option PrizePool.t
}.

Record World : Type := mkWorld {
  backend : PrizePool.t;
  instA : Instance;
  instB : Instance
}.

Definition start (r : Revision) (pool : PrizePool.t) : World :=
  mkWorld pool (mkInstance (program r) None None) (mkInstance (program r) None None).

(** The pool that an instance saves. *)
Definition written (r : Revision) (now : Z) (i : Instance) : option PrizePool.t :=
  match loaded i with
  | None => None
  | Some pool =>
      match r with
      | FreshRelative => Some (Storage.incrementPool now (Storage.relative 1 1) pool)
      | StaleAbsolute =>
          match snapshot i with
          | None => None
          | Some seen =>
              Some (Storage.mergePool now
                      (Storage.absolute (Qred (PrizePool.totalAmount seen + 1))
                                        (PrizePool.participants seen + 1))
                      pool)
          end
      end
  end.

(** One step of an instance against the backend. *)
Definition stepInstance (r : Revision) (now : Z) (pool : PrizePool.t) (i : Instance)
    : PrizePool.t * Instance :=
  match todo i with
  | [] => (pool, i)
  | GetData :: rest => (pool, mkInstance rest (Some pool) (loaded i))
  | LoadData :: rest => (pool, mkInstance rest (snapshot i) (Some pool))
  | SaveData :: rest =>
      (match written r now i with Some p => p | None => pool end,
       mkInstance rest (snapshot i) (loaded i))
  end.

Definition step (r : Revision) (now : Z) (w : World) (who : Who) : World :=
  match who with
  | A => let (p, i) := stepInstance r now (backend w) (instA w) in mkWorld p i (instB w)
  | B => let (p, i) := stepInstance r now (backend w) (instB w) in mkWorld p (instA w) i
  end.

(** A schedule names, step by step, the instance that moves. *)
Definition run (r : Revision) (now : Z) (schedule : list Who) (w : World) : World :=
  fold_left (step r now) schedule w.

Definition finished (w : World) : bool :=
  match todo (instA w), todo (instB w) with
  | [], [] => true
  | _, _ => false
  end.

(** The schedules in which one call has saved before the other loads. *)
Definition serial (schedule : list Who) : bool :=
  bool_decide (schedule = [A; A; B; B]) || bool_decide (schedule = [B; B; A; A]).

Definition emptyPool (now : Z) : PrizePool.t := PrizePool.mk 0 0 now.

End Concurrency.

(** ** The properties under study *)

Module Props.

(** The sort key of the leaderboard. *)
Definition key (e : LeaderboardEntry.t) : Z * Z * Z :=
  (LeaderboardEntry.maxStreak e, LeaderboardEntry.triggerPulls e,
   LeaderboardEntry.deaths e).

(** [k1] may stand before [k2]: a larger streak, or the same streak and
    more pulls, or the same streak and pulls and no more deaths. *)
Definition keyBefore (k1 k2 : Z * Z * Z) : Prop :=
  let '(s1, p1, d1) := k1 in
  let '(s2, p2, d2) := k2 in
  s1 > s2 \/ (s1 = s2 /\ (p1 > p2 \/ (p1 = p2 /\ d1 <= d2))).

Definition rankedBefore (a b : LeaderboardEntry.t) : Prop :=
  keyBefore (key a) (key b).

(** Every entry stands before all the entries behind it. *)
Definition sortedBoard (b : list LeaderboardEntry.t) : Prop :=
  StronglySorted rankedBefore b.

(** The ranks are [1, 2, ..., N] in the order of the partition. *)
Definition ranked (b : list LeaderboardEntry.t) : Prop :=
  map LeaderboardEntry.rank b
  = map (fun i => Some (Z.of_nat i)) (seq 1 (length b)).

Definition lowerAddress (e : LeaderboardEntry.t) : string :=
  Js.toLowerCase (LeaderboardEntry.address e).

(** No two entries have the same address up to letter case. *)
Definition uniqueAddresses (b : list LeaderboardEntry.t) : Prop :=
  NoDup (map lowerAddress b).

Definition wellFormed (b : list LeaderboardEntry.t) : Prop :=
  sortedBoard b /\ ranked b /\ uniqueAddresses b.

(** Addresses compared without regard to case, said without
    [toLowerCase]: two characters are the same letter when they are equal
    or when one is an upper-case ASCII letter, [A] (65) to [Z] (90), and the
    other the character 32 codes above it. *)
Definition upperCase (c : ascii) : Prop := (65 <= N_of_ascii c <= 90)%N.

Definition sameLetter (c d : ascii) : Prop :=
  c = d
  \/ (upperCase c /\ N_of_ascii d = (N_of_ascii c + 32)%N)
  \/ (upperCase d /\ N_of_ascii c = (N_of_ascii d + 32)%N).

Fixpoint sameSpelling (a b : string) : Prop :=
  match a, b with
  | EmptyString, EmptyString => True
  | String c r, String d r' => sameLetter c d /\ sameSpelling r r'
  | _, _ => False
  end.

(** Each address, compared without regard to case, stands at one position
    of the partition at most. *)
Definition oncePerAddress (b : list LeaderboardEntry.t) : Prop :=
  forall i j x y,
    b !! i = Some x -> b !! j = Some y ->
    sameSpelling (LeaderboardEntry.address x) (LeaderboardEntry.address y) ->
    i = j.

Definition wellOrdered (b : list LeaderboardEntry.t) : Prop :=
  sortedBoard b /\ ranked b /\ oncePerAddress b.

(** [b'] is [b] with the entry of the address of [e] replaced by [e], ranks
    aside: [e] is in [b']; whatever stands in [b'] under the address of [e]
    is [e]; the entries of [b] under other addresses are in [b']; and
    nothing else is. *)
Definition replaces (b : list LeaderboardEntry.t) (e : LeaderboardEntry.t)
    (b' : list LeaderboardEntry.t) : Prop :=
  (exists r, LeaderboardEntry.setRank e r ∈ b')
  /\ (forall y, y ∈ b' ->
        sameSpelling (LeaderboardEntry.address y) (LeaderboardEntry.address e) ->
        exists r, y = LeaderboardEntry.setRank e r)
  /\ (forall x, x ∈ b ->
        ~ sameSpelling (LeaderboardEntry.address x) (LeaderboardEntry.address e) ->
        exists r, LeaderboardEntry.setRank x r ∈ b')
  /\ (forall y, y ∈ b' ->
        ~ sameSpelling (LeaderboardEntry.address y) (LeaderboardEntry.address e) ->
        exists x r, x ∈ b /\ y = LeaderboardEntry.setRank x r).

(** The streak stored for an address, as every reader takes it:
    [stats.maxStreak || 0], and [0] for an address without statistics. *)
Definition storedMaxStreak (address : string) (d : StorageData.t) : Z :=
  match StorageData.playerStats d !! address with
  | Some st => Js.orZero (PlayerStats.maxStreak st)
  | None => 0
  end.

Definition storedCurrentStreak (address : string) (d : StorageData.t) : Z :=
  match StorageData.playerStats d !! address with
  | Some st => Js.orZero (PlayerStats.currentStreak st)
  | None => 0
  end.

(** The reset of the pool is relative: what the pool holds after
    [distributePrizes] is what it held when [updatePrizePool] loaded it,
    less the amount and the participants of the distribution. *)
Definition relativeReset (interference : StorageData.t -> StorageData.t)
    (now : Z) (newId : string) (s : Route.Server) : Prop :=
  forall log,
    Route.calculate now newId (Route.data s) = Some log ->
    let before := StorageData.prizePool (interference (Route.data s)) in
    let after :=
      StorageData.prizePool
        (Route.data (snd (Route.distributePrizesWith interference now newId s))) in
    (PrizePool.totalAmount after
     == PrizePool.totalAmount before - PrizeDistribution.prizePoolAmount log)%Q
    /\ PrizePool.participants after
       = PrizePool.participants before
         - Z.of_nat (PrizeDistribution.log_participants log).

(** Two renderings of one address: equal up to letter case. *)
Definition sameParty (a b : string) : Prop := Js.toLowerCase a = Js.toLowerCase b.

(** The recipient is the deposit wallet; without a configured wallet no
    recipient is. *)
Definition paysInto (recipient : string) (wallet : option string) : Prop :=
  exists w, wallet = Some w /\ sameParty recipient w.

(** No stored balance and no stored pending prize is negative. *)
Definition nonNegative (d : StorageData.t) : Prop :=
  map_Forall
    (fun _ b => (0 <= PlayerBalance.balance b)%Q /\ (0 <= PlayerBalance.pendingPrizes b)%Q)
    (StorageData.playerBalances d).

End Props.

(** ** Concrete requests and documents *)

Module Examples.
Import Route.

Definition entry (address : string) (streak pulls deaths : Z) : LeaderboardEntry.t :=
  LeaderboardEntry.mk address None pulls deaths streak None (Some true) None.

Definition fourPaid : list LeaderboardEntry.t :=
  fold_left Storage.upsertTop50
    [entry "0xa1" 7 30 1; entry "0xb2" 5 22 3; entry "0xc3" 5 20 3; entry "0xd4" 2 9 4] [].

Definition fivePaid : list LeaderboardEntry.t :=
  Storage.upsertTop50 fourPaid (entry "0xe5" 1 4 2).

(** A document with four paid players and a pool of 100. *)
Definition poolOf100 : StorageData.t :=
  StorageData.mk [] fourPaid (PrizePool.mk 100 4 0) ∅ ∅.

Definition poolOf100Five : StorageData.t :=
  StorageData.mk [] fivePaid (PrizePool.mk 100 5 0) ∅ ∅.

Definition serverOf (d : StorageData.t) : Server := mkServer d [] [].

Definition request (action : string) (address : string) : Body :=
  mkBody action (Some address) None None None None None None None.

(** A fifth player joins the pool through the route. *)
Definition lateJoin (d : StorageData.t) : StorageData.t :=
  data (snd (joinPrizePool 5 (request "joinPrizePool" "0xe5") (serverOf d))).

(** A backend that holds one free entry, and the empty document. *)
Definition oneEntry : StorageData.t :=
  StorageData.mk [entry "0xa1" 3 10 1] [] (PrizePool.mk 0 0 0) ∅ ∅.

Definition holdingOneEntry : Storage.Backend :=
  Storage.mkBackend (Some oneEntry) [].

Definition emptyDocument : StorageData.t := StorageData.initialData 0.

(** A USDC deposit on the test network: alice sends 10 USDC, that is
    10 000 000 units, to the deposit wallet in transaction [0x7a01]. The
    chain reports addresses in lower case. *)
Definition alice : string := "0xA11CE0000000000000000000000000000000000a".
Definition bob : string := "0xB0B0000000000000000000000000000000000000".
Definition wallet : string := "0xDE9051700000000000000000000000000000000F".
Definition elsewhere : string := "0x0000000000000000000000000000000000000bad".

Definition testnet : Chain.Config := Chain.mkConfig false (Some wallet).

Definition usdcReceipt (sender recipient : string) (units : N) : Chain.Receipt :=
  Chain.mkReceipt Chain.success (Some (Js.toLowerCase (Chain.USDC_ADDRESS testnet)))
    [ Chain.mkLogEntry "0x4200000000000000000000000000000000000006" None;
      Chain.mkLogEntry (Js.toLowerCase (Chain.USDC_ADDRESS testnet))
        (Some (Chain.mkTransfer sender recipient units)) ].

Definition chainWith (hash : string) (receipt : Chain.Receipt) : Chain.Client :=
  Chain.mkClient
    (fun h => if bool_decide (h = hash) then Js.Returns receipt
              else Js.Throws "Transaction receipt could not be found")
    (fun h => Js.Throws "Transaction could not be found").

Definition aliceChain : Chain.Client :=
  chainWith "0x7a01" (usdcReceipt (Js.toLowerCase alice) (Js.toLowerCase wallet) 10000000).

(** The same transfer sent by bob, and the same sent to another wallet. *)
Definition bobChain : Chain.Client :=
  chainWith "0x7a01" (usdcReceipt (Js.toLowerCase bob) (Js.toLowerCase wallet) 10000000).
Definition strayChain : Chain.Client :=
  chainWith "0x7a01" (usdcReceipt (Js.toLowerCase alice) elsewhere 10000000).

(** Alice claims the deposit and names an expected amount. *)
Definition depositRequest (expected : Q) : Body :=
  mkBody "deposit" (Some alice) None None (Some "0x7a01"%string) (Some expected)
    None None None.

Definition emptyServer : Server := serverOf emptyDocument.

(** Requests about money and statistics. *)
Definition amountRequest (action : string) (address : string) (amount : Q) : Body :=
  mkBody action (Some address) None None None None None (Some amount) None.

Definition statsRequest (address : string) (streak : Z) : Body :=
  mkBody "updateStats" (Some address) None
    (Some (mkStatsInput None None (Some streak) None)) None None None None None.

Definition seasoned : PlayerStats.t :=
  PlayerStats.mk alice None (Some 12) (Some 2) (Some 4) (Some 6) (Some 0) (Some false)
    None.

Definition seasonedServer : Server :=
  serverOf (StorageData.mk [] [] (PrizePool.mk 0 0 0) {[ alice := seasoned ]} ∅).

Definition env : Env := mkEnv 50 "dist_50" testnet aliceChain LogWritten.

(** The player [0xb2] comes back with a better game; the address is
    written in upper case this time. *)
Definition rejoin : LeaderboardEntry.t := entry "0xB2" 9 40 3.

End Examples.

(** ** The initialisation routes *)

(** [POST /api/init-edge-config] in its two revisions and
    [POST /api/init-game-data]. The store is the value under the key
    [game-data]; the deployment says which environment variables are set,
    whether [get('game-data')] throws, and how the Vercel API answers the
    [PATCH] request. A request that is rejected or that throws leaves the
    store as it is. *)
Module Init.

Inductive Patch : Type :=
| PatchOk
| PatchRejected (status : Z) (details : string)
| PatchThrows (message : string).

Record Deployment : Type := mkDeployment {
  EDGE_CONFIG_ID : option string;
  VERCEL_TOKEN : option string;
  getThrows : bool;
  patch : Patch
}.

(** The answers of the routes: the document was there ([action:
    'skipped']), it has been created, or an error with its status. *)
Inductive Answer : Type :=
| Skipped (existingData : StorageData.t)
| Created (initialData : StorageData.t)
| Refused (status : Z) (error : string).

(** [!edgeConfigId || !vercelToken] *)
Definition unconfigured (env : Deployment) : bool :=
  match Js.given (EDGE_CONFIG_ID env), Js.given (VERCEL_TOKEN env) with
  | Some _, Some _ => false
  | _, _ => true
  end.

(** The [PATCH] with [operation: 'upsert'] of the initial document, and the
    answer built from the response; [failed] is the error text of the route
    for a response that is not ok. *)
Definition create (failed : string) (now : Z) (env : Deployment)
    (store : option StorageData.t) : Answer * option StorageData.t :=
  match patch env with
  | PatchOk => (Created (StorageData.initialData now), Some (StorageData.initialData now))
  | PatchRejected _ _ => (Refused 500 failed, store)
  | PatchThrows _ => (Refused 500 "Internal server error", store)
  end.

(** [POST /api/init-edge-config], first revision: no look at the store. *)
Definition initEdgeConfigFirstRevision (now : Z) (env : Deployment)
    (store : option StorageData.t) : Answer * option StorageData.t :=
  if unconfigured env then (Refused 500 "Missing EDGE_CONFIG_ID or VERCEL_TOKEN", store)
  else create "Failed to initialize" now env store.

(** [POST /api/init-edge-config], second revision: the look at the store
    sits in a [try] of its own, and a failure of it is logged and passed
    over. *)
Definition initEdgeConfig (now : Z) (env : Deployment)
    (store : option StorageData.t) : Answer * option StorageData.t :=
  if unconfigured env then (Refused 500 "Missing EDGE_CONFIG_ID or VERCEL_TOKEN", store)
  else
    match (if getThrows env then None else store) with
    | Some existingData => (Skipped existingData, store)
    | None => create "Failed to initialize" now env store
    end.

(** [POST /api/init-game-data]: the look at the store comes first and is
    covered by the outer [try] only. [seen] is what [get('game-data')] of the
    Edge Config SDK returns; [store] is what the Vercel API holds when the
    [PATCH] arrives. Nothing in the route ties the two: the read goes to the
    Edge Config replica, the write goes to the API later, and it is an
    unconditional [upsert]. *)
Definition initGameData (now : Z) (env : Deployment)
    (seen store : option StorageData.t) : Answer * option StorageData.t :=
  if getThrows env then (Refused 500 "Internal server error", store)
  else
    match seen with
    | Some existingData => (Skipped existingData, store)
    | None =>
        if unconfigured env then (Refused 500 "Server misconfiguration", store)
        else create "Failed to initialize Edge Config" now env store
    end.

End Init.

(** ** The file-backed storage module as a whole *)

(** The module keeps the document in [memoryStore] and in a file. [file] is
    the document that the file parses to, [None] when the file is missing
    or cannot be read or parsed; [writable] says whether [fs.writeFile]
    succeeds. *)
Module FileStorage.

Record State : Type := mkState {
  memoryStore : StorageData.t;
  file : option StorageData.t
}.

(** [loadData()] *)
Definition loadData (st : State) : StorageData.t * State :=
  match file st with
  | Some parsed => (parsed, mkState parsed (file st))
  | None => (memoryStore st, st)
  end.

(** [saveData(data)] *)
Definition saveData (writable : bool) (data : StorageData.t) (st : State) : State :=
  mkState data (if writable then Some data else file st).

(** [getData()] *)
Definition getData (st : State) : StorageData.t := memoryStore st.

(** [initStorage()] *)
Definition initStorage (st : State) : State := snd (loadData st).

Definition updateLeaderboardEntry (writable : bool) (mode : Mode)
    (entry : LeaderboardEntry.t) (st : State) : State :=
  saveData writable (Storage.updateLeaderboardEntry mode entry (getData st)) st.

Definition updatePlayerStats (writable : bool) (now : Z) (address : string)
    (stats : PlayerStats.t) (st : State) : State :=
  saveData writable (Storage.updatePlayerStats now address stats (getData st)) st.

Definition getPlayerStats (address : string) (st : State) : option PlayerStats.t :=
  Storage.getPlayerStats address (getData st).

Definition updatePrizePool (writable : bool) (now : Z) (update : Storage.PoolUpdate)
    (st : State) : State :=
  saveData writable (Storage.updatePrizePool now update (getData st)) st.

End FileStorage.

(** ** The first Edge Config storage module as a whole *)

(** The module keeps the document in [cachedData] with the time of the last
    fetch; [remote] is the value under [game-data] in Edge Config, shared by
    all instances. [getThrows] says whether [get('game-data')] throws,
    [written] whether the update request reaches Edge Config ([saveData]
    does not look at the response). *)
Module EdgeStorage.

Record State : Type := mkState {
  cachedData : StorageData.t;
  lastFetch : Z;
  remote : option StorageData.t
}.

Definition CACHE_TTL : Z := 30000.

(** [loadData()] *)
Definition loadData (now : Z) (getThrows : bool) (st : State) : StorageData.t * State :=
  if now - lastFetch st <? CACHE_TTL then (cachedData st, st)
  else if getThrows then (cachedData st, st)
  else
    match remote st with
    | Some data => (data, mkState data now (remote st))
    | None => (cachedData st, st)
    end.

(** [saveData(data)] *)
Definition saveData (now : Z) (written : bool) (data : StorageData.t) (st : State) : State :=
  mkState data now (if written then Some data else remote st).

(** [getData()] *)
Definition getData (st : State) : StorageData.t := cachedData st.

(** [initStorage()] *)
Definition initStorage (now : Z) (getThrows : bool) (st : State) : State :=
  snd (loadData now getThrows st).

Definition updateLeaderboardEntry (now : Z) (written : bool) (mode : Mode)
    (entry : LeaderboardEntry.t) (st : State) : State :=
  saveData now written (Storage.updateLeaderboardEntryEdge mode entry (getData st)) st.

Definition updatePlayerStats (now : Z) (written : bool) (address : string)
    (stats : PlayerStats.t) (st : State) : State :=
  saveData now written (Storage.updatePlayerStats now address stats (getData st)) st.

Definition getPlayerStats (address : string) (st : State) : option PlayerStats.t :=
  Storage.getPlayerStats address (getData st).

Definition updatePrizePool (now : Z) (written : bool) (update : Storage.PoolUpdate)
    (st : State) : State :=
  saveData now written (Storage.updatePrizePool now update (getData st)) st.

(** An instance that has just started: the empty document of the module
    and no fetch yet. *)
Definition coldStart (started : Z) (remote : option StorageData.t) : State :=
  mkState (StorageData.initialData started) 0 remote.

(** Another instance writes [data] to Edge Config. *)
Definition elsewhereWritten (data : StorageData.t) (st : State) : State :=
  mkState (cachedData st) (lastFetch st) (Some data).

End EdgeStorage.

(** ** The game route ([GET /api/game]) *)

Module Get.
Import Route.

(** The search parameters of the request. *)
Record Query : Type := mkQuery {
  action : option string;
  address : option string;
  mode : option string
}.

Inductive Answer : Type :=
| Board (leaderboard : list LeaderboardEntry.t)
| BoardAndPool (leaderboard : list LeaderboardEntry.t) (prizePool : PrizePool.t)
| Boards (free paid : list LeaderboardEntry.t) (prizePool : PrizePool.t)
| Stats (stats : option PlayerStats.t)
| Balance (balance : PlayerBalance.t)
| Pool (prizePool : PrizePool.t)
| PendingPrizes (pendingPrizes : Q)
| Logs (logs : list PrizeDistribution.DistributionLog)
| Invalid (status : Z) (error : string).

Definition asks (action : option string) (name : string) : bool :=
  bool_decide (action = Some name).

(** [action === 'leaderboard'] with [mode = searchParams.get('mode') || 'all'] *)
Definition leaderboard (q : Query) (d : StorageData.t) : Answer :=
  match Js.given (mode q) with
  | Some m =>
      if bool_decide (m = "free"%string) then Board (StorageData.free d)
      else if bool_decide (m = "paid"%string)
      then BoardAndPool (StorageData.paid d) (StorageData.prizePool d)
      else Boards (StorageData.free d) (StorageData.paid d) (StorageData.prizePool d)
  | None => Boards (StorageData.free d) (StorageData.paid d) (StorageData.prizePool d)
  end.

(** [dist.address.toLowerCase() === address.toLowerCase() &&
    dist.status === 'pending'] *)
Definition pendingFor (address : string) (dist : PrizeDistribution.t) : bool :=
  Js.sameAddress (PrizeDistribution.dist_address dist) address
  && match PrizeDistribution.status dist with
     | PrizeDistribution.pending => true
     | PrizeDistribution.approved => false
     end.

(** The two nested [forEach] of the first revision, adding to
    [totalPending]. *)
Definition addPending (address : string) (totalPending : Q)
    (ds : list PrizeDistribution.t) : Q :=
  fold_left
    (fun total dist =>
       if pendingFor address dist then Qred (total + PrizeDistribution.amount dist)
       else total)
    ds totalPending.

Definition totalPending (address : string) (logs : list PrizeDistribution.DistributionLog)
    : Q :=
  fold_left
    (fun total log => addPending address total (PrizeDistribution.distributions log))
    logs 0%Q.

(** [GET], first revision. *)
Definition GETFirstRevision (q : Query) (s : Server) : Answer :=
  if asks (action q) "leaderboard" then leaderboard q (data s)
  else
    match Js.given (address q) with
    | Some a =>
        if asks (action q) "stats" then Stats (Storage.getPlayerStats a (data s))
        else if asks (action q) "prizepool" then Pool (StorageData.prizePool (data s))
        else if asks (action q) "pendingPrizes" then PendingPrizes (totalPending a (logs s))
        else if asks (action q) "distributionLogs" then Logs (logs s)
        else Invalid 400 "Invalid action"
    | None =>
        if asks (action q) "prizepool" then Pool (StorageData.prizePool (data s))
        else if asks (action q) "distributionLogs" then Logs (logs s)
        else Invalid 400 "Invalid action"
    end.

(** [GET], second revision. The handler begins with
    [const data = await loadData()]: [loaded] is the document that
    [loadData()] returns. It is the document that the storage module holds
    from then on, so [getPlayerStats] and [getPlayerBalance] read it too;
    whether it is the document that this instance wrote last is for the
    storage module to say. The balance and the pending prizes come from
    [getPlayerBalance]; the distribution logs are those of the server. *)
Definition GET (now : Z) (loaded : StorageData.t) (q : Query) (s : Server) : Answer :=
  if asks (action q) "leaderboard" then leaderboard q loaded
  else
    match Js.given (address q) with
    | Some a =>
        if asks (action q) "stats" then Stats (Storage.getPlayerStats a loaded)
        else if asks (action q) "balance"
        then Balance (Ledger.getPlayerBalance now a loaded)
        else if asks (action q) "prizepool" then Pool (StorageData.prizePool loaded)
        else if asks (action q) "pendingPrizes"
        then PendingPrizes
               (PlayerBalance.pendingPrizes (Ledger.getPlayerBalance now a loaded))
        else if asks (action q) "distributionLogs" then Logs (logs s)
        else Invalid 400 "Invalid action"
    | None =>
        if asks (action q) "prizepool" then Pool (StorageData.prizePool loaded)
        else if asks (action q) "distributionLogs" then Logs (logs s)
        else Invalid 400 "Invalid action"
    end.

End Get.

(** ** Further notions used in the statements *)

Module Facts.

(** The partition has an entry under the address, letter case aside. *)
Definition holds (b : list LeaderboardEntry.t) (address : string) : bool :=
  existsb (fun x => Js.sameAddress (LeaderboardEntry.address x) address) b.

(** The addresses of the partition, in order, without those of [entry]. *)
Definition others (entry : LeaderboardEntry.t) (b : list LeaderboardEntry.t) : list string :=
  filter (fun a => Js.sameAddress a (LeaderboardEntry.address entry) = false)
    (map LeaderboardEntry.address b).

(** A counter stored for an address, read as [stats.field || 0]. *)
Definition stored (field : PlayerStats.t -> option Z) (address : string)
    (d : StorageData.t) : Z :=
  match StorageData.playerStats d !! address with
  | Some st => Js.orZero (field st)
  | None => 0
  end.

(** [n] requests in a row, each on the server that the one before left. *)
Definition repeatedly (n : nat) (handler : Route.Server -> Route.Response * Route.Server)
    (s : Route.Server) : Route.Server :=
  Nat.iter n (fun s' => snd (handler s')) s.

(** Who is paid what by a distribution. *)
Definition payee (d : PrizeDistribution.t) : string * Q :=
  (PrizeDistribution.dist_address d, PrizeDistribution.amount d).

(** Who is paid what in a log, in order. *)
Definition payees (log : PrizeDistribution.DistributionLog) : list (string * Q) :=
  map (fun d => (PrizeDistribution.dist_address d, PrizeDistribution.amount d))
    (PrizeDistribution.distributions log).

(** The number of distributions of the logs still pending for an address. *)
Definition pendingCount (address : string)
    (logs : list PrizeDistribution.DistributionLog) : nat :=
  list_sum
    (map (fun log =>
            length (filter (fun d => Get.pendingFor address d = true)
                      (PrizeDistribution.distributions log)))
       logs).

(** Some log with the identifier has a distribution pending for the
    address. *)
Definition approvable (id address : string)
    (logs : list PrizeDistribution.DistributionLog) : bool :=
  existsb
    (fun log =>
       bool_decide (PrizeDistribution.log_distributionId log = id)
       && existsb (Get.pendingFor address) (PrizeDistribution.distributions log))
    logs.

(** The game events of the second revision that name an address only. *)
Definition gameEvents : list (Z -> Route.Body -> Route.Server -> Route.Response * Route.Server) :=
  [Route.triggerPull; Route.death; Route.cashout].

(** Statistics with [lastUpdated] set, as [updatePlayerStats] stores them. *)
Definition stamped (u : PlayerStats.t) (now : Z) : PlayerStats.t :=
  PlayerStats.mk (PlayerStats.address u) (PlayerStats.username u)
    (PlayerStats.triggerPulls u) (PlayerStats.deaths u) (PlayerStats.maxStreak u)
    (PlayerStats.currentStreak u) (PlayerStats.lastPlayed u) (PlayerStats.isPaid u)
    (Some now).

(** A counter after [sent || old]: the value sent unless it is missing or
    0. *)
Definition sent (x : option Z) (old : Z) : Z :=
  match x with
  | Some v => if v =? 0 then old else v
  | None => old
  end.

(** The answer of the route in its first or in its second revision. *)
Definition answer (firstRevision : bool) (env : Route.Env) (body : Route.Body)
    (s : Route.Server) : Route.Response * Route.Server :=
  if firstRevision then Route.POSTFirstRevision env body s else Route.POST env body s.

(** An answer that, when it is an error of the request (a status below
    500), comes with the document and the distribution logs of the server
    [s]. *)
Definition untouched (r : Route.Response * Route.Server) (s : Route.Server) : Prop :=
  forall status error,
    fst r = Route.Failure status error ->
    status < 500 ->
    Route.data (snd r) = Route.data s /\ Route.logs (snd r) = Route.logs s.

(** The body names no address, no amount, or an amount that is not
    positive. *)
Definition noPositiveAmount (body : Route.Body) : Prop :=
  Js.given (Route.address body) = None
  \/ Route.amount body = None
  \/ exists v, Route.amount body = Some v /\ (v <= 0)%Q.

(** A log that the loop over [receipt.logs] passes over: it is not of the
    USDC contract, or it does not decode to a transfer. *)
Definition skipped (usdc : string) (l : Chain.Log) : Prop :=
  Js.sameAddress (Chain.log_address l) usdc = false \/ Chain.decoded l = None.

(** The receipt of a successful transaction sent to the USDC contract. *)
Definition usdcCall (cfg : Chain.Config) (client : Chain.Client) (hash : string)
    (receipt : Chain.Receipt) : Prop :=
  Chain.getTransactionReceipt client hash = Js.Returns receipt
  /\ Chain.status receipt = Chain.success
  /\ exists contract,
       Chain.receipt_to receipt = Some contract
       /\ Js.sameAddress contract (Chain.USDC_ADDRESS cfg) = true.

(** What the deposit handler finds on the chain under a hash: a transfer
    of [amount] from [sender] to [recipient]. For ETH it is the transaction
    of a receipt that succeeded, with [Number(tx.value) / 1e18]; for USDC it
    is the first log of the USDC contract that decodes, in the receipt of a
    call of that contract, with [Number(value) / 1_000_000]. *)
Definition onChain (cfg : Chain.Config) (client : Chain.Client) (hash currency : string)
    (sender recipient : string) (amount : Double.t) : Prop :=
  exists receipt,
    Chain.getTransactionReceipt client hash = Js.Returns receipt
    /\ Chain.status receipt = Chain.success
    /\ if Route.isEth currency
       then exists tx,
              Chain.getTransaction client hash = Js.Returns tx
              /\ Chain.from tx = sender
              /\ Chain.to tx = Some recipient
              /\ amount = Double.div (Double.ofN (Chain.value tx)) (Double.ofZ (10 ^ 18))
       else (exists contract,
                Chain.receipt_to receipt = Some contract
                /\ Js.sameAddress contract (Chain.USDC_ADDRESS cfg) = true)
            /\ exists pre l post ev,
                 Chain.logs receipt = pre ++ l :: post
                 /\ Forall (skipped (Chain.USDC_ADDRESS cfg)) pre
                 /\ Js.sameAddress (Chain.log_address l) (Chain.USDC_ADDRESS cfg) = true
                 /\ Chain.decoded l = Some ev
                 /\ Chain.ev_from ev = sender
                 /\ Chain.ev_to ev = recipient
                 /\ amount
                    = Double.div (Double.ofN (Chain.ev_value ev)) (Double.ofZ 1000000).

(** The amount in the unit of account: 3000 USD for one ETH, one USD for
    one USDC. *)
Definition inUsd (currency : string) (amount : Double.t) : Double.t :=
  if Route.isEth currency then Double.mul amount (Double.ofZ 3000) else amount.

(** The expected amount, when the body names one that is not 0, is more
    than 0.0001 away from the amount, both taken as doubles. *)
Definition beyondTolerance (expectedAmount : option Q) (amount : Double.t) : bool :=
  match expectedAmount with
  | Some expected =>
      negb (Qeq_bool expected 0)
      && Double.gt (Double.abs (Double.sub amount (Double.ofQ expected)))
           (Double.ofQ 0.0001)
  | None => false
  end.

(** The same request with another [expectedAmount]. *)
Definition expecting (body : Route.Body) (expected : option Q) : Route.Body :=
  Route.mkBody (Route.action body) (Route.address body) (Route.username body)
    (Route.stats body) (Route.transactionHash body) expected (Route.currency body)
    (Route.amount body) (Route.distributionId body).

End Facts.

(** ** More concrete data *)

Module Samples.
Import Route.

(** Alice's address as the chain writes it. *)
Definition aliceLower : string := Js.toLowerCase Examples.alice.

(** A deployment whose variables are set and whose backend answers, and
    one whose [get('game-data')] throws. *)
Definition healthy : Init.Deployment :=
  Init.mkDeployment (Some "ecfg_1"%string) (Some "token"%string) false Init.PatchOk.
Definition blind : Init.Deployment :=
  Init.mkDeployment (Some "ecfg_1"%string) (Some "token"%string) true Init.PatchOk.

(** A log of one distribution to two players. *)
Definition twoPrizes : PrizeDistribution.DistributionLog :=
  PrizeDistribution.mkLog "dist_9" 9 100 2
    [ PrizeDistribution.mk "0xa1" 40 PrizeDistribution.pending "dist_9" 9 None;
      PrizeDistribution.mk "0xb2" 25 PrizeDistribution.pending "dist_9" 9 None ]
    None None.

Definition serverWithLog : Server := mkServer Examples.poolOf100 [twoPrizes] [].

Definition approval (id address : string) : Body :=
  mkBody "approveDistribution" (Some address) None None None None None None (Some id).

(** A receipt of the USDC contract in which no log of the contract decodes
    to a transfer. *)
Definition silentChain : Chain.Client :=
  Examples.chainWith "0x7a01"
    (Chain.mkReceipt Chain.success (Some (Chain.USDC_ADDRESS Examples.testnet))
       [ Chain.mkLogEntry "0x4200000000000000000000000000000000000006"
           (Some (Chain.mkTransfer aliceLower (Js.toLowerCase Examples.wallet) 10000000));
         Chain.mkLogEntry (Chain.USDC_ADDRESS Examples.testnet) None ]).

(** Alice chooses a user name. *)
Definition naming : Body :=
  mkBody "setUsername" (Some Examples.alice) (Some "ace"%string) None None None None None
    None.

(** One transaction of the USDC contract with two transfers to the deposit
    wallet: bob's 5 USDC first, then alice's 10 USDC. *)
Definition batchReceipt : Chain.Receipt :=
  Chain.mkReceipt Chain.success (Some (Chain.USDC_ADDRESS Examples.testnet))
    [ Chain.mkLogEntry (Chain.USDC_ADDRESS Examples.testnet)
        (Some (Chain.mkTransfer (Js.toLowerCase Examples.bob)
                 (Js.toLowerCase Examples.wallet) 5000000));
      Chain.mkLogEntry (Chain.USDC_ADDRESS Examples.testnet)
        (Some (Chain.mkTransfer aliceLower (Js.toLowerCase Examples.wallet) 10000000)) ].

Definition batchChain : Chain.Client := Examples.chainWith "0x7a01" batchReceipt.

(** Alice sends 0.07 ETH, that is 70 000 000 000 000 000 wei, to the ETH
    deposit wallet in transaction [0xe7e7], and claims it. *)
Definition ethChain : Chain.Client :=
  Chain.mkClient
    (fun h => if bool_decide (h = "0xe7e7"%string)
              then Js.Returns
                     (Chain.mkReceipt Chain.success
                        (Some (Js.toLowerCase Chain.ETH_DEPOSIT_WALLET)) [])
              else Js.Throws "Transaction receipt could not be found")
    (fun h => if bool_decide (h = "0xe7e7"%string)
              then Js.Returns
                     (Chain.mkTransaction aliceLower
                        (Some (Js.toLowerCase Chain.ETH_DEPOSIT_WALLET))
                        70000000000000000)
              else Js.Throws "Transaction could not be found").

Definition ethRequest : Body :=
  mkBody "deposit" (Some Examples.alice) None None (Some "0xe7e7"%string) (Some 0.07%Q)
    (Some "ETH"%string) None None.

(** Alice sends 0.0011 USDC, that is 1100 units, and her request expects
    0.001. *)
Definition smallChain : Chain.Client :=
  Examples.chainWith "0x7a01"
    (Examples.usdcReceipt aliceLower (Js.toLowerCase Examples.wallet) 1100).

End Samples.

(** * Proofs *)

(** ** The leaderboard *)

Section SortFacts.
Context {A : Type} (cmp : A -> A -> Z) (R : A -> A -> Prop).
Hypothesis cmp_le : forall a b, cmp a b <= 0 -> R a b.
Hypothesis cmp_gt : forall a b, 0 < cmp a b -> R b a.
Hypothesis R_trans : forall a b c, R a b -> R b c -> R a c.

Lemma insertBy_perm (x : A) (l : list A) : Js.insertBy cmp x l ≡ₚ x :: l.
Proof.
  induction l as [|y r IH]; simpl; [reflexivity|].
  destruct (cmp y x <=? 0); [|reflexivity].
  rewrite IH. apply perm_swap.
Qed.

Lemma insertBy_sorted (x : A) (l : list A) :
  StronglySorted R l -> StronglySorted R (Js.insertBy cmp x l).
Proof.
  induction 1 as [|y r Hs IH Hy]; simpl.
  - repeat constructor.
  - destruct (Z.leb_spec (cmp y x) 0) as [Hle|Hgt].
    + constructor; [exact IH|].
      rewrite insertBy_perm. constructor; [auto|exact Hy].
    + constructor; [constructor; assumption|].
      constructor; [auto|].
      eapply Forall_impl; [exact Hy|]. intros z Hz. eauto.
Qed.

Lemma sort_acc_perm (l acc : list A) :
  fold_left (fun acc x => Js.insertBy cmp x acc) l acc ≡ₚ acc ++ l.
Proof.
  revert acc. induction l as [|x r IH]; intros acc; simpl.
  - by rewrite app_nil_r.
  - rewrite IH, insertBy_perm. simpl. apply Permutation_middle.
Qed.

Lemma sort_perm (l : list A) : Js.sort cmp l ≡ₚ l.
Proof. unfold Js.sort. by rewrite sort_acc_perm. Qed.

Lemma sort_acc_sorted (l acc : list A) :
  StronglySorted R acc ->
  StronglySorted R (fold_left (fun acc x => Js.insertBy cmp x acc) l acc).
Proof.
  revert acc. induction l as [|x r IH]; intros acc Hacc; simpl; [exact Hacc|].
  apply IH, insertBy_sorted, Hacc.
Qed.

Lemma sort_sorted (l : list A) : StronglySorted R (Js.sort cmp l).
Proof. apply sort_acc_sorted. constructor. Qed.

Lemma sort_length (l : list A) : length (Js.sort cmp l) = length l.
Proof. apply Permutation_length, sort_perm. Qed.
End SortFacts.

Section Leaderboard.
Import Props Storage.

Lemma compareEntries_le a b : compareEntries a b <= 0 -> rankedBefore a b.
Proof.
  unfold compareEntries, rankedBefore, keyBefore, key.
  destruct (Z.eqb_spec (LeaderboardEntry.maxStreak b) (LeaderboardEntry.maxStreak a));
    simpl; [|lia].
  destruct (Z.eqb_spec (LeaderboardEntry.triggerPulls b) (LeaderboardEntry.triggerPulls a));
    simpl; lia.
Qed.

Lemma compareEntries_gt a b : 0 < compareEntries a b -> rankedBefore b a.
Proof.
  unfold compareEntries, rankedBefore, keyBefore, key.
  destruct (Z.eqb_spec (LeaderboardEntry.maxStreak b) (LeaderboardEntry.maxStreak a));
    simpl; [|lia].
  destruct (Z.eqb_spec (LeaderboardEntry.triggerPulls b) (LeaderboardEntry.triggerPulls a));
    simpl; lia.
Qed.

Lemma keyBefore_trans k1 k2 k3 : keyBefore k1 k2 -> keyBefore k2 k3 -> keyBefore k1 k3.
Proof.
  destruct k1 as [[s1 p1] d1], k2 as [[s2 p2] d2], k3 as [[s3 p3] d3].
  unfold keyBefore. lia.
Qed.

Lemma rankedBefore_trans a b c : rankedBefore a b -> rankedBefore b c -> rankedBefore a c.
Proof. unfold rankedBefore. apply keyBefore_trans. Qed.

Lemma sortedBoard_keys (l : list LeaderboardEntry.t) :
  sortedBoard l <-> StronglySorted keyBefore (map key l).
Proof.
  unfold sortedBoard. induction l as [|x r IH]; simpl.
  - split; constructor.
  - split; intros H; inversion H as [|? ? Hs Hf]; subst; constructor.
    + by apply IH.
    + change (map key r) with (key <$> r). rewrite Forall_fmap. exact Hf.
    + by apply IH.
    + change (map key r) with (key <$> r) in Hf. rewrite Forall_fmap in Hf. exact Hf.
Qed.

Lemma fmap_updateRanks {B : Type} (f : LeaderboardEntry.t -> B) (l : list LeaderboardEntry.t) :
  (forall e r, f (LeaderboardEntry.setRank e r) = f e) ->
  map f (updateRanks l) = map f l.
Proof.
  intros Hf. unfold updateRanks.
  change (map f) with (fmap (M:=list) f). rewrite fmap_imap.
  rewrite <- (imap_const f l). apply imap_ext. intros i e _. simpl. apply Hf.
Qed.

Lemma updateRanks_length (l : list LeaderboardEntry.t) :
  length (updateRanks l) = length l.
Proof. unfold updateRanks. apply length_imap. Qed.

Lemma imap_positions {B C : Type} (g : nat -> C) (l : list B) (n : nat) :
  imap (fun i _ => g (n + i)%nat) l = map g (seq n (length l)).
Proof.
  revert n. induction l as [|x r IH]; intros n; simpl; [reflexivity|].
  f_equal; [f_equal; lia|].
  rewrite <- IH. apply imap_ext. intros i y _. simpl. f_equal. lia.
Qed.

Lemma updateRanks_ranked (l : list LeaderboardEntry.t) : ranked (updateRanks l).
Proof.
  unfold ranked. rewrite updateRanks_length. unfold updateRanks.
  change (map LeaderboardEntry.rank) with (fmap (M:=list) LeaderboardEntry.rank).
  rewrite fmap_imap.
  rewrite <- (imap_positions (fun i => Some (Z.of_nat i)) l 1).
  apply imap_ext. intros i e _. simpl. f_equal. lia.
Qed.

Lemma updateRanks_sorted (l : list LeaderboardEntry.t) :
  sortedBoard l -> sortedBoard (updateRanks l).
Proof.
  rewrite !sortedBoard_keys. rewrite fmap_updateRanks; [tauto|]. reflexivity.
Qed.

Lemma sort_sortedBoard (l : list LeaderboardEntry.t) :
  sortedBoard (Js.sort compareEntries l).
Proof.
  apply sort_sorted.
  - apply compareEntries_le.
  - apply compareEntries_gt.
  - apply rankedBefore_trans.
Qed.

(** [findIndex] answers [-1] or an index of the array. *)
Lemma findIndex_range {B : Type} (p : B -> bool) (l : list B) :
  Js.findIndex p l = -1 \/ 0 <= Js.findIndex p l.
Proof.
  induction l as [|x r IH]; simpl; [by left|].
  destruct (p x); [right; lia|].
  destruct (Z.ltb_spec (Js.findIndex p r) 0); [by left|right; lia].
Qed.

Lemma removeExisting_nil e : removeExisting [] e = [].
Proof. reflexivity. Qed.

Lemma removeExisting_cons x r e :
  removeExisting (x :: r) e =
  if Js.sameAddress (LeaderboardEntry.address x) (LeaderboardEntry.address e)
  then r else x :: removeExisting r e.
Proof.
  unfold removeExisting. simpl.
  destruct (Js.sameAddress (LeaderboardEntry.address x) (LeaderboardEntry.address e));
    [reflexivity|].
  set (p := fun e0 => Js.sameAddress (LeaderboardEntry.address e0) (LeaderboardEntry.address e)).
  destruct (findIndex_range p r) as [Hi|Hi].
  - rewrite Hi. reflexivity.
  - destruct (Z.ltb_spec (Js.findIndex p r) 0); [lia|].
    destruct (Z.leb_spec 0 (Js.findIndex p r + 1)); [|lia].
    destruct (Z.leb_spec 0 (Js.findIndex p r)); [|lia].
    replace (Z.to_nat (Js.findIndex p r + 1)) with (S (Z.to_nat (Js.findIndex p r))) by lia.
    reflexivity.
Qed.

Lemma removeExisting_subset b e x : In x (removeExisting b e) -> In x b.
Proof.
  induction b as [|y r IH]; [by rewrite removeExisting_nil|].
  rewrite removeExisting_cons.
  destruct (Js.sameAddress _ _); simpl; intuition.
Qed.

Lemma sameAddress_true a b : Js.sameAddress a b = true <-> Js.toLowerCase a = Js.toLowerCase b.
Proof. unfold Js.sameAddress. apply bool_decide_eq_true. Qed.

Lemma sameAddress_false a b : Js.sameAddress a b = false <-> Js.toLowerCase a <> Js.toLowerCase b.
Proof. unfold Js.sameAddress. apply bool_decide_eq_false. Qed.

Lemma removeExisting_unique b e :
  uniqueAddresses b ->
  uniqueAddresses (removeExisting b e)
  /\ ~ In (lowerAddress e) (map lowerAddress (removeExisting b e)).
Proof.
  unfold uniqueAddresses. induction b as [|y r IH]; intros Hb.
  - rewrite removeExisting_nil. split; [constructor|intros []].
  - rewrite removeExisting_cons. simpl in Hb. apply NoDup_cons in Hb as [Hy Hr].
    destruct (Js.sameAddress _ _) eqn:Hsame.
    + apply sameAddress_true in Hsame. split; [exact Hr|].
      unfold lowerAddress at 1. rewrite <- Hsame.
      intros Hin. apply Hy. apply list_elem_of_In. exact Hin.
    + apply sameAddress_false in Hsame. destruct (IH Hr) as [IH1 IH2]. split.
      * simpl. apply NoDup_cons. split; [|exact IH1].
        intros Hin. apply Hy. apply list_elem_of_In in Hin. apply list_elem_of_In.
        apply in_map_iff in Hin as (z & Hz & Hin). apply in_map_iff.
        exists z. split; [exact Hz|]. eapply removeExisting_subset, Hin.
      * simpl. intros [Heq|Hin]; [|by apply IH2].
        apply Hsame. exact Heq.
Qed.

Lemma pushed_unique b e :
  uniqueAddresses b -> uniqueAddresses (removeExisting b e ++ [e]).
Proof.
  intros Hb. destruct (removeExisting_unique b e Hb) as [H1 H2].
  unfold uniqueAddresses. rewrite map_app. simpl.
  apply NoDup_app. split; [exact H1|]. split; [|apply NoDup_singleton].
  intros x Hx Hx'. apply list_elem_of_In in Hx.
  apply list_elem_of_singleton in Hx'. subst x. by apply H2.
Qed.

Lemma upsert_wellFormed b e : uniqueAddresses b -> wellFormed (upsert b e).
Proof.
  intros Hb. unfold upsert. split; [|split].
  - apply updateRanks_sorted, sort_sortedBoard.
  - apply updateRanks_ranked.
  - unfold uniqueAddresses. rewrite fmap_updateRanks by reflexivity.
    assert (Hp : map lowerAddress (Js.sort compareEntries (removeExisting b e ++ [e]))
                 ≡ₚ map lowerAddress (removeExisting b e ++ [e]))
      by apply Permutation_map, sort_perm.
    rewrite Hp. apply (pushed_unique b e Hb).
Qed.
Lemma take_wellFormed n b : wellFormed b -> wellFormed (take n b).
Proof.
  intros (Hs & Hr & Hu). split; [|split].
  - unfold sortedBoard in *. rewrite <- (take_drop n b) in Hs.
    by apply StronglySorted_app_1_l in Hs.
  - unfold ranked in *.
    change (map LeaderboardEntry.rank (take n b))
      with (LeaderboardEntry.rank <$> take n b).
    rewrite fmap_take. change (LeaderboardEntry.rank <$> b) with (map LeaderboardEntry.rank b).
    rewrite Hr, length_take.
    change (map (fun i => Some (Z.of_nat i)) (seq 1 (length b)))
      with ((fun i => Some (Z.of_nat i)) <$> seq 1 (length b)).
    by rewrite <- fmap_take, take_seq.
  - unfold uniqueAddresses in *.
    change (map lowerAddress (take n b)) with (lowerAddress <$> take n b).
    rewrite fmap_take. eapply sublist_NoDup; [exact Hu|apply sublist_take].
Qed.

Lemma upsertTop50_wellFormed b e : uniqueAddresses b -> wellFormed (upsertTop50 b e).
Proof.
  intros Hb. unfold upsertTop50.
  destruct (50 <? length (upsert b e))%nat.
  - apply take_wellFormed, upsert_wellFormed, Hb.
  - apply upsert_wellFormed, Hb.
Qed.

Lemma upserts_wellFormed (f : list LeaderboardEntry.t -> LeaderboardEntry.t -> list LeaderboardEntry.t) :
  (forall b e, uniqueAddresses b -> wellFormed (f b e)) ->
  forall entries b, wellFormed b -> wellFormed (fold_left f entries b).
Proof.
  intros Hf entries. induction entries as [|e r IH]; intros b Hb; simpl; [exact Hb|].
  apply IH, Hf, Hb.
Qed.

Lemma empty_wellFormed : wellFormed [].
Proof. split; [constructor|split; [reflexivity|constructor]]. Qed.

(** The pushed entry is in the partition of the file-backed module. *)
Lemma upsert_present b e : In (lowerAddress e) (map lowerAddress (upsert b e)).
Proof.
  unfold upsert. rewrite fmap_updateRanks by reflexivity.
  apply in_map. apply list_elem_of_In.
  rewrite (sort_perm compareEntries). apply list_elem_of_In, in_app_iff.
  right. by left.
Qed.
End Leaderboard.

(** ** The stored streak never decreases *)

Section MaxStreak.
Import Props Route.

Lemma updatePlayerStats_maxStreak now a st d a' :
  storedMaxStreak a' (Storage.updatePlayerStats now a st d) =
  if decide (a = a') then
    match StorageData.playerStats d !! a with
    | Some old => Js.orZero (PlayerStats.over (PlayerStats.maxStreak st)
                                              (PlayerStats.maxStreak old))
    | None => Js.orZero (PlayerStats.maxStreak st)
    end
  else storedMaxStreak a' d.
Proof.
  unfold storedMaxStreak, Storage.updatePlayerStats. simpl.
  destruct (decide (a = a')) as [->|Hne].
  - rewrite lookup_insert_eq. by destruct (StorageData.playerStats d !! a').
  - by rewrite lookup_insert_ne.
Qed.

Lemma setBoard_playerStats mode d b :
  StorageData.playerStats (Storage.setBoard mode d b) = StorageData.playerStats d.
Proof. by destruct mode. Qed.

Lemma storedMaxStreak_ext a d d' :
  StorageData.playerStats d = StorageData.playerStats d' ->
  storedMaxStreak a d = storedMaxStreak a d'.
Proof. unfold storedMaxStreak. by intros ->. Qed.

Lemma saveStats_maxStreak now a u s a' :
  storedMaxStreak a' (data (saveStats now a u s)) =
  storedMaxStreak a' (Storage.updatePlayerStats now a u (data s)).
Proof. apply storedMaxStreak_ext. unfold saveStats. simpl. apply setBoard_playerStats. Qed.

Lemma saveStatsFirstRevision_maxStreak now a u s a' :
  storedMaxStreak a' (data (saveStatsFirstRevision now a u s)) =
  storedMaxStreak a' (Storage.updatePlayerStats now a u (data s)).
Proof.
  apply storedMaxStreak_ext. unfold saveStatsFirstRevision. simpl.
  apply setBoard_playerStats.
Qed.

(** The streak that a handler read: the stored one, or the default. *)
Lemma existing_maxStreak now a d :
  Js.orZero (PlayerStats.maxStreak (existingOr (newStats now a) a d)) = storedMaxStreak a d
  /\ Js.orZero (PlayerStats.maxStreak (existingOr (newStatsFirstRevision now a) a d))
     = storedMaxStreak a d
  /\ Js.orZero (PlayerStats.maxStreak (existingOr (newStatsJoin now a) a d))
     = storedMaxStreak a d.
Proof.
  unfold existingOr, Storage.getPlayerStats, storedMaxStreak.
  by destruct (StorageData.playerStats d !! a).
Qed.

Lemma existing_currentStreak now a d :
  Js.orZero (PlayerStats.currentStreak (existingOr (newStats now a) a d))
  = storedCurrentStreak a d.
Proof.
  unfold existingOr, Storage.getPlayerStats, storedCurrentStreak.
  by destruct (StorageData.playerStats d !! a).
Qed.

(** A handler that hands over the streak it read leaves it as it is. *)
Lemma kept_maxStreak defaults a d :
  Js.orZero (PlayerStats.maxStreak defaults) = 0 ->
  match StorageData.playerStats d !! a with
  | Some old =>
      Js.orZero (PlayerStats.over (PlayerStats.maxStreak (existingOr defaults a d))
                                  (PlayerStats.maxStreak old))
  | None => Js.orZero (PlayerStats.maxStreak (existingOr defaults a d))
  end = storedMaxStreak a d.
Proof.
  intros Hd. unfold existingOr, Storage.getPlayerStats, storedMaxStreak.
  destruct (StorageData.playerStats d !! a) as [old|]; [|exact Hd].
  by destruct (PlayerStats.maxStreak old).
Qed.

Lemma updateStats_maxStreak now body s a st :
  Js.given (address body) = Some a -> stats body = Some st ->
  forall a',
    storedMaxStreak a' (data (snd (updateStats now body s))) =
    if decide (a = a') then
      match in_maxStreak st with
      | Some m => Z.max (storedMaxStreak a (data s)) m
      | None => storedMaxStreak a (data s)
      end
    else storedMaxStreak a' (data s).
Proof.
  intros Ha Hst a'. unfold updateStats. rewrite Ha, Hst. cbv beta iota zeta. cbn [snd].
  rewrite saveStatsFirstRevision_maxStreak, updatePlayerStats_maxStreak.
  destruct (decide (a = a')); [|reflexivity]. simpl.
  destruct (existing_maxStreak now a (data s)) as (_ & -> & _).
  destruct (in_maxStreak st), (StorageData.playerStats (data s) !! a); reflexivity.
Qed.

Lemma death_maxStreak now body s a :
  Js.given (address body) = Some a ->
  forall a',
    storedMaxStreak a' (data (snd (death now body s))) =
    if decide (a = a')
    then Z.max (storedMaxStreak a (data s)) (storedCurrentStreak a (data s))
    else storedMaxStreak a' (data s).
Proof.
  intros Ha a'. unfold death. rewrite Ha. cbv beta iota zeta. cbn [snd].
  rewrite saveStats_maxStreak, updatePlayerStats_maxStreak.
  destruct (decide (a = a')); [|reflexivity]. simpl.
  destruct (existing_maxStreak now a (data s)) as (-> & _).
  rewrite existing_currentStreak.
  destruct (StorageData.playerStats (data s) !! a); reflexivity.
Qed.

Lemma cashout_maxStreak now body s a :
  Js.given (address body) = Some a ->
  forall a',
    storedMaxStreak a' (data (snd (cashout now body s))) =
    if decide (a = a')
    then Z.max (storedMaxStreak a (data s)) 7
    else storedMaxStreak a' (data s).
Proof.
  intros Ha a'. unfold cashout. rewrite Ha. cbv beta iota zeta. cbn [snd].
  rewrite saveStats_maxStreak, updatePlayerStats_maxStreak.
  destruct (decide (a = a')); [|reflexivity]. simpl.
  destruct (existing_maxStreak now a (data s)) as (-> & _).
  destruct (StorageData.playerStats (data s) !! a); reflexivity.
Qed.
Lemma triggerPull_maxStreak now body s a' :
  storedMaxStreak a' (data (snd (triggerPull now body s))) = storedMaxStreak a' (data s).
Proof.
  unfold triggerPull. destruct (Js.given (address body)) as [a|]; [|reflexivity].
  cbv beta iota zeta. cbn [snd].
  rewrite saveStats_maxStreak, updatePlayerStats_maxStreak.
  destruct (decide (a = a')) as [->|]; [|reflexivity]. simpl.
  by apply kept_maxStreak.
Qed.

Lemma setUsername_maxStreak now body s a' :
  storedMaxStreak a' (data (snd (setUsername now body s))) = storedMaxStreak a' (data s).
Proof.
  unfold setUsername. destruct (Js.given (address body)) as [a|]; [|reflexivity].
  destruct (Js.given (username body)) as [name|]; [|reflexivity].
  cbv beta iota zeta. cbn [snd].
  rewrite saveStats_maxStreak, updatePlayerStats_maxStreak.
  destruct (decide (a = a')) as [->|]; [|reflexivity]. simpl.
  by apply kept_maxStreak.
Qed.

Lemma markPaid_kept now a d d1 a' :
  StorageData.playerStats d1 = StorageData.playerStats d ->
  storedMaxStreak a'
    (Storage.updatePlayerStats now a (markPaid (existingOr (newStatsJoin now a) a d1)) d1)
  = storedMaxStreak a' d.
Proof.
  intros Hd. rewrite updatePlayerStats_maxStreak.
  destruct (decide (a = a')) as [->|]; [|by apply storedMaxStreak_ext].
  unfold markPaid. cbn [PlayerStats.maxStreak].
  rewrite (kept_maxStreak (newStatsJoin now a') a' d1) by reflexivity.
  by apply storedMaxStreak_ext.
Qed.

Lemma joinPrizePool_maxStreak now body s a' :
  storedMaxStreak a' (data (snd (joinPrizePool now body s))) = storedMaxStreak a' (data s).
Proof.
  unfold joinPrizePool. destruct (Js.given (address body)) as [a|]; [|reflexivity].
  cbv beta iota zeta. cbn [snd data withData]. by apply markPaid_kept.
Qed.

Lemma joinPrizePoolStale_maxStreak now snapshot body s a' :
  storedMaxStreak a' (data (snd (joinPrizePoolStale now snapshot body s)))
  = storedMaxStreak a' (data s).
Proof.
  unfold joinPrizePoolStale. destruct (Js.given (address body)) as [a|]; [|reflexivity].
  cbv beta iota zeta. cbn [snd data withData]. by apply markPaid_kept.
Qed.

Lemma distributePrizes_playerStats now newId s :
  StorageData.playerStats (data (snd (distributePrizes now newId s)))
  = StorageData.playerStats (data s).
Proof.
  unfold distributePrizes, distributePrizesWith.
  by destruct (calculate now newId (data s)).
Qed.

Lemma approveDistribution_data now write body s :
  data (snd (approveDistribution now write body s)) = data s.
Proof.
  unfold approveDistribution.
  destruct (Js.given (distributionId body)); [|reflexivity].
  destruct (Js.given (address body)); [|reflexivity].
  destruct (approveLogs _ _ _ _ _) as [[] logs']; [|reflexivity].
  by destruct write.
Qed.

Lemma ledger_store_playerStats a b d :
  StorageData.playerStats (Ledger.store a b d) = StorageData.playerStats d.
Proof. reflexivity. Qed.

Lemma deposit_playerStats now cfg client body s :
  StorageData.playerStats (data (snd (deposit now cfg client body s)))
  = StorageData.playerStats (data s).
Proof.
  unfold deposit.
  destruct (Js.given (address body)) as [a|]; [|reflexivity].
  destruct (Js.given (transactionHash body)) as [h|]; [|reflexivity].
  destruct (verifyDeposit _ _ _ _ _) as [f|v]; [reflexivity|].
  unfold Ledger.addBalance.
  destruct (Ledger.seen _ _); cbn [snd data withData];
    destruct (amountMismatch _ _); reflexivity.
Qed.

Lemma withdraw_playerStats now body s :
  StorageData.playerStats (data (snd (withdraw now body s)))
  = StorageData.playerStats (data s).
Proof.
  unfold withdraw. destruct (validAmount body) as [[a q]|]; [|reflexivity].
  unfold Ledger.deductBalance. by destruct (Qlt_le_dec _ _).
Qed.

Lemma approvePrize_playerStats now body s :
  StorageData.playerStats (data (snd (approvePrize now body s)))
  = StorageData.playerStats (data s).
Proof.
  unfold approvePrize. destruct (validAmount body) as [[a q]|]; [|reflexivity].
  unfold Ledger.approvePendingPrize. by destruct (Qlt_le_dec _ _).
Qed.

Lemma death_monotone now body s a' :
  storedMaxStreak a' (data s) <= storedMaxStreak a' (data (snd (death now body s))).
Proof.
  destruct (Js.given (address body)) as [a|] eqn:Ha.
  - rewrite (death_maxStreak now body s a Ha). destruct (decide (a = a')) as [->|]; lia.
  - unfold death. rewrite Ha. simpl. lia.
Qed.

Lemma cashout_monotone now body s a' :
  storedMaxStreak a' (data s) <= storedMaxStreak a' (data (snd (cashout now body s))).
Proof.
  destruct (Js.given (address body)) as [a|] eqn:Ha.
  - rewrite (cashout_maxStreak now body s a Ha). destruct (decide (a = a')) as [->|]; lia.
  - unfold cashout. rewrite Ha. simpl. lia.
Qed.

Lemma updateStats_monotone now body s a' :
  storedMaxStreak a' (data s) <= storedMaxStreak a' (data (snd (updateStats now body s))).
Proof.
  destruct (Js.given (address body)) as [a|] eqn:Ha; [destruct (stats body) as [st|] eqn:Hst|].
  - rewrite (updateStats_maxStreak now body s a st Ha Hst).
    destruct (decide (a = a')) as [->|]; [|lia]. destruct (in_maxStreak st); lia.
  - unfold updateStats. rewrite Ha, Hst. simpl. lia.
  - unfold updateStats. rewrite Ha. simpl. lia.
Qed.

Lemma POST_monotone env body s a' :
  storedMaxStreak a' (data s) <= storedMaxStreak a' (data (snd (POST env body s))).
Proof.
  unfold POST. cbv zeta.
  repeat case_bool_decide.
  - rewrite triggerPull_maxStreak. lia.
  - apply death_monotone.
  - apply cashout_monotone.
  - rewrite setUsername_maxStreak. lia.
  - rewrite joinPrizePool_maxStreak. lia.
  - rewrite (storedMaxStreak_ext _ _ _ (distributePrizes_playerStats _ _ _)). lia.
  - rewrite approveDistribution_data. lia.
  - rewrite (storedMaxStreak_ext _ _ _ (deposit_playerStats _ _ _ _ _)). lia.
  - rewrite (storedMaxStreak_ext _ _ _ (withdraw_playerStats _ _ _)). lia.
  - rewrite (storedMaxStreak_ext _ _ _ (approvePrize_playerStats _ _ _)). lia.
  - simpl. lia.
Qed.

Lemma POSTFirstRevision_monotone env body s a' :
  storedMaxStreak a' (data s)
  <= storedMaxStreak a' (data (snd (POSTFirstRevision env body s))).
Proof.
  unfold POSTFirstRevision. cbv zeta.
  repeat case_bool_decide.
  - apply updateStats_monotone.
  - rewrite joinPrizePoolStale_maxStreak. lia.
  - rewrite (storedMaxStreak_ext _ _ _ (distributePrizes_playerStats _ _ _)). lia.
  - rewrite approveDistribution_data. lia.
  - simpl. lia.
Qed.
End MaxStreak.

(** C10. The streak stored for an address never decreases: a request to
    either revision of the route leaves the stored [maxStreak] of every
    address at least as large as it was. For the address of the request,
    [updateStats] stores the maximum of the stored and the submitted value
    (the stored value when none is submitted), [death] the maximum of the
    stored value and the current streak, and [cashout] the maximum of the
    stored value and 7. *)
Theorem maxStreak_never_decreases :
  (forall env body s a,
      Props.storedMaxStreak a (Route.data s)
      <= Props.storedMaxStreak a (Route.data (snd (Route.POST env body s)))
      /\ Props.storedMaxStreak a (Route.data s)
         <= Props.storedMaxStreak a (Route.data (snd (Route.POSTFirstRevision env body s))))
  /\ (forall now body s a st,
        Js.given (Route.address body) = Some a -> Route.stats body = Some st ->
        Props.storedMaxStreak a (Route.data (snd (Route.updateStats now body s)))
        = match Route.in_maxStreak st with
          | Some m => Z.max (Props.storedMaxStreak a (Route.data s)) m
          | None => Props.storedMaxStreak a (Route.data s)
          end)
  /\ (forall now body s a,
        Js.given (Route.address body) = Some a ->
        Props.storedMaxStreak a (Route.data (snd (Route.death now body s)))
        = Z.max (Props.storedMaxStreak a (Route.data s))
                (Props.storedCurrentStreak a (Route.data s))
        /\ Props.storedMaxStreak a (Route.data (snd (Route.cashout now body s)))
           = Z.max (Props.storedMaxStreak a (Route.data s)) 7).
Proof.
  split; [|split].
  - intros env body s a. split; [apply POST_monotone|apply POSTFirstRevision_monotone].
  - intros now body s a st Ha Hst.
    rewrite (updateStats_maxStreak now body s a st Ha Hst).
    destruct (decide (a = a)); [reflexivity|congruence].
  - intros now body s a Ha. split.
    + rewrite (death_maxStreak now body s a Ha).
      destruct (decide (a = a)); [reflexivity|congruence].
    + rewrite (cashout_maxStreak now body s a Ha).
      destruct (decide (a = a)); [reflexivity|congruence].
Qed.

(** C10 where alice, with a stored streak of 4 and a current streak of 6,
    submits a streak of 9, dies, or cashes out. *)
Lemma maxStreak_never_decreases_witness :
  Props.storedMaxStreak Examples.alice
    (Route.data (snd (Route.updateStats 50 (Examples.statsRequest Examples.alice 9)
                        Examples.seasonedServer))) = 9
  /\ Props.storedMaxStreak Examples.alice
       (Route.data (snd (Route.death 50 (Examples.request "death" Examples.alice)
                           Examples.seasonedServer))) = 6
  /\ Props.storedMaxStreak Examples.alice
       (Route.data (snd (Route.cashout 50 (Examples.request "cashout" Examples.alice)
                           Examples.seasonedServer))) = 7.
Proof.
  split.
  - exact (proj1 (proj2 maxStreak_never_decreases) 50
             (Examples.statsRequest Examples.alice 9) Examples.seasonedServer
             Examples.alice (Route.mkStatsInput None None (Some 9) None)
             eq_refl eq_refl).
  - exact (proj2 (proj2 maxStreak_never_decreases) 50
             (Examples.request "death" Examples.alice) Examples.seasonedServer
             Examples.alice eq_refl).
Defined.

(** ** The prize calculator *)

Section Prizes.
Import PrizeDistribution.

Lemma payouts_by_position now newId totalAmount entries :
  payouts (calculatePrizeDistributionForLeaderboard now newId totalAmount entries)
  = map (share totalAmount (length entries)) (seq 0 (length entries)).
Proof.
  unfold payouts, calculatePrizeDistributionForLeaderboard.
  change (map amount) with (fmap (M:=list) amount). rewrite fmap_imap.
  rewrite (sort_length compareParticipants).
  rewrite <- (sort_length compareParticipants entries) at 2.
  rewrite <- (imap_positions (share totalAmount (length entries)) _ 0).
  apply imap_ext. intros i p _. reflexivity.
Qed.

Lemma share_of_100 (totalAmount : Q) (q : Q) :
  (totalAmount == 100)%Q ->
  Qred (totalAmount * q) = Qred (100 * q).
Proof. intros H. apply Qred_complete. by rewrite H. Qed.

Lemma share_of_100_div (totalAmount : Q) (q d : Q) :
  (totalAmount == 100)%Q ->
  Qred (totalAmount * q / d) = Qred (100 * q / d).
Proof. intros H. apply Qred_complete. by rewrite H. Qed.

Lemma payouts_of_four now newId totalAmount entries :
  length entries = 4%nat -> (totalAmount == 100)%Q ->
  payouts (calculatePrizeDistributionForLeaderboard now newId totalAmount entries)
  = [40; 25; 15; 10]%Q.
Proof.
  intros Hn Ht. rewrite payouts_by_position, Hn. simpl.
  rewrite !(share_of_100 _ _ Ht), (share_of_100_div _ _ _ Ht). reflexivity.
Qed.

Lemma payouts_of_five now newId totalAmount entries :
  length entries = 5%nat -> (totalAmount == 100)%Q ->
  payouts (calculatePrizeDistributionForLeaderboard now newId totalAmount entries)
  = [40; 25; 15; 5; 5]%Q.
Proof.
  intros Hn Ht. rewrite payouts_by_position, Hn. simpl.
  rewrite !(share_of_100 _ _ Ht), !(share_of_100_div _ _ _ Ht). reflexivity.
Qed.




End Prizes.

Section Distribute.
Import Route.

Lemma paidEntries_length d : length (paidEntries d) = length (StorageData.paid d).
Proof. unfold paidEntries. apply length_map. Qed.

Lemma calculate_accepts now newId d :
  length (StorageData.paid d) <> 0%nat ->
  ~ (PrizePool.totalAmount (StorageData.prizePool d) == 0)%Q ->
  exists log,
    calculate now newId d = Some log
    /\ PrizeDistribution.distributions log
       = PrizeDistribution.calculatePrizeDistributionForLeaderboard now newId
           (PrizePool.totalAmount (StorageData.prizePool d)) (paidEntries d)
    /\ PrizeDistribution.prizePoolAmount log
       = PrizePool.totalAmount (StorageData.prizePool d).
Proof.
  intros Hn Ht. unfold calculate. rewrite paidEntries_length.
  destruct (Nat.eqb_spec (length (StorageData.paid d)) 0); [contradiction|].
  destruct (Qeq_bool _ 0) eqn:Hq; [by apply Qeq_bool_iff in Hq|].
  simpl. eexists. split; [reflexivity|]. split; reflexivity.
Qed.


End Distribute.

(** ** The reset of the pool after a distribution *)

Section Reset.
Import Route.

Lemma resetPool_zero now d :
  StorageData.prizePool (resetPool now d) = PrizePool.mk 0 0 now.
Proof. reflexivity. Qed.

Lemma distributePrizesWith_pool interference now newId s log :
  calculate now newId (data s) = Some log ->
  distributePrizesWith interference now newId s
  = (Success (DistributionPayload log (PrizePool.mk 0 0 now)),
     mkServer (resetPool now (interference (data s)))
       (PrizeDistribution.saveDistributionLog log (logs s)) (console s)).
Proof. intros H. unfold distributePrizesWith. by rewrite H. Qed.
(** With the [updatePrizePool] of the revision with relative updates, which
    reads the increments and the explicit sets only, the same call would
    leave the amount and the participants of the pool as they are. *)
Lemma reset_reads_absolute_properties now pool :
  (PrizePool.totalAmount (Storage.incrementPool now (Storage.absolute 0 0) pool)
   == PrizePool.totalAmount pool)%Q
  /\ PrizePool.participants (Storage.incrementPool now (Storage.absolute 0 0) pool)
     = PrizePool.participants pool.
Proof.
  split; simpl.
  - rewrite Qred_correct. ring.
  - lia.
Qed.
End Reset.

(** C2 (as amended). After a successful [distributePrizes] (some paid
    player, a pool that is not 0) the pool holds the amount 0 and 0
    participants, whatever other instances wrote between the calculation and
    the reset: the reset writes the absolute values, it subtracts nothing,
    and a contribution that arrived after the calculation is overwritten
    with the rest. *)
Theorem pool_reset_is_absolute :
  forall interference now newId s,
    length (StorageData.paid (Route.data s)) <> 0%nat ->
    ~ (PrizePool.totalAmount (StorageData.prizePool (Route.data s)) == 0)%Q ->
    exists log,
      fst (Route.distributePrizesWith interference now newId s)
      = Route.Success (Route.DistributionPayload log (PrizePool.mk 0 0 now))
      /\ StorageData.prizePool
           (Route.data (snd (Route.distributePrizesWith interference now newId s)))
         = PrizePool.mk 0 0 now.
Proof.
  intros interference now newId s Hn Ht.
  destruct (calculate_accepts now newId (Route.data s) Hn Ht) as (log & Hlog & _).
  exists log. rewrite (distributePrizesWith_pool interference now newId s log Hlog).
  split; reflexivity.
Qed.

(** The amended C2 at a document with four paid players and a pool of 100,
    a fifth player joining before the reset. *)
Lemma pool_reset_is_absolute_witness :
  exists log,
    fst (Route.distributePrizesWith Examples.lateJoin 9 "dist_9"
           (Examples.serverOf Examples.poolOf100))
    = Route.Success (Route.DistributionPayload log (PrizePool.mk 0 0 9))
    /\ StorageData.prizePool
         (Route.data (snd (Route.distributePrizesWith Examples.lateJoin 9 "dist_9"
                             (Examples.serverOf Examples.poolOf100))))
       = PrizePool.mk 0 0 9.
Proof.
  apply pool_reset_is_absolute.
  - vm_compute. discriminate.
  - intros H. vm_compute in H. discriminate H.
Defined.

(** C2 as stated fails: a player who joins after the calculation raises the
    pool to 101 with 5 participants; the reset leaves 0 and 0, not the 1 and
    1 that a decrement by the distributed 100 and 4 would leave. *)
Lemma pool_reset_wipes_late_join :
  (PrizePool.totalAmount
     (StorageData.prizePool (Examples.lateJoin Examples.poolOf100)) == 101)%Q
  /\ PrizePool.participants
       (StorageData.prizePool (Examples.lateJoin Examples.poolOf100)) = 5
  /\ ~ Props.relativeReset Examples.lateJoin 9 "dist_9"
         (Examples.serverOf Examples.poolOf100).
Proof.
  split; [reflexivity|]. split; [reflexivity|].
  intros H.
  destruct (Route.calculate 9 "dist_9" (Route.data (Examples.serverOf Examples.poolOf100)))
    as [log|] eqn:Hlog; [|vm_compute in Hlog; discriminate].
  destruct (H log Hlog) as [_ Hp].
  assert (Hn : PrizeDistribution.log_participants log = 4%nat).
  { vm_compute in Hlog. injection Hlog as <-. reflexivity. }
  rewrite Hn in Hp. vm_compute in Hp. discriminate.
Qed.

(** ** The empty-write guard of [saveData] *)

Lemma guardTrips_spec current data :
  Storage.guardTrips (Some current) data = true
  <-> (0 < Storage.entryCount current)%nat /\ Storage.entryCount data = 0%nat.
Proof.
  unfold Storage.guardTrips. rewrite andb_true_iff, Nat.ltb_lt, Nat.eqb_eq. tauto.
Qed.

(** C4 (as amended). A [saveData] whose document has no leaderboard entry
    while the stored one has some is not persisted: the stored document
    stays, two error lines are written to the console, and the call returns
    as it does after a write. [saveData] never throws, so the caller is not
    told of the rejection. *)
Theorem empty_write_blocked_without_error :
  (forall data st current,
      Storage.gameData st = Some current ->
      (0 < Storage.entryCount current)%nat ->
      Storage.entryCount data = 0%nat ->
      Storage.saveData data st
      = (Js.Returns tt,
         Storage.mkBackend (Some current)
           (Storage.console st ++ Storage.blockedMessages)))
  /\ (forall data st, fst (Storage.saveData data st) = Js.Returns tt).
Proof.
  split.
  - intros data st current Hc Hpos Hzero. unfold Storage.saveData. rewrite Hc.
    by rewrite (proj2 (guardTrips_spec current data) (conj Hpos Hzero)).
  - intros data st. unfold Storage.saveData. by destruct (Storage.guardTrips _ _).
Qed.

(** The amended C4 at a backend that holds one entry. *)
Lemma empty_write_blocked_without_error_witness :
  Storage.saveData Examples.emptyDocument Examples.holdingOneEntry
  = (Js.Returns tt,
     Storage.mkBackend (Some Examples.oneEntry) Storage.blockedMessages).
Proof.
  apply (proj1 empty_write_blocked_without_error
           Examples.emptyDocument Examples.holdingOneEntry Examples.oneEntry).
  - reflexivity.
  - vm_compute. lia.
  - reflexivity.
Defined.

(** C4 as stated fails: the write of the empty document over a backend with
    one entry trips the guard, and the call returns; no error reaches the
    caller. *)
Lemma empty_write_not_reported :
  Storage.guardTrips (Storage.gameData Examples.holdingOneEntry) Examples.emptyDocument
  = true
  /\ ~ exists message,
         fst (Storage.saveData Examples.emptyDocument Examples.holdingOneEntry)
         = Js.Throws message.
Proof.
  split; [reflexivity|]. intros [message H]. vm_compute in H. discriminate H.
Qed.

(** ** Two joins at the same time *)

Section Joins.
Import Concurrency.

Lemma schedule_of_two_calls (schedule : list Who) :
  schedule ≡ₚ [A; A; B; B] ->
  schedule = [A; A; B; B] \/ schedule = [A; B; A; B] \/ schedule = [A; B; B; A]
  \/ schedule = [B; A; A; B] \/ schedule = [B; A; B; A] \/ schedule = [B; B; A; A].
Proof.
  intros Hp.
  pose proof (Permutation_length Hp) as Hlen.
  pose proof (proj1 (Permutation_count_occ Who_eq_dec schedule [A; A; B; B]) Hp A) as Hc.
  destruct schedule as [|w1 [|w2 [|w3 [|w4 [|w5 r]]]]]; try discriminate Hlen.
  destruct w1, w2, w3, w4; vm_compute in Hc; try discriminate Hc; tauto.
Qed.
End Joins.

(** C9 (as amended). Two [joinPrizePool] calls of the revision with
    relative updates, each a load followed by a save, start from the pool
    {0, 0}. Whatever the order of their four steps, both calls finish. When
    one call saves before the other loads, in either order, the pool ends as
    {2, 2}; in the four other orders both calls load the same pool and it
    ends as {1, 1}. With the first revision, where the handler reads the pool
    before [updatePrizePool] loads and saves, the pool ends as {1, 1} even
    when the two [updatePrizePool] calls run one after the other. *)
Theorem concurrent_joins :
  (forall now schedule,
      schedule ≡ₚ [Concurrency.A; Concurrency.A; Concurrency.B; Concurrency.B] ->
      let final :=
        Concurrency.run Concurrency.FreshRelative now schedule
          (Concurrency.start Concurrency.FreshRelative (Concurrency.emptyPool now)) in
      Concurrency.finished final = true
      /\ (Concurrency.serial schedule = true ->
          Concurrency.backend final = PrizePool.mk 2 2 now)
      /\ (Concurrency.serial schedule = false ->
          Concurrency.backend final = PrizePool.mk 1 1 now))
  /\ (forall now,
        Concurrency.backend
          (Concurrency.run Concurrency.StaleAbsolute now
             [Concurrency.A; Concurrency.B; Concurrency.A; Concurrency.A;
              Concurrency.B; Concurrency.B]
             (Concurrency.start Concurrency.StaleAbsolute (Concurrency.emptyPool now)))
        = PrizePool.mk 1 1 now).
Proof.
  split; [|reflexivity].
  intros now schedule Hp.
  destruct (schedule_of_two_calls schedule Hp) as [-> | [-> | [-> | [-> | [-> | ->]]]]];
    (split; [reflexivity|split; intros Hs; [|]];
     first [reflexivity | discriminate Hs]).
Qed.

(** The amended C9 at the order in which the first call runs to its end
    before the second starts. *)
Lemma concurrent_joins_witness :
  Concurrency.backend
    (Concurrency.run Concurrency.FreshRelative 0
       [Concurrency.A; Concurrency.A; Concurrency.B; Concurrency.B]
       (Concurrency.start Concurrency.FreshRelative (Concurrency.emptyPool 0)))
  = PrizePool.mk 2 2 0.
Proof.
  apply (proj1 concurrent_joins 0
           [Concurrency.A; Concurrency.A; Concurrency.B; Concurrency.B]).
  - reflexivity.
  - reflexivity.
Defined.

(** C9 as stated fails: when both calls load the pool {0, 0} before either
    saves, each saves {1, 1}; one increment is lost. *)
Lemma concurrent_joins_lose_an_increment :
  let final :=
    Concurrency.backend
      (Concurrency.run Concurrency.FreshRelative 0
         [Concurrency.A; Concurrency.B; Concurrency.A; Concurrency.B]
         (Concurrency.start Concurrency.FreshRelative (Concurrency.emptyPool 0))) in
  final = PrizePool.mk 1 1 0
  /\ ~ ((PrizePool.totalAmount final == 2)%Q /\ PrizePool.participants final = 2).
Proof.
  split; [reflexivity|]. intros [_ H]. vm_compute in H. discriminate H.
Qed.

(** ** Deposits *)

Section Deposits.
Import Route.

(** What a deposit does once the verification has passed. *)
Lemma deposit_verified now cfg client body s a h v :
  Js.given (address body) = Some a ->
  Js.given (transactionHash body) = Some h ->
  verifyDeposit cfg client a h (currencyOf body) = inr v ->
  let updated :=
    Ledger.credited now (usdValue v) PlayerBalance.deposit None
      (Ledger.getPlayerBalance now a (data s)) in
  deposit now cfg client body s
  = (Success (DepositPayload updated (verifiedAmount v) (currencyOf body) (usdValue v) h),
     mkServer (Ledger.store a updated (data s)) (logs s)
       (console s ++ if amountMismatch (expectedAmount body) (verifiedAmount v)
                     then ["Amount mismatch"%string] else [])).
Proof.
  intros Ha Hh Hv. unfold deposit. rewrite Ha, Hh, Hv.
  unfold Ledger.addBalance.
  destruct (amountMismatch _ _); cbn; [reflexivity|].
  by rewrite app_nil_r.
Qed.

Lemma deposit_rejected now cfg client body s a h failure :
  Js.given (address body) = Some a ->
  Js.given (transactionHash body) = Some h ->
  verifyDeposit cfg client a h (currencyOf body) = inl failure ->
  deposit now cfg client body s = (failure, s).
Proof. intros Ha Hh Hv. unfold deposit. by rewrite Ha, Hh, Hv. Qed.

Lemma stored_balance now a b d :
  Ledger.getPlayerBalance now a (Ledger.store a b d) = b.
Proof.
  unfold Ledger.getPlayerBalance, Ledger.store. simpl. by rewrite lookup_insert_eq.
Qed.

Lemma verifyDeposit_passes cfg client a h cur t :
  readTransfer cfg client h cur = inr t ->
  checkParties t a (depositWallet cfg cur) = None ->
  verifyDeposit cfg client a h cur
  = inr (mkVerified (transferAmount t) (usdValueOf cur t)).
Proof. intros Ht Hc. unfold verifyDeposit. by rewrite Ht, Hc. Qed.

Lemma verifyDeposit_inv cfg client a h cur v :
  verifyDeposit cfg client a h cur = inr v ->
  exists t,
    readTransfer cfg client h cur = inr t
    /\ checkParties t a (depositWallet cfg cur) = None
    /\ v = mkVerified (transferAmount t) (usdValueOf cur t).
Proof.
  unfold verifyDeposit. destruct (readTransfer _ _ _ _) as [f|t]; [discriminate|].
  destruct (checkParties _ _ _) eqn:Hc; [discriminate|].
  intros [= <-]. by exists t.
Qed.

Lemma checkParties_None t a wallet :
  checkParties t a wallet = None
  <-> Js.sameAddress (transferFrom t) a = true /\ differsFrom (transferTo t) wallet = false.
Proof.
  unfold checkParties.
  destruct (Js.sameAddress (transferFrom t) a), (differsFrom (transferTo t) wallet);
    simpl; split; intros H; try discriminate; try tauto; destruct H; discriminate.
Qed.
Lemma differsFrom_true recipient wallet :
  ~ Props.paysInto recipient wallet <-> differsFrom recipient wallet = true.
Proof.
  unfold Props.paysInto, Props.sameParty, differsFrom.
  destruct wallet as [w|].
  - rewrite negb_true_iff, sameAddress_false. split.
    + intros H Heq. apply H. by exists w.
    + intros H (w' & [= <-] & Heq). by apply H.
  - split; [reflexivity|]. intros _ (w & Hw & _). discriminate Hw.
Qed.

Lemma differsFrom_false recipient wallet :
  Props.paysInto recipient wallet <-> differsFrom recipient wallet = false.
Proof.
  unfold Props.paysInto, Props.sameParty, differsFrom.
  destruct wallet as [w|].
  - rewrite negb_false_iff, sameAddress_true. split.
    + by intros (w' & [= <-] & Heq).
    + intros H. by exists w.
  - split; [|discriminate]. intros (w & Hw & _). discriminate Hw.
Qed.
End Deposits.

(** C6. When the chain has been read, a transfer whose sender differs from
    the claimed address is answered with the sender mismatch, and one whose
    sender is the claimed address and whose recipient differs from the
    deposit wallet with the recipient mismatch; the server is left as it
    was, so nothing is credited, whatever the transferred and the expected
    amount. Addresses differ when they differ beyond letter case, and the
    deposit wallet is [ETH_DEPOSIT_WALLET] for ETH and [DEPOSIT_WALLET]
    otherwise. Conversely a deposit that succeeds has read a transfer from
    the claimed address to the deposit wallet. *)
Theorem deposit_rejects_wrong_parties :
  (forall now cfg client body s a h t,
      Js.given (Route.address body) = Some a ->
      Js.given (Route.transactionHash body) = Some h ->
      Route.readTransfer cfg client h (Route.currencyOf body) = inr t ->
      (~ Props.sameParty (Route.transferFrom t) a ->
       Route.deposit now cfg client body s = (Route.SenderMismatch, s))
      /\ (Props.sameParty (Route.transferFrom t) a ->
          ~ Props.paysInto (Route.transferTo t)
              (Route.depositWallet cfg (Route.currencyOf body)) ->
          Route.deposit now cfg client body s = (Route.RecipientMismatch, s)))
  /\ (forall now cfg client body s payload s',
        Route.deposit now cfg client body s = (Route.Success payload, s') ->
        exists a h t,
          Js.given (Route.address body) = Some a
          /\ Js.given (Route.transactionHash body) = Some h
          /\ Route.readTransfer cfg client h (Route.currencyOf body) = inr t
          /\ Props.sameParty (Route.transferFrom t) a
          /\ Props.paysInto (Route.transferTo t)
               (Route.depositWallet cfg (Route.currencyOf body))).
Proof.
  split.
  - intros now cfg client body s a h t Ha Hh Ht. split.
    + intros Hs. apply sameAddress_false in Hs.
      apply (deposit_rejected now cfg client body s a h _ Ha Hh).
      unfold Route.verifyDeposit, Route.checkParties. by rewrite Ht, Hs.
    + intros Hs Hr. apply sameAddress_true in Hs. apply differsFrom_true in Hr.
      apply (deposit_rejected now cfg client body s a h _ Ha Hh).
      unfold Route.verifyDeposit, Route.checkParties. by rewrite Ht, Hs, Hr.
  - intros now cfg client body s payload s' H.
    unfold Route.deposit in H.
    destruct (Js.given (Route.address body)) as [a|] eqn:Ha; [|discriminate H].
    destruct (Js.given (Route.transactionHash body)) as [h|] eqn:Hh; [|discriminate H].
    destruct (Route.verifyDeposit cfg client a h (Route.currencyOf body)) as [f|v] eqn:Hv.
    + exfalso. injection H as Hf _.
      unfold Route.verifyDeposit in Hv.
      destruct (Route.readTransfer _ _ _ _) as [f'|t] eqn:Ht.
      * injection Hv as <-. unfold Route.readTransfer in Ht.
        destruct (Chain.getTransactionReceipt client h) as [receipt|m]; [|congruence].
        destruct (Chain.status receipt); [|congruence].
        destruct (Route.isEth _).
        -- destruct (Chain.getTransaction client h); congruence.
        -- destruct (match Chain.receipt_to receipt with Some _ => _ | None => _ end);
             congruence.
      * unfold Route.checkParties in Hv.
        destruct (negb _); [injection Hv as <-; discriminate Hf|].
        destruct (Route.differsFrom _ _); [injection Hv as <-; discriminate Hf|].
        discriminate Hv.
    + apply verifyDeposit_inv in Hv as (t & Ht & Hc & _).
      apply checkParties_None in Hc as [Hs Hr].
      apply sameAddress_true in Hs. apply differsFrom_false in Hr.
      by exists a, h, t.
Qed.

(** C6 where bob sent the 10 USDC that alice claims, and where alice sent
    them to another wallet. *)
Lemma deposit_rejects_wrong_parties_witness :
  Route.deposit 50 Examples.testnet Examples.bobChain
    (Examples.depositRequest 10) Examples.emptyServer
  = (Route.SenderMismatch, Examples.emptyServer)
  /\ Route.deposit 50 Examples.testnet Examples.strayChain
       (Examples.depositRequest 10) Examples.emptyServer
     = (Route.RecipientMismatch, Examples.emptyServer).
Proof.
  split.
  - apply (proj1 (proj1 deposit_rejects_wrong_parties 50 Examples.testnet
                    Examples.bobChain (Examples.depositRequest 10) Examples.emptyServer
                    Examples.alice "0x7a01"
                    (Route.mkTransfer (Js.toLowerCase Examples.bob)
                       (Js.toLowerCase Examples.wallet) 10)
                    eq_refl eq_refl eq_refl)).
    intros H. vm_compute in H. discriminate H.
  - apply (proj2 (proj1 deposit_rejects_wrong_parties 50 Examples.testnet
                    Examples.strayChain (Examples.depositRequest 10) Examples.emptyServer
                    Examples.alice "0x7a01"
                    (Route.mkTransfer (Js.toLowerCase Examples.alice)
                       Examples.elsewhere 10)
                    eq_refl eq_refl eq_refl)).
    + reflexivity.
    + intros (w & Hw & H). injection Hw as <-. vm_compute in H. discriminate H.
Defined.

(** C1 (as amended). The deposit handler hands [addBalance] the address,
    the verified amount and the kind, and no transaction reference. A
    request that has been credited is credited again when it is repeated:
    both responses are successes, the balance grows by the verified amount
    each time, and the history gains two deposits without a reference. *)
Theorem deposit_twice_credits_twice :
  forall now1 now2 cfg client body s a h v,
    Js.given (Route.address body) = Some a ->
    Js.given (Route.transactionHash body) = Some h ->
    Route.verifyDeposit cfg client a h (Route.currencyOf body) = inr v ->
    exists b1 s1 b2 s2,
      Route.deposit now1 cfg client body s
      = (Route.Success
           (Route.DepositPayload b1 (Route.verifiedAmount v) (Route.currencyOf body)
              (Route.usdValue v) h), s1)
      /\ Route.deposit now2 cfg client body s1
         = (Route.Success
              (Route.DepositPayload b2 (Route.verifiedAmount v) (Route.currencyOf body)
                 (Route.usdValue v) h), s2)
      /\ PlayerBalance.balance b1
         = Qred (PlayerBalance.balance (Ledger.getPlayerBalance now1 a (Route.data s))
                 + Route.usdValue v)
      /\ PlayerBalance.balance b2 = Qred (PlayerBalance.balance b1 + Route.usdValue v)
      /\ PlayerBalance.transactions b2
         = PlayerBalance.transactions (Ledger.getPlayerBalance now1 a (Route.data s))
           ++ [PlayerBalance.mkTx PlayerBalance.deposit (Route.usdValue v) now1 None;
               PlayerBalance.mkTx PlayerBalance.deposit (Route.usdValue v) now2 None].
Proof.
  intros now1 now2 cfg client body s a h v Ha Hh Hv.
  eexists. eexists. eexists. eexists.
  split; [apply (deposit_verified now1 cfg client body s a h v Ha Hh Hv)|].
  split; [apply (deposit_verified now2 cfg client body _ a h v Ha Hh Hv)|].
  cbn [Route.data]. rewrite stored_balance.
  split; [reflexivity|]. split; [reflexivity|].
  cbn. by rewrite <- app_assoc.
Qed.

(** The amended C1 where alice claims her transfer of 10 USDC twice. *)
Lemma deposit_twice_credits_twice_witness :
  exists b1 s1 b2 s2,
    Route.deposit 50 Examples.testnet Examples.aliceChain
      (Examples.depositRequest 10) Examples.emptyServer
    = (Route.Success (Route.DepositPayload b1 10 "USDC" 10 "0x7a01"), s1)
    /\ Route.deposit 51 Examples.testnet Examples.aliceChain (Examples.depositRequest 10) s1
       = (Route.Success (Route.DepositPayload b2 10 "USDC" 10 "0x7a01"), s2)
    /\ PlayerBalance.balance b1 = 10%Q
    /\ PlayerBalance.balance b2 = Qred (PlayerBalance.balance b1 + 10)
    /\ PlayerBalance.transactions b2
       = [PlayerBalance.mkTx PlayerBalance.deposit 10 50 None;
          PlayerBalance.mkTx PlayerBalance.deposit 10 51 None].
Proof.
  exact (deposit_twice_credits_twice 50 51 Examples.testnet Examples.aliceChain
           (Examples.depositRequest 10) Examples.emptyServer Examples.alice "0x7a01"
           (Route.mkVerified 10 10) eq_refl eq_refl eq_refl).
Defined.

(** C1 as stated fails: alice's second claim of the same transaction is not
    refused as a duplicate; it succeeds and her balance goes from 10 to 20. *)
Lemma repeated_deposit_is_credited_again :
  let first :=
    Route.deposit 50 Examples.testnet Examples.aliceChain
      (Examples.depositRequest 10) Examples.emptyServer in
  let second :=
    Route.deposit 51 Examples.testnet Examples.aliceChain
      (Examples.depositRequest 10) (snd first) in
  PlayerBalance.balance
    (Ledger.getPlayerBalance 0 Examples.alice (Route.data (snd first))) = 10%Q
  /\ PlayerBalance.balance
       (Ledger.getPlayerBalance 0 Examples.alice (Route.data (snd second))) = 20%Q
  /\ (forall status error, fst second <> Route.Failure status error).
Proof.
  split; [reflexivity|]. split; [reflexivity|].
  intros status error H. vm_compute in H. discriminate H.
Qed.

(** ** Balances and pending prizes stay non-negative *)

Section Balances.
Import Props Route.

Lemma nonNegative_ext d d' :
  StorageData.playerBalances d' = StorageData.playerBalances d ->
  nonNegative d -> nonNegative d'.
Proof. unfold nonNegative. by intros ->. Qed.

Lemma nonNegative_get now a d :
  nonNegative d ->
  (0 <= PlayerBalance.balance (Ledger.getPlayerBalance now a d))%Q
  /\ (0 <= PlayerBalance.pendingPrizes (Ledger.getPlayerBalance now a d))%Q.
Proof.
  intros Hd. unfold Ledger.getPlayerBalance.
  destruct (StorageData.playerBalances d !! a) as [b|] eqn:Hb.
  - exact (Hd a b Hb).
  - split; apply Qle_refl.
Qed.

Lemma nonNegative_store a b d :
  nonNegative d ->
  (0 <= PlayerBalance.balance b)%Q -> (0 <= PlayerBalance.pendingPrizes b)%Q ->
  nonNegative (Ledger.store a b d).
Proof.
  intros Hd Hb Hp. unfold nonNegative, Ledger.store. simpl.
  apply map_Forall_insert_2; [by split|exact Hd].
Qed.

Lemma sum_nonneg (x y : Q) : (0 <= x)%Q -> (0 <= y)%Q -> (0 <= Qred (x + y))%Q.
Proof.
  intros Hx Hy. rewrite Qred_correct.
  setoid_replace 0%Q with (0 + 0)%Q using relation Qeq by ring.
  by apply Qplus_le_compat.
Qed.

Lemma difference_nonneg (x y : Q) : (y <= x)%Q -> (0 <= Qred (x - y))%Q.
Proof. intros H. rewrite Qred_correct. by apply Qle_minus_iff in H. Qed.

Lemma round_sign sx mx ex lx :
  Double.negative (Double.mk (binary_round_aux Double.prec Double.emax sx mx ex lx)) = true ->
  sx = true.
Proof.
  unfold binary_round_aux.
  destruct (shr_fexp _ _ mx ex lx) as [mrs' e'].
  destruct (shr_fexp _ _ _ e' loc_Exact) as [mrs'' e''].
  unfold Double.negative. cbn [Double.bits].
  destruct (shr_m mrs'') as [|m|m]; [done| |discriminate].
  by destruct (e'' <=? _).
Qed.

Lemma div_sign x y :
  Double.negative x = false -> Double.negative y = false ->
  Double.negative (Double.div x y) = false.
Proof.
  destruct x as [[sx|sx| |sx mx ex]], y as [[sy|sy| |sy my ey]];
    unfold Double.negative, Double.div, SFdiv; cbn [Double.bits];
    intros Hx Hy; subst; try reflexivity.
  destruct (SFdiv_core_binary _ _ _ _ _ _) as [[mz ez] lz].
  apply not_true_is_false. intros H.
  discriminate (round_sign (xorb false false) mz ez lz H).
Qed.

Lemma mul_sign x y :
  Double.negative x = false -> Double.negative y = false ->
  Double.negative (Double.mul x y) = false.
Proof.
  destruct x as [[sx|sx| |sx mx ex]], y as [[sy|sy| |sy my ey]];
    unfold Double.negative, Double.mul, SFmul; cbn [Double.bits];
    intros Hx Hy; subst; try reflexivity.
  apply not_true_is_false. intros H.
  discriminate (round_sign (xorb false false) (Z.pos (mx * my)) (ex + ey) loc_Exact H).
Qed.

Lemma ofN_sign n : Double.negative (Double.ofN n) = false.
Proof.
  destruct n as [|p]; [reflexivity|].
  unfold Double.ofN, Double.ofZ, Double.ofQ. cbn [Z.of_N inject_Z Qnum Qden].
  apply (div_sign (Double.mk (S754_finite false p 0)) (Double.mk (S754_finite false 1 0)));
    reflexivity.
Qed.

Lemma toQ_nonneg x : Double.negative x = false -> (0 <= Double.toQ x)%Q.
Proof.
  destruct x as [[s|s| |s m e]]; cbn; intros Hs; try apply Qle_refl.
  subst s. unfold Double.toQ. cbn [Double.bits]. rewrite Qred_correct.
  apply Qmult_le_0_compat; [discriminate|].
  apply Qpower_0_le. discriminate.
Qed.

Lemma readTransfer_sign cfg client h cur t :
  readTransfer cfg client h cur = inr t -> Double.negative (transferAmount t) = false.
Proof.
  unfold readTransfer.
  destruct (Chain.getTransactionReceipt client h) as [receipt|]; [|discriminate].
  destruct (Chain.status receipt); [|discriminate].
  destruct (isEth cur).
  - destruct (Chain.getTransaction client h) as [tx|]; [|discriminate].
    intros [= <-]. apply div_sign; [apply ofN_sign|reflexivity].
  - destruct (match Chain.receipt_to receipt with Some _ => _ | None => _ end);
      [discriminate|].
    intros [= <-]. unfold usdcTransfer.
    destruct (Chain.findTransfer _ _); [|reflexivity].
    apply div_sign; [apply ofN_sign|reflexivity].
Qed.

Lemma usdValueOf_sign cur t :
  Double.negative (transferAmount t) = false -> Double.negative (usdValueOf cur t) = false.
Proof.
  intros Ht. unfold usdValueOf. destruct (isEth cur); [|exact Ht].
  apply mul_sign; [exact Ht|reflexivity].
Qed.

Lemma validAmount_positive body a q : validAmount body = Some (a, q) -> (0 < q)%Q.
Proof.
  unfold validAmount.
  destruct (Js.given (address body)); [|discriminate].
  destruct (Js.givenQ (amount body)) as [x|]; [|discriminate].
  destruct (Qle_bool x 0) eqn:Hx; [discriminate|].
  intros [= _ <-]. apply Qnot_le_lt. intros Hle.
  apply Qle_bool_iff in Hle. congruence.
Qed.

Lemma deposit_nonNegative now cfg client body s :
  nonNegative (data s) -> nonNegative (data (snd (deposit now cfg client body s))).
Proof.
  intros Hs.
  destruct (Js.given (address body)) as [a|] eqn:Ha;
    [|by unfold deposit; rewrite Ha].
  destruct (Js.given (transactionHash body)) as [h|] eqn:Hh;
    [|by unfold deposit; rewrite Ha, Hh].
  destruct (verifyDeposit cfg client a h (currencyOf body)) as [f|v] eqn:Hv.
  - by rewrite (deposit_rejected now cfg client body s a h f Ha Hh Hv).
  - rewrite (deposit_verified now cfg client body s a h v Ha Hh Hv). cbn [snd data].
    apply verifyDeposit_inv in Hv as (t & Ht & _ & ->). cbn [usdValue].
    destruct (nonNegative_get now a (data s) Hs) as [Hb Hp].
    apply nonNegative_store; [exact Hs| |exact Hp].
    apply sum_nonneg; [exact Hb|].
    apply toQ_nonneg, usdValueOf_sign, (readTransfer_sign cfg client h _ t Ht).
Qed.

Lemma withdraw_nonNegative now body s :
  nonNegative (data s) -> nonNegative (data (snd (withdraw now body s))).
Proof.
  intros Hs. unfold withdraw.
  destruct (validAmount body) as [[a q]|]; [|exact Hs].
  unfold Ledger.deductBalance.
  destruct (Qlt_le_dec _ _) as [|Hle]; [exact Hs|]. cbn [snd data withData].
  destruct (nonNegative_get now a (data s) Hs) as [Hb Hp].
  apply nonNegative_store; [exact Hs| |exact Hp].
  by apply difference_nonneg.
Qed.

Lemma approvePrize_nonNegative now body s :
  nonNegative (data s) -> nonNegative (data (snd (approvePrize now body s))).
Proof.
  intros Hs. unfold approvePrize.
  destruct (validAmount body) as [[a q]|] eqn:Hq; [|exact Hs].
  apply validAmount_positive in Hq.
  unfold Ledger.approvePendingPrize.
  destruct (Qlt_le_dec _ _) as [|Hle]; [exact Hs|]. cbn [snd data withData].
  destruct (nonNegative_get now a (data s) Hs) as [Hb Hp].
  apply nonNegative_store; [exact Hs| |].
  - apply sum_nonneg; [exact Hb|]. by apply Qlt_le_weak.
  - by apply difference_nonneg.
Qed.

Lemma setBoard_playerBalances mode d b :
  StorageData.playerBalances (Storage.setBoard mode d b) = StorageData.playerBalances d.
Proof. by destruct mode. Qed.

Lemma saveStats_balances now a u s :
  StorageData.playerBalances (data (saveStats now a u s))
  = StorageData.playerBalances (data s).
Proof.
  unfold saveStats, withData, Storage.updateLeaderboardEntryEdge. cbn [data].
  by rewrite setBoard_playerBalances.
Qed.

Lemma triggerPull_balances now body s :
  StorageData.playerBalances (data (snd (triggerPull now body s)))
  = StorageData.playerBalances (data s).
Proof.
  unfold triggerPull. destruct (Js.given (address body)); [|reflexivity].
  apply saveStats_balances.
Qed.

Lemma death_balances now body s :
  StorageData.playerBalances (data (snd (death now body s)))
  = StorageData.playerBalances (data s).
Proof.
  unfold death. destruct (Js.given (address body)); [|reflexivity].
  apply saveStats_balances.
Qed.

Lemma cashout_balances now body s :
  StorageData.playerBalances (data (snd (cashout now body s)))
  = StorageData.playerBalances (data s).
Proof.
  unfold cashout. destruct (Js.given (address body)); [|reflexivity].
  apply saveStats_balances.
Qed.

Lemma setUsername_balances now body s :
  StorageData.playerBalances (data (snd (setUsername now body s)))
  = StorageData.playerBalances (data s).
Proof.
  unfold setUsername. destruct (Js.given (address body)); [|reflexivity].
  destruct (Js.given (username body)); [|reflexivity].
  apply saveStats_balances.
Qed.

Lemma joinPrizePool_balances now body s :
  StorageData.playerBalances (data (snd (joinPrizePool now body s)))
  = StorageData.playerBalances (data s).
Proof.
  unfold joinPrizePool. by destruct (Js.given (address body)).
Qed.

Lemma distributePrizes_balances now newId s :
  StorageData.playerBalances (data (snd (distributePrizes now newId s)))
  = StorageData.playerBalances (data s).
Proof.
  unfold distributePrizes, distributePrizesWith.
  by destruct (calculate now newId (data s)).
Qed.

Lemma POST_nonNegative env body s :
  nonNegative (data s) -> nonNegative (data (snd (POST env body s))).
Proof.
  intros Hs. unfold POST. cbv zeta.
  repeat case_bool_decide.
  - by apply (nonNegative_ext _ _ (triggerPull_balances _ _ _)).
  - by apply (nonNegative_ext _ _ (death_balances _ _ _)).
  - by apply (nonNegative_ext _ _ (cashout_balances _ _ _)).
  - by apply (nonNegative_ext _ _ (setUsername_balances _ _ _)).
  - by apply (nonNegative_ext _ _ (joinPrizePool_balances _ _ _)).
  - by apply (nonNegative_ext _ _ (distributePrizes_balances _ _ _)).
  - by rewrite approveDistribution_data.
  - by apply deposit_nonNegative.
  - by apply withdraw_nonNegative.
  - by apply approvePrize_nonNegative.
  - exact Hs.
Qed.
End Balances.

Section Rejections.
Import Props Route.

Ltac refused H := cbn [fst snd] in H |- *; first [discriminate H | reflexivity].

Lemma stat_handlers_failure now body s status error :
  (fst (triggerPull now body s) = Failure status error ->
   data (snd (triggerPull now body s)) = data s)
  /\ (fst (death now body s) = Failure status error ->
      data (snd (death now body s)) = data s)
  /\ (fst (cashout now body s) = Failure status error ->
      data (snd (cashout now body s)) = data s)
  /\ (fst (setUsername now body s) = Failure status error ->
      data (snd (setUsername now body s)) = data s)
  /\ (fst (joinPrizePool now body s) = Failure status error ->
      data (snd (joinPrizePool now body s)) = data s).
Proof.
  unfold triggerPull, death, cashout, setUsername, joinPrizePool.
  destruct (Js.given (address body)); destruct (Js.given (username body));
    repeat split; intros H; refused H.
Qed.

Lemma distributePrizes_failure now newId s status error :
  fst (distributePrizes now newId s) = Failure status error ->
  data (snd (distributePrizes now newId s)) = data s.
Proof.
  unfold distributePrizes, distributePrizesWith.
  destruct (calculate now newId (data s)); intros H; refused H.
Qed.

Lemma deposit_failure now cfg client body s status error :
  fst (deposit now cfg client body s) = Failure status error ->
  data (snd (deposit now cfg client body s)) = data s.
Proof.
  unfold deposit.
  destruct (Js.given (address body)); [|reflexivity].
  destruct (Js.given (transactionHash body)); [|reflexivity].
  destruct (verifyDeposit _ _ _ _ _); [reflexivity|].
  unfold Ledger.addBalance. cbn [Ledger.seen].
  destruct (amountMismatch _ _); intros H; refused H.
Qed.

Lemma withdraw_failure now body s status error :
  fst (withdraw now body s) = Failure status error ->
  data (snd (withdraw now body s)) = data s.
Proof.
  unfold withdraw. destruct (validAmount body) as [[a q]|]; [|reflexivity].
  unfold Ledger.deductBalance. destruct (Qlt_le_dec _ _); intros H; refused H.
Qed.

Lemma approvePrize_failure now body s status error :
  fst (approvePrize now body s) = Failure status error ->
  data (snd (approvePrize now body s)) = data s.
Proof.
  unfold approvePrize. destruct (validAmount body) as [[a q]|]; [|reflexivity].
  unfold Ledger.approvePendingPrize. destruct (Qlt_le_dec _ _); intros H; refused H.
Qed.

Lemma POST_failure env body s status error :
  fst (POST env body s) = Failure status error ->
  data (snd (POST env body s)) = data s.
Proof.
  unfold POST. cbv zeta.
  destruct (stat_handlers_failure (now env) body s status error)
    as (H1 & H2 & H3 & H4 & H5).
  repeat case_bool_decide; try assumption.
  - apply distributePrizes_failure.
  - intros _. apply approveDistribution_data.
  - apply deposit_failure.
  - apply withdraw_failure.
  - apply approvePrize_failure.
  - reflexivity.
Qed.

Lemma withdraw_insufficient now body s a q :
  validAmount body = Some (a, q) ->
  (PlayerBalance.balance (Ledger.getPlayerBalance now a (data s)) < q)%Q ->
  withdraw now body s = (Failure 400 "InsufficientBalance", s).
Proof.
  intros Hv Hlt. unfold withdraw, Ledger.deductBalance. rewrite Hv.
  destruct (Qlt_le_dec _ _) as [|Hle]; [reflexivity|].
  exfalso. by apply (Qlt_not_le _ _ Hlt).
Qed.

Lemma approvePrize_insufficient now body s a q :
  validAmount body = Some (a, q) ->
  (PlayerBalance.pendingPrizes (Ledger.getPlayerBalance now a (data s)) < q)%Q ->
  approvePrize now body s = (Failure 400 "InsufficientPending", s).
Proof.
  intros Hv Hlt. unfold approvePrize, Ledger.approvePendingPrize. rewrite Hv.
  destruct (Qlt_le_dec _ _) as [|Hle]; [reflexivity|].
  exfalso. by apply (Qlt_not_le _ _ Hlt).
Qed.

Lemma deductBalance_insufficient now a q kind d :
  (PlayerBalance.balance (Ledger.getPlayerBalance now a d) < q)%Q ->
  Ledger.deductBalance now a q kind d = inl Ledger.InsufficientBalance.
Proof.
  intros Hlt. unfold Ledger.deductBalance.
  destruct (Qlt_le_dec _ _) as [|Hle]; [reflexivity|].
  exfalso. by apply (Qlt_not_le _ _ Hlt).
Qed.
End Rejections.

(** C3. Starting from a document in which no balance and no pending prize
    is negative, every request to the route leaves such a document, and a
    request that is answered with a failure leaves the document as it was.
    A withdrawal of more than the balance is answered with
    [InsufficientBalance], an approval of more than the pending prizes with
    [InsufficientPending], and a debit of any kind (an entry fee too) of more
    than the balance fails with [InsufficientBalance]; in each case nothing
    is written. *)
Theorem balances_never_negative :
  (forall env body s,
      Props.nonNegative (Route.data s) ->
      Props.nonNegative (Route.data (snd (Route.POST env body s)))
      /\ (forall status error,
            fst (Route.POST env body s) = Route.Failure status error ->
            Route.data (snd (Route.POST env body s)) = Route.data s))
  /\ (forall now body s a q,
        Route.validAmount body = Some (a, q) ->
        (PlayerBalance.balance (Ledger.getPlayerBalance now a (Route.data s)) < q)%Q ->
        Route.withdraw now body s = (Route.Failure 400 "InsufficientBalance", s))
  /\ (forall now body s a q,
        Route.validAmount body = Some (a, q) ->
        (PlayerBalance.pendingPrizes (Ledger.getPlayerBalance now a (Route.data s)) < q)%Q ->
        Route.approvePrize now body s = (Route.Failure 400 "InsufficientPending", s))
  /\ (forall now a q kind d,
        (PlayerBalance.balance (Ledger.getPlayerBalance now a d) < q)%Q ->
        Ledger.deductBalance now a q kind d = inl Ledger.InsufficientBalance).
Proof.
  split; [|split; [|split]].
  - intros env body s Hs. split; [by apply POST_nonNegative|].
    intros status error. apply POST_failure.
  - apply withdraw_insufficient.
  - apply approvePrize_insufficient.
  - apply deductBalance_insufficient.
Qed.

(** C3 where alice, who holds nothing, deposits 10 USDC, and where she asks
    to withdraw 5 before any deposit. *)
Lemma balances_never_negative_witness :
  Props.nonNegative
    (Route.data (snd (Route.POST Examples.env (Examples.depositRequest 10)
                        Examples.emptyServer)))
  /\ Route.withdraw 50 (Examples.amountRequest "withdraw" Examples.alice 5%Q)
       Examples.emptyServer
     = (Route.Failure 400 "InsufficientBalance", Examples.emptyServer).
Proof.
  split.
  - apply (proj1 balances_never_negative Examples.env (Examples.depositRequest 10)
             Examples.emptyServer).
    apply map_Forall_empty.
  - apply (proj1 (proj2 balances_never_negative) 50
             (Examples.amountRequest "withdraw" Examples.alice 5%Q)
             Examples.emptyServer Examples.alice 5%Q).
    + reflexivity.
    + reflexivity.
Defined.

(** * Further properties of the code *)

(** ** The leaderboard: size, order of the others, the cap *)

Section Partition.
Import Props Storage Facts.

Lemma removeExisting_length b e :
  length (removeExisting b e)
  = if holds b (LeaderboardEntry.address e) then pred (length b) else length b.
Proof.
  induction b as [|x r IH]; [reflexivity|].
  rewrite removeExisting_cons. unfold holds in *. simpl.
  destruct (Js.sameAddress _ _); simpl; [reflexivity|].
  rewrite IH. destruct (existsb _ r) eqn:Hr; [|reflexivity].
  destruct r; [discriminate Hr|reflexivity].
Qed.

Lemma holds_nonempty b a : holds b a = true -> b <> [].
Proof. by destruct b. Qed.

Lemma upsert_length b e :
  length (upsert b e)
  = if holds b (LeaderboardEntry.address e) then length b else S (length b).
Proof.
  unfold upsert. rewrite updateRanks_length, (sort_length compareEntries).
  rewrite length_app, removeExisting_length. simpl.
  destruct (holds b _) eqn:Hh; [|lia].
  apply holds_nonempty in Hh. destruct b; [congruence|simpl; lia].
Qed.

Lemma upsertTop50_take b e : upsertTop50 b e = take 50 (upsert b e).
Proof.
  unfold upsertTop50. destruct (Nat.ltb_spec 50 (length (upsert b e))); [reflexivity|].
  by rewrite take_ge.
Qed.

Lemma rankedBefore_compare a b : rankedBefore a b -> compareEntries a b <= 0.
Proof.
  unfold compareEntries, rankedBefore, keyBefore, key.
  destruct (Z.eqb_spec (LeaderboardEntry.maxStreak b) (LeaderboardEntry.maxStreak a));
    simpl; [|lia].
  destruct (Z.eqb_spec (LeaderboardEntry.triggerPulls b) (LeaderboardEntry.triggerPulls a));
    simpl; lia.
Qed.

Lemma insertBy_last {A : Type} (cmp : A -> A -> Z) (x : A) (l : list A) :
  Forall (fun y => cmp y x <= 0) l -> Js.insertBy cmp x l = l ++ [x].
Proof.
  induction 1 as [|y r Hy _ IH]; [reflexivity|]. simpl.
  destruct (Z.leb_spec (cmp y x) 0); [by rewrite IH|lia].
Qed.

Lemma sort_snoc {A : Type} (cmp : A -> A -> Z) (l : list A) (x : A) :
  Js.sort cmp (l ++ [x]) = Js.insertBy cmp x (Js.sort cmp l).
Proof. unfold Js.sort. by rewrite fold_left_app. Qed.

(** Sorting a sorted array changes nothing. *)
Lemma sort_sorted_id (l : list LeaderboardEntry.t) :
  sortedBoard l -> Js.sort compareEntries l = l.
Proof.
  induction l as [|x l IH] using rev_ind; [reflexivity|].
  intros Hs. unfold sortedBoard in Hs. apply StronglySorted_app in Hs as (Hlx & Hl & _).
  rewrite sort_snoc, (IH Hl). apply insertBy_last.
  apply Forall_forall. intros y Hy. apply rankedBefore_compare, Hlx; [exact Hy|].
  apply list_elem_of_singleton. reflexivity.
Qed.

Lemma removeExisting_sublist b e : removeExisting b e `sublist_of` b.
Proof.
  induction b as [|x r IH]; [by rewrite removeExisting_nil|].
  rewrite removeExisting_cons. destruct (Js.sameAddress _ _).
  - by apply sublist_cons.
  - by apply sublist_skip.
Qed.

Lemma sublist_sortedBoard (l k : list LeaderboardEntry.t) :
  l `sublist_of` k -> sortedBoard k -> sortedBoard l.
Proof.
  unfold sortedBoard. induction 1 as [|x l k Hlk IH|x l k Hlk IH]; intros Hk.
  - constructor.
  - inversion Hk as [|? ? Hs Hf]; subst. constructor; [by apply IH|].
    apply Forall_forall. intros y Hy. rewrite Forall_forall in Hf. apply Hf.
    by eapply elem_of_sublist.
  - inversion Hk; subst. by apply IH.
Qed.

(** Into a sorted partition the entry is inserted; nothing else moves. *)
Lemma upsert_sorted_insert b e :
  sortedBoard b ->
  upsert b e = updateRanks (Js.insertBy compareEntries e (removeExisting b e)).
Proof.
  intros Hb. unfold upsert. rewrite sort_snoc. f_equal. f_equal.
  apply sort_sorted_id. eapply sublist_sortedBoard; [apply removeExisting_sublist|exact Hb].
Qed.

Lemma sameAddress_refl a : Js.sameAddress a a = true.
Proof. by apply sameAddress_true. Qed.

Lemma others_cons e x l :
  others e (x :: l)
  = if Js.sameAddress (LeaderboardEntry.address x) (LeaderboardEntry.address e)
    then others e l else LeaderboardEntry.address x :: others e l.
Proof.
  unfold others. simpl. rewrite filter_cons.
  destruct (Js.sameAddress _ _) eqn:Hs; case_decide; congruence.
Qed.

Lemma others_insertBy e l : others e (Js.insertBy compareEntries e l) = others e l.
Proof.
  induction l as [|y r IH]; simpl.
  - by rewrite others_cons, sameAddress_refl.
  - destruct (compareEntries y e <=? 0).
    + by rewrite !others_cons, IH.
    + by rewrite (others_cons e e), sameAddress_refl.
Qed.

Lemma others_removeExisting e b : others e (removeExisting b e) = others e b.
Proof.
  induction b as [|x r IH]; [by rewrite removeExisting_nil|].
  rewrite removeExisting_cons, (others_cons e x r).
  destruct (Js.sameAddress _ _) eqn:Hs; [reflexivity|].
  by rewrite others_cons, Hs, IH.
Qed.

Lemma others_updateRanks e l : others e (updateRanks l) = others e l.
Proof. unfold others. by rewrite fmap_updateRanks. Qed.
End Partition.

Section PartitionEntries.
Import Props Storage Facts.

Lemma elem_of_updateRanks x l :
  x ∈ updateRanks l -> exists y r, y ∈ l /\ x = LeaderboardEntry.setRank y r.
Proof.
  unfold updateRanks. intros Hx. apply elem_of_lookup_imap in Hx as (i & y & -> & Hy).
  exists y, (Z.of_nat i + 1). split; [|reflexivity]. by eapply list_elem_of_lookup_2.
Qed.

Lemma upsert_only_new b e x :
  uniqueAddresses b -> x ∈ upsert b e -> lowerAddress x = lowerAddress e ->
  exists r, x = LeaderboardEntry.setRank e r.
Proof.
  intros Hb Hx Hlow. unfold upsert in Hx.
  apply elem_of_updateRanks in Hx as (y & r & Hy & ->).
  rewrite (sort_perm compareEntries) in Hy. apply elem_of_app in Hy as [Hy|Hy].
  - exfalso. destruct (removeExisting_unique b e Hb) as [_ Hnot]. apply Hnot.
    change (lowerAddress (LeaderboardEntry.setRank y r)) with (lowerAddress y) in Hlow.
    rewrite <- Hlow. apply in_map. by apply list_elem_of_In.
  - apply list_elem_of_singleton in Hy as ->. by exists r.
Qed.
End PartitionEntries.

Section Spelling.
Import Props Storage Facts.

Lemma lowerAscii_code c :
  N_of_ascii (Js.lowerAscii c)
  = (if ((65 <=? N_of_ascii c) && (N_of_ascii c <=? 90))%N
     then N_of_ascii c + 32 else N_of_ascii c)%N.
Proof.
  unfold Js.lowerAscii. pose proof (N_ascii_bounded c) as Hb.
  destruct ((65 <=? N_of_ascii c)%N && (N_of_ascii c <=? 90)%N) eqn:Hu; [|reflexivity].
  apply andb_true_iff in Hu as [H1 H2]. apply N.leb_le in H1, H2.
  apply N_ascii_embedding. lia.
Qed.

Lemma ascii_code_inj c d : N_of_ascii c = N_of_ascii d -> c = d.
Proof. intros H. by rewrite <- (ascii_N_embedding c), <- (ascii_N_embedding d), H. Qed.

Lemma upper_spec n :
  ((65 <=? n) && (n <=? 90))%N = true <-> (65 <= n <= 90)%N.
Proof. rewrite andb_true_iff, !N.leb_le. tauto. Qed.

Lemma lowerAscii_sameLetter c d : Js.lowerAscii c = Js.lowerAscii d <-> sameLetter c d.
Proof.
  unfold sameLetter, upperCase. split.
  - intros H. apply (f_equal N_of_ascii) in H. rewrite !lowerAscii_code in H.
    destruct ((65 <=? N_of_ascii c)%N && (N_of_ascii c <=? 90)%N) eqn:Hc;
      destruct ((65 <=? N_of_ascii d)%N && (N_of_ascii d <=? 90)%N) eqn:Hd;
      try apply upper_spec in Hc; try apply upper_spec in Hd.
    + left. apply ascii_code_inj. lia.
    + right. left. split; [exact Hc|]. by rewrite <- H.
    + right. right. split; [exact Hd|]. by rewrite H.
    + left. by apply ascii_code_inj.
  - intros H. apply ascii_code_inj. rewrite !lowerAscii_code.
    destruct ((65 <=? N_of_ascii c)%N && (N_of_ascii c <=? 90)%N) eqn:Hc;
      destruct ((65 <=? N_of_ascii d)%N && (N_of_ascii d <=? 90)%N) eqn:Hd;
      try apply upper_spec in Hc; try apply upper_spec in Hd;
      destruct H as [->|[[H1 H2]|[H1 H2]]]; try lia;
      try (apply upper_spec in H1; congruence);
      try (exfalso; apply not_true_iff_false in Hc; apply Hc, upper_spec; lia);
      try (exfalso; apply not_true_iff_false in Hd; apply Hd, upper_spec; lia).
Qed.

Lemma toLowerCase_sameSpelling a b :
  Js.toLowerCase a = Js.toLowerCase b <-> sameSpelling a b.
Proof.
  revert b. induction a as [|c r IH]; intros [|d r']; simpl;
    try (split; [discriminate|tauto]).
  - tauto.
  - rewrite <- IH, <- lowerAscii_sameLetter. split; [by intros [= -> ->]|by intros [-> ->]].
Qed.

Lemma unique_oncePerAddress b : uniqueAddresses b <-> oncePerAddress b.
Proof.
  unfold uniqueAddresses, oncePerAddress. rewrite NoDup_alt. split.
  - intros H i j x y Hx Hy Hs. apply toLowerCase_sameSpelling in Hs.
    apply (H i j (lowerAddress x)).
    + change (map lowerAddress b) with (lowerAddress <$> b).
      by rewrite list_lookup_fmap, Hx.
    + change (map lowerAddress b) with (lowerAddress <$> b).
      rewrite list_lookup_fmap, Hy. unfold lowerAddress. simpl. by rewrite Hs.
  - intros H i j a Hi Hj.
    change (map lowerAddress b) with (lowerAddress <$> b) in Hi, Hj.
    rewrite list_lookup_fmap in Hi, Hj.
    destruct (b !! i) as [x|] eqn:Hx; [|discriminate].
    destruct (b !! j) as [y|] eqn:Hy; [|discriminate].
    simpl in Hi, Hj. apply (H i j x y Hx Hy). apply toLowerCase_sameSpelling.
    unfold lowerAddress in *. congruence.
Qed.

Lemma wellFormed_wellOrdered b : wellFormed b -> wellOrdered b.
Proof. intros (H1 & H2 & H3). repeat split; [exact H1|exact H2|by apply unique_oncePerAddress]. Qed.

Lemma updateRanks_keeps y l : y ∈ l -> exists r, LeaderboardEntry.setRank y r ∈ updateRanks l.
Proof.
  intros Hy. apply list_elem_of_lookup_1 in Hy as [i Hi].
  exists (Z.of_nat i + 1). unfold updateRanks. apply elem_of_lookup_imap. by exists i, y.
Qed.

Lemma removeExisting_keeps b e x :
  x ∈ b ->
  Js.sameAddress (LeaderboardEntry.address x) (LeaderboardEntry.address e) = false ->
  x ∈ removeExisting b e.
Proof.
  intros Hx Hne. induction b as [|y r IH]; [by apply elem_of_nil in Hx|].
  rewrite removeExisting_cons. apply elem_of_cons in Hx as [->|Hx].
  - rewrite Hne. by left.
  - destruct (Js.sameAddress (LeaderboardEntry.address y) (LeaderboardEntry.address e));
      [exact Hx|]. right. by apply IH.
Qed.

Lemma upsert_replaces b e : uniqueAddresses b -> replaces b e (upsert b e).
Proof.
  intros Hb. repeat split.
  - unfold upsert. apply updateRanks_keeps. rewrite (sort_perm compareEntries).
    apply elem_of_app. right. by left.
  - intros y Hy Hs. apply (upsert_only_new b e y Hb Hy).
    unfold lowerAddress. by apply toLowerCase_sameSpelling.
  - intros x Hx Hs. unfold upsert. apply updateRanks_keeps.
    rewrite (sort_perm compareEntries). apply elem_of_app. left.
    apply removeExisting_keeps; [exact Hx|]. apply sameAddress_false.
    intros H. by apply Hs, toLowerCase_sameSpelling.
  - intros y Hy Hs. unfold upsert in Hy.
    apply elem_of_updateRanks in Hy as (x & r & Hx & ->).
    rewrite (sort_perm compareEntries) in Hx. apply elem_of_app in Hx as [Hx|Hx].
    + exists x, r. split; [|reflexivity].
      apply list_elem_of_In, (removeExisting_subset b e). by apply list_elem_of_In.
    + apply list_elem_of_singleton in Hx as ->. exfalso. apply Hs.
      by apply toLowerCase_sameSpelling.
Qed.
End Spelling.

(** C5. Whatever entries are upserted one after the other into a partition
    that starts empty, with the file-backed storage module or with the Edge
    Config module that keeps the top 50, the partition is sorted by streak
    (descending), then pulls (descending), then deaths (ascending), its
    ranks are 1..N in order, and no address stands at two positions, the
    addresses being compared without regard to case. One upsert into any
    partition in which each address stands once gives such a partition
    again and replaces rather than duplicates: the upserted entry is in it,
    with all its fields and a rank; whatever entry stands under its address
    is that entry, so the former entry of the address is gone; the entries
    of the other addresses are all kept, and nothing else is added. The
    Edge Config module keeps the first 50 entries of that partition. *)
Theorem leaderboard_upserts_well_formed :
  (forall entries : list LeaderboardEntry.t,
      Props.wellOrdered (fold_left Storage.upsert entries [])
      /\ Props.wellOrdered (fold_left Storage.upsertTop50 entries []))
  /\ (forall b e, Props.oncePerAddress b ->
        Props.wellOrdered (Storage.upsert b e)
        /\ Props.replaces b e (Storage.upsert b e)
        /\ Props.wellOrdered (Storage.upsertTop50 b e)
        /\ Storage.upsertTop50 b e = take 50 (Storage.upsert b e)).
Proof.
  split.
  - intros entries. split; apply wellFormed_wellOrdered.
    + apply upserts_wellFormed; [apply upsert_wellFormed|apply empty_wellFormed].
    + apply upserts_wellFormed; [apply upsertTop50_wellFormed|apply empty_wellFormed].
  - intros b e Hb. apply unique_oncePerAddress in Hb.
    split; [by apply wellFormed_wellOrdered, upsert_wellFormed|].
    split; [by apply upsert_replaces|].
    split; [by apply wellFormed_wellOrdered, upsertTop50_wellFormed|].
    apply upsertTop50_take.
Qed.

(** C5 at a partition of four players, one of whom, [0xb2], is upserted
    again as [0xB2] with a better game: the new entry leads, the former one
    is gone and the three others follow in their order. *)
Lemma leaderboard_upserts_well_formed_witness :
  map LeaderboardEntry.address (Storage.upsert Examples.fourPaid Examples.rejoin)
  = ["0xB2"; "0xa1"; "0xc3"; "0xd4"]%string
  /\ Props.wellOrdered (Storage.upsert Examples.fourPaid Examples.rejoin)
  /\ Props.replaces Examples.fourPaid Examples.rejoin
       (Storage.upsert Examples.fourPaid Examples.rejoin)
  /\ Props.wellOrdered (Storage.upsertTop50 Examples.fourPaid Examples.rejoin)
  /\ Storage.upsertTop50 Examples.fourPaid Examples.rejoin
     = take 50 (Storage.upsert Examples.fourPaid Examples.rejoin).
Proof.
  split; [reflexivity|].
  apply (proj2 leaderboard_upserts_well_formed Examples.fourPaid Examples.rejoin).
  apply unique_oncePerAddress. apply (bool_decide_unpack _). vm_compute. exact I.
Defined.

Section Ranking.
Import Props Route PrizeDistribution.




End Ranking.



(** X1. An upsert into a partition that has the address keeps the number of
    entries, an upsert of an address that it has not adds one; the Edge
    Config variant then keeps the first 50 at most. *)
Theorem upsert_size :
  forall b e,
    length (Storage.upsert b e)
    = (if Facts.holds b (LeaderboardEntry.address e) then length b else S (length b))
    /\ length (Storage.upsertTop50 b e) = Nat.min 50 (length (Storage.upsert b e))
    /\ (length (Storage.upsertTop50 b e) <= 50)%nat.
Proof.
  intros b e. split; [apply upsert_length|].
  rewrite upsertTop50_take, length_take. split; lia.
Qed.

(** X2. Into a sorted partition the upsert inserts the entry where it
    belongs, behind the entries that it does not beat: the partition is the
    old one without the entry of the address, with the new entry inserted and
    the ranks renumbered, and the other addresses stand in the order they
    had. With fewer than 50 entries before, the cap of the Edge Config
    variant cuts nothing. *)
Theorem upsert_keeps_order :
  forall b e,
    Props.sortedBoard b ->
    Storage.upsert b e
    = Storage.updateRanks
        (Js.insertBy Storage.compareEntries e (Storage.removeExisting b e))
    /\ Facts.others e (Storage.upsert b e) = Facts.others e b
    /\ ((length b < 50)%nat -> Storage.upsertTop50 b e = Storage.upsert b e).
Proof.
  intros b e Hb. split; [by apply upsert_sorted_insert|]. split.
  - rewrite (upsert_sorted_insert b e Hb).
    by rewrite others_updateRanks, others_insertBy, others_removeExisting.
  - intros Hlen. rewrite upsertTop50_take. apply take_ge.
    rewrite upsert_length. destruct (Facts.holds b _); lia.
Qed.

(** X2 at the partition of four players, one of whom comes back. *)
Lemma upsert_keeps_order_witness :
  Facts.others Examples.rejoin (Storage.upsert Examples.fourPaid Examples.rejoin)
  = ["0xa1"; "0xc3"; "0xd4"]%string
  /\ Storage.upsertTop50 Examples.fourPaid Examples.rejoin
     = Storage.upsert Examples.fourPaid Examples.rejoin.
Proof.
  assert (Hs : Props.sortedBoard Examples.fourPaid).
  { apply (upserts_wellFormed Storage.upsertTop50 upsertTop50_wellFormed);
      apply empty_wellFormed. }
  split.
  - exact (proj1 (proj2 (upsert_keeps_order Examples.fourPaid Examples.rejoin Hs))).
  - apply (proj2 (proj2 (upsert_keeps_order Examples.fourPaid Examples.rejoin Hs))).
    vm_compute. lia.
Defined.

(** X3. The cap of the Edge Config variant cuts the end of the sorted
    partition: what it keeps followed by what it drops is the partition of
    the uncapped upsert, and every entry kept stands before every entry
    dropped in the order of the leaderboard. *)
Theorem cap_drops_the_last :
  forall b e,
    Storage.upsert b e = Storage.upsertTop50 b e ++ drop 50 (Storage.upsert b e)
    /\ Forall
         (fun kept => Forall (Props.rankedBefore kept) (drop 50 (Storage.upsert b e)))
         (Storage.upsertTop50 b e).
Proof.
  intros b e. rewrite upsertTop50_take. split; [by rewrite take_drop|].
  assert (Hs : Props.sortedBoard (Storage.upsert b e)).
  { apply updateRanks_sorted, sort_sortedBoard. }
  unfold Props.sortedBoard in Hs. rewrite <- (take_drop 50 (Storage.upsert b e)) in Hs.
  apply StronglySorted_app in Hs as (H & _ & _).
  apply Forall_forall. intros x Hx. apply Forall_forall. intros y Hy. by apply H.
Qed.

(** X4. In a partition without duplicate addresses, the entry that stands
    under the upserted address after the upsert is the upserted entry with
    its rank, and no entry of the old partition: the old entry under another
    spelling of the address is gone. *)
Theorem upsert_keeps_the_new_entry :
  forall b e x,
    Props.uniqueAddresses b ->
    Props.lowerAddress x = Props.lowerAddress e ->
    (x ∈ Storage.upsert b e -> exists r, x = LeaderboardEntry.setRank e r)
    /\ (x ∈ Storage.upsertTop50 b e -> exists r, x = LeaderboardEntry.setRank e r).
Proof.
  intros b e x Hb Hlow. split; intros Hx.
  - by apply (upsert_only_new b e x Hb).
  - apply (upsert_only_new b e x Hb); [|exact Hlow].
    rewrite upsertTop50_take in Hx.
    eapply elem_of_sublist; [exact Hx|apply sublist_take].
Qed.

(** X4 where the player [0xb2] of four comes back as [0xB2]: the entry found
    under that address is the new one, at rank 1. *)
Lemma upsert_keeps_the_new_entry_witness :
  LeaderboardEntry.setRank Examples.rejoin 1
    ∈ Storage.upsert Examples.fourPaid Examples.rejoin
  /\ exists r,
       LeaderboardEntry.setRank Examples.rejoin 1 = LeaderboardEntry.setRank Examples.rejoin r.
Proof.
  assert (Hin : LeaderboardEntry.setRank Examples.rejoin 1
                  ∈ Storage.upsert Examples.fourPaid Examples.rejoin).
  { apply list_elem_of_In. vm_compute. left. reflexivity. }
  split; [exact Hin|].
  refine (proj1 (upsert_keeps_the_new_entry Examples.fourPaid Examples.rejoin
                   (LeaderboardEntry.setRank Examples.rejoin 1) _ _) Hin).
  - apply (bool_decide_unpack _). vm_compute. exact I.
  - reflexivity.
Defined.

(** ** Statistics: one record per spelling, counters, partitions *)

Section Statistics.
Import Props Route Facts.

Lemma updatePlayerStats_other now a u d a' :
  a <> a' ->
  StorageData.playerStats (Storage.updatePlayerStats now a u d) !! a'
  = StorageData.playerStats d !! a'.
Proof. intros Hne. unfold Storage.updatePlayerStats. simpl. by rewrite lookup_insert_ne. Qed.

Lemma saveStats_playerStats now a u s :
  StorageData.playerStats (data (saveStats now a u s))
  = StorageData.playerStats (Storage.updatePlayerStats now a u (data s)).
Proof.
  unfold saveStats, withData, Storage.updateLeaderboardEntryEdge. cbn [data].
  by rewrite setBoard_playerStats.
Qed.

Lemma saveStatsFirstRevision_playerStats now a u s :
  StorageData.playerStats (data (saveStatsFirstRevision now a u s))
  = StorageData.playerStats (Storage.updatePlayerStats now a u (data s)).
Proof.
  unfold saveStatsFirstRevision, withData, Storage.updateLeaderboardEntry. cbn [data].
  by rewrite setBoard_playerStats.
Qed.

Ltac other_stats Hne :=
  cbv beta iota zeta; cbn [snd data withData];
  rewrite ?saveStats_playerStats, ?saveStatsFirstRevision_playerStats;
  rewrite updatePlayerStats_other by congruence; reflexivity.

Lemma stat_handlers_other now body s a' :
  Js.given (address body) <> Some a' ->
  StorageData.playerStats (data (snd (triggerPull now body s))) !! a'
  = StorageData.playerStats (data s) !! a'
  /\ StorageData.playerStats (data (snd (death now body s))) !! a'
     = StorageData.playerStats (data s) !! a'
  /\ StorageData.playerStats (data (snd (cashout now body s))) !! a'
     = StorageData.playerStats (data s) !! a'
  /\ StorageData.playerStats (data (snd (setUsername now body s))) !! a'
     = StorageData.playerStats (data s) !! a'
  /\ StorageData.playerStats (data (snd (joinPrizePool now body s))) !! a'
     = StorageData.playerStats (data s) !! a'
  /\ StorageData.playerStats (data (snd (updateStats now body s))) !! a'
     = StorageData.playerStats (data s) !! a'
  /\ (forall snapshot,
        StorageData.playerStats (data (snd (joinPrizePoolStale now snapshot body s))) !! a'
        = StorageData.playerStats (data s) !! a').
Proof.
  intros Hne.
  unfold triggerPull, death, cashout, setUsername, joinPrizePool, updateStats,
    joinPrizePoolStale.
  destruct (Js.given (address body)) as [a|]; [|repeat split; reflexivity].
  repeat split.
  - other_stats Hne.
  - other_stats Hne.
  - other_stats Hne.
  - destruct (Js.given (username body)); [|reflexivity]. other_stats Hne.
  - other_stats Hne.
  - destruct (stats body); [|reflexivity]. other_stats Hne.
  - intros snapshot. other_stats Hne.
Qed.

Lemma POST_other env body s a' :
  Js.given (address body) <> Some a' ->
  StorageData.playerStats (data (snd (POST env body s))) !! a'
  = StorageData.playerStats (data s) !! a'.
Proof.
  intros Hne.
  destruct (stat_handlers_other (now env) body s a' Hne) as (H1 & H2 & H3 & H4 & H5 & _).
  unfold POST. cbv zeta. repeat case_bool_decide; try assumption.
  - by rewrite distributePrizes_playerStats.
  - by rewrite approveDistribution_data.
  - by rewrite deposit_playerStats.
  - by rewrite withdraw_playerStats.
  - by rewrite approvePrize_playerStats.
  - reflexivity.
Qed.

Lemma POSTFirstRevision_other env body s a' :
  Js.given (address body) <> Some a' ->
  StorageData.playerStats (data (snd (POSTFirstRevision env body s))) !! a'
  = StorageData.playerStats (data s) !! a'.
Proof.
  intros Hne.
  destruct (stat_handlers_other (now env) body s a' Hne) as (_ & _ & _ & _ & _ & H6 & H7).
  unfold POSTFirstRevision. cbv zeta. repeat case_bool_decide; try assumption.
  - apply H7.
  - by rewrite distributePrizes_playerStats.
  - by rewrite approveDistribution_data.
  - reflexivity.
Qed.
End Statistics.

(** X5. A request changes the statistics of no address but the one it
    names, character for character: the record stored under another
    address, be it another spelling of the same address, is what it was.
    This holds for every action of both revisions of [POST]. *)
Theorem statistics_keyed_by_exact_address :
  forall env body s other,
    Js.given (Route.address body) <> Some other ->
    StorageData.playerStats (Route.data (snd (Route.POST env body s))) !! other
    = StorageData.playerStats (Route.data s) !! other
    /\ StorageData.playerStats (Route.data (snd (Route.POSTFirstRevision env body s)))
         !! other
       = StorageData.playerStats (Route.data s) !! other.
Proof.
  intros env body s other Hne. split.
  - by apply POST_other.
  - by apply POSTFirstRevision_other.
Qed.

(** X5 where the wallet of alice plays under its lower-case spelling: the
    record stored under her own spelling stays. *)
Lemma statistics_keyed_by_exact_address_witness :
  StorageData.playerStats
    (Route.data (snd (Route.POST Examples.env
                        (Examples.request "triggerPull" Samples.aliceLower)
                        Examples.seasonedServer))) !! Examples.alice
  = Some Examples.seasoned.
Proof.
  refine (eq_trans
            (proj1 (statistics_keyed_by_exact_address Examples.env
                      (Examples.request "triggerPull" Samples.aliceLower)
                      Examples.seasonedServer Examples.alice _)) _).
  - intros H. vm_compute in H. discriminate H.
  - reflexivity.
Defined.

Section Counters.
Import Props Route Facts.

Lemma over_same {A : Type} (x : option A) : PlayerStats.over x x = x.
Proof. by destruct x. Qed.

(** The record stored by [updatePlayerStats] for statistics that were built
    from the stored ones. *)
Lemma updatePlayerStats_lookup now a u d :
  StorageData.playerStats (Storage.updatePlayerStats now a u d) !! a
  = Some (let merged := match StorageData.playerStats d !! a with
                        | Some old => PlayerStats.spread old u
                        | None => u
                        end in
          PlayerStats.mk (PlayerStats.address merged) (PlayerStats.username merged)
            (PlayerStats.triggerPulls merged) (PlayerStats.deaths merged)
            (PlayerStats.maxStreak merged) (PlayerStats.currentStreak merged)
            (PlayerStats.lastPlayed merged) (PlayerStats.isPaid merged) (Some now)).
Proof. unfold Storage.updatePlayerStats. simpl. by rewrite lookup_insert_eq. Qed.

Lemma existing_stored (field : PlayerStats.t -> option Z) defaults a d :
  Js.orZero (field defaults) = 0 ->
  Js.orZero (field (existingOr defaults a d)) = stored field a d.
Proof.
  intros Hd. unfold existingOr, Storage.getPlayerStats, stored.
  by destruct (StorageData.playerStats d !! a).
Qed.

Lemma triggerPull_counters now body s a :
  Js.given (address body) = Some a ->
  let s' := snd (triggerPull now body s) in
  stored PlayerStats.triggerPulls a (data s') = stored PlayerStats.triggerPulls a (data s) + 1
  /\ stored PlayerStats.currentStreak a (data s')
     = stored PlayerStats.currentStreak a (data s) + 1
  /\ stored PlayerStats.deaths a (data s') = stored PlayerStats.deaths a (data s)
  /\ stored PlayerStats.maxStreak a (data s') = stored PlayerStats.maxStreak a (data s).
Proof.
  intros Ha. cbv zeta. unfold triggerPull. rewrite Ha. cbv beta iota zeta. cbn [snd].
  unfold stored at 1 3 5 7. rewrite saveStats_playerStats, updatePlayerStats_lookup.
  rewrite <- (existing_stored PlayerStats.triggerPulls (newStats now a) a (data s) eq_refl).
  rewrite <- (existing_stored PlayerStats.currentStreak (newStats now a) a (data s) eq_refl).
  rewrite <- (existing_stored PlayerStats.deaths (newStats now a) a (data s) eq_refl).
  rewrite <- (existing_stored PlayerStats.maxStreak (newStats now a) a (data s) eq_refl).
  unfold existingOr, Storage.getPlayerStats.
  destruct (StorageData.playerStats (data s) !! a) as [old|]; cbn;
    rewrite ?over_same; repeat split; reflexivity.
Qed.

Lemma death_counters now body s a :
  Js.given (address body) = Some a ->
  let s' := snd (death now body s) in
  stored PlayerStats.triggerPulls a (data s') = stored PlayerStats.triggerPulls a (data s)
  /\ stored PlayerStats.currentStreak a (data s') = 0
  /\ stored PlayerStats.deaths a (data s') = stored PlayerStats.deaths a (data s) + 1
  /\ stored PlayerStats.maxStreak a (data s')
     = Z.max (stored PlayerStats.maxStreak a (data s))
             (stored PlayerStats.currentStreak a (data s)).
Proof.
  intros Ha. cbv zeta. unfold death. rewrite Ha. cbv beta iota zeta. cbn [snd].
  unfold stored at 1 3 4 6. rewrite saveStats_playerStats, updatePlayerStats_lookup.
  rewrite <- (existing_stored PlayerStats.triggerPulls (newStats now a) a (data s) eq_refl).
  rewrite <- (existing_stored PlayerStats.currentStreak (newStats now a) a (data s) eq_refl).
  rewrite <- (existing_stored PlayerStats.deaths (newStats now a) a (data s) eq_refl).
  rewrite <- (existing_stored PlayerStats.maxStreak (newStats now a) a (data s) eq_refl).
  unfold existingOr, Storage.getPlayerStats.
  destruct (StorageData.playerStats (data s) !! a) as [old|]; cbn;
    rewrite ?over_same; repeat split; reflexivity.
Qed.

Lemma pulls_counters now body s a k :
  Js.given (address body) = Some a ->
  let s' := repeatedly k (triggerPull now body) s in
  stored PlayerStats.triggerPulls a (data s')
  = stored PlayerStats.triggerPulls a (data s) + Z.of_nat k
  /\ stored PlayerStats.currentStreak a (data s')
     = stored PlayerStats.currentStreak a (data s) + Z.of_nat k
  /\ stored PlayerStats.deaths a (data s') = stored PlayerStats.deaths a (data s)
  /\ stored PlayerStats.maxStreak a (data s') = stored PlayerStats.maxStreak a (data s).
Proof.
  intros Ha. cbv zeta. induction k as [|k (IH1 & IH2 & IH3 & IH4)].
  - simpl. repeat split; lia.
  - unfold repeatedly in *. rewrite Nat.iter_succ.
    destruct (triggerPull_counters now body (Nat.iter k (fun s' => snd (triggerPull now body s')) s) a Ha)
      as (H1 & H2 & H3 & H4).
    rewrite H1, H2, H3, H4, IH1, IH2, IH3, IH4. repeat split; lia.
Qed.
End Counters.

(** X6. For a player who pulls the trigger [k] times and then dies, the
    stored pulls have grown by [k] and the deaths by one, the current streak
    is 0, and the best streak is the larger of the former best streak and
    the former current streak plus [k]. *)
Theorem pulls_then_death :
  forall now body s a k,
    Js.given (Route.address body) = Some a ->
    let played := Facts.repeatedly k (Route.triggerPull now body) s in
    let dead := snd (Route.death now body played) in
    Facts.stored PlayerStats.triggerPulls a (Route.data dead)
    = Facts.stored PlayerStats.triggerPulls a (Route.data s) + Z.of_nat k
    /\ Facts.stored PlayerStats.deaths a (Route.data dead)
       = Facts.stored PlayerStats.deaths a (Route.data s) + 1
    /\ Facts.stored PlayerStats.currentStreak a (Route.data dead) = 0
    /\ Facts.stored PlayerStats.maxStreak a (Route.data dead)
       = Z.max (Facts.stored PlayerStats.maxStreak a (Route.data s))
               (Facts.stored PlayerStats.currentStreak a (Route.data s) + Z.of_nat k).
Proof.
  intros now body s a k Ha. cbv zeta.
  destruct (pulls_counters now body s a k Ha) as (P1 & P2 & P3 & P4).
  destruct (death_counters now body (Facts.repeatedly k (Route.triggerPull now body) s) a Ha)
    as (D1 & D2 & D3 & D4).
  rewrite D1, D2, D3, D4, P1, P2, P3, P4. repeat split; reflexivity.
Qed.

(** X6 where alice, with 12 pulls, 2 deaths, a best streak of 4 and a
    current streak of 6, pulls three times and dies. *)
Lemma pulls_then_death_witness :
  let dead :=
    snd (Route.death 50 (Examples.request "death" Examples.alice)
           (Facts.repeatedly 3
              (Route.triggerPull 50 (Examples.request "death" Examples.alice))
              Examples.seasonedServer)) in
  Facts.stored PlayerStats.triggerPulls Examples.alice (Route.data dead) = 15
  /\ Facts.stored PlayerStats.deaths Examples.alice (Route.data dead) = 3
  /\ Facts.stored PlayerStats.currentStreak Examples.alice (Route.data dead) = 0
  /\ Facts.stored PlayerStats.maxStreak Examples.alice (Route.data dead) = 9.
Proof.
  exact (pulls_then_death 50 (Examples.request "death" Examples.alice)
           Examples.seasonedServer Examples.alice 3 eq_refl).
Defined.

Section Joining.
Import Props Route Facts.

Lemma joinPrizePool_boards now body s :
  StorageData.free (data (snd (joinPrizePool now body s))) = StorageData.free (data s)
  /\ StorageData.paid (data (snd (joinPrizePool now body s))) = StorageData.paid (data s).
Proof. unfold joinPrizePool. by destruct (Js.given (address body)). Qed.

Lemma joinPrizePool_isPaid now body s a :
  Js.given (address body) = Some a ->
  exists st,
    StorageData.playerStats (data (snd (joinPrizePool now body s))) !! a = Some st
    /\ PlayerStats.isPaid st = Some true
    /\ Js.orZero (PlayerStats.triggerPulls st)
       = stored PlayerStats.triggerPulls a (data s).
Proof.
  intros Ha. unfold joinPrizePool. rewrite Ha. cbv beta iota zeta. cbn [snd data withData].
  rewrite updatePlayerStats_lookup. eexists. split; [reflexivity|].
  unfold stored, existingOr, Storage.getPlayerStats. cbn.
  destruct (StorageData.playerStats (data s) !! a) as [old|]; cbn;
    rewrite ?over_same; split; reflexivity.
Qed.

Lemma triggerPull_paid now body s a st :
  Js.given (address body) = Some a ->
  StorageData.playerStats (data s) !! a = Some st ->
  PlayerStats.isPaid st = Some true ->
  exists e,
    StorageData.paid (data (snd (triggerPull now body s)))
    = Storage.upsertTop50 (StorageData.paid (data s)) e
    /\ StorageData.free (data (snd (triggerPull now body s))) = StorageData.free (data s)
    /\ LeaderboardEntry.address e = PlayerStats.address st
    /\ LeaderboardEntry.isPaid e = Some true
    /\ LeaderboardEntry.triggerPulls e = Js.orZero (PlayerStats.triggerPulls st) + 1.
Proof.
  intros Ha Hst Hpaid. unfold triggerPull. rewrite Ha. cbv beta iota zeta. cbn [snd].
  unfold existingOr, Storage.getPlayerStats. rewrite Hst.
  unfold saveStats, withData. cbn [data PlayerStats.isPaid]. rewrite Hpaid.
  eexists. split; [reflexivity|]. repeat split; reflexivity.
Qed.
End Joining.

(** X7. [joinPrizePool] marks the player as paid and touches neither
    partition of the leaderboard. The next trigger pull of the player
    upserts an entry marked as paid into the paid partition and leaves the
    free partition as it was before the join, the player's free entry
    included. *)
Theorem join_then_pull :
  forall now body s a,
    Js.given (Route.address body) = Some a ->
    let joined := snd (Route.joinPrizePool now body s) in
    let played := snd (Route.triggerPull now body joined) in
    StorageData.free (Route.data joined) = StorageData.free (Route.data s)
    /\ StorageData.paid (Route.data joined) = StorageData.paid (Route.data s)
    /\ StorageData.free (Route.data played) = StorageData.free (Route.data s)
    /\ exists e,
         StorageData.paid (Route.data played)
         = Storage.upsertTop50 (StorageData.paid (Route.data s)) e
         /\ LeaderboardEntry.isPaid e = Some true
         /\ LeaderboardEntry.triggerPulls e
            = Facts.stored PlayerStats.triggerPulls a (Route.data s) + 1.
Proof.
  intros now body s a Ha. cbv zeta.
  destruct (joinPrizePool_boards now body s) as [Hf Hp].
  destruct (joinPrizePool_isPaid now body s a Ha) as (st & Hst & Hpaid & Hpulls).
  destruct (triggerPull_paid now body _ a st Ha Hst Hpaid) as (e & He & Hfree & _ & Hep & Het).
  split; [exact Hf|]. split; [exact Hp|]. split; [by rewrite Hfree|].
  exists e. rewrite He, Hp, Het, Hpulls. by repeat split.
Qed.

Lemma join_then_pull_witness :
  let s := Examples.seasonedServer in
  let body := Examples.request "joinPrizePool" Examples.alice in
  let joined := snd (Route.joinPrizePool 50 body s) in
  let played := snd (Route.triggerPull 50 body joined) in
  StorageData.free (Route.data joined) = StorageData.free (Route.data s)
  /\ StorageData.paid (Route.data joined) = StorageData.paid (Route.data s)
  /\ StorageData.free (Route.data played) = StorageData.free (Route.data s)
  /\ exists e,
       StorageData.paid (Route.data played)
       = Storage.upsertTop50 (StorageData.paid (Route.data s)) e
       /\ LeaderboardEntry.isPaid e = Some true
       /\ LeaderboardEntry.triggerPulls e
          = Facts.stored PlayerStats.triggerPulls Examples.alice (Route.data s) + 1.
Proof.
  exact (join_then_pull 50 (Examples.request "joinPrizePool" Examples.alice)
           Examples.seasonedServer Examples.alice eq_refl).
Defined.

(** ** Distribution: refusal, effect on the document, approval *)

Section Distribution.
Import Props Route Facts.

Lemma calculate_refuses now newId d :
  calculate now newId d = None
  <-> StorageData.paid d = [] \/ (PrizePool.totalAmount (StorageData.prizePool d) == 0)%Q.
Proof.
  unfold calculate. rewrite paidEntries_length.
  destruct (StorageData.paid d) as [|x r] eqn:Hp; simpl.
  - split; [by left|reflexivity].
  - destruct (Qeq_bool _ 0) eqn:Hq.
    + apply Qeq_bool_iff in Hq. split; [by right|reflexivity].
    + split; [discriminate|]. intros [H|H]; [discriminate H|].
      apply Qeq_bool_iff in H. congruence.
Qed.

Lemma approveFirst_None now user ds :
  approveFirst now user ds = None <-> existsb (Get.pendingFor user) ds = false.
Proof.
  induction ds as [|d r IH]; simpl; [done|].
  unfold Get.pendingFor at 1.
  destruct (Js.sameAddress _ _ && _); simpl; [split; discriminate|].
  destruct (approveFirst now user r); [|tauto].
  split; [discriminate|]. intros H. apply IH in H. discriminate H.
Qed.

Lemma approveFirst_Some now user ds ds' :
  approveFirst now user ds = Some ds' ->
  map payee ds' = map payee ds
  /\ S (length (filter (fun d => Get.pendingFor user d = true) ds'))
     = length (filter (fun d => Get.pendingFor user d = true) ds).
Proof.
  revert ds'. induction ds as [|d r IH]; intros ds'; simpl; [discriminate|].
  destruct (Js.sameAddress _ _ && _) eqn:Hd.
  - intros [= <-]. split; [reflexivity|].
    rewrite filter_cons_False, filter_cons_True; [reflexivity|exact Hd|].
    unfold Get.pendingFor. simpl. rewrite andb_false_r. discriminate.
  - destruct (approveFirst now user r) as [r'|]; [|discriminate].
    intros [= <-]. destruct (IH r' eq_refl) as [IH1 IH2]. split.
    + simpl. by rewrite IH1.
    + rewrite !filter_cons_False; [exact IH2| |]; unfold Get.pendingFor; rewrite Hd;
        discriminate.
Qed.

Lemma pendingCount_cons user log r :
  pendingCount user (log :: r)
  = (length (filter (fun d => Get.pendingFor user d = true)
               (PrizeDistribution.distributions log))
     + pendingCount user r)%nat.
Proof. reflexivity. Qed.

Lemma approveLogs_spec now id user ls :
  forall found,
    let r := approveLogs now id user found ls in
    fst r = found || approvable id user ls
    /\ map payees (snd r) = map payees ls
    /\ map PrizeDistribution.log_distributionId (snd r)
       = map PrizeDistribution.log_distributionId ls
    /\ (pendingCount user (snd r) <= pendingCount user ls)%nat
    /\ (approvable id user ls = true ->
        (pendingCount user (snd r) < pendingCount user ls)%nat)
    /\ (found = false -> approvable id user ls = false -> snd r = ls).
Proof.
  induction ls as [|log r IH]; intros found; cbv zeta.
  - simpl. rewrite orb_false_r. repeat split; try reflexivity; try lia; try discriminate.
  - cbn [approveLogs approvable existsb].
    destruct (bool_decide (PrizeDistribution.log_distributionId log = id)); cbn [andb].
    + destruct (approveFirst now user (PrizeDistribution.distributions log)) as [ds|] eqn:Hf.
      * assert (He : existsb (Get.pendingFor user) (PrizeDistribution.distributions log)
                     = true).
        { destruct (existsb _ _) eqn:He; [reflexivity|].
          apply (proj2 (approveFirst_None now user _)) in He. congruence. }
        rewrite He. cbn [orb].
        specialize (IH true). cbv zeta in IH.
        destruct (approveLogs now id user true r) as [f r'].
        destruct IH as (I1 & I2 & I3 & I4 & _ & _). cbn [fst snd] in *.
        destruct (approveFirst_Some now user _ ds Hf) as [Hp Hc].
        split; [rewrite I1; by rewrite orb_true_r|].
        split; [cbn [map]; rewrite I2; f_equal; exact Hp|].
        split; [cbn; by rewrite I3|].
        rewrite !pendingCount_cons. cbn [PrizeDistribution.distributions stamp].
        split; [lia|]. split; [intros _; lia|discriminate].
      * apply (proj1 (approveFirst_None now user _)) in Hf. rewrite Hf. cbn [orb].
        specialize (IH found). cbv zeta in IH.
        destruct (approveLogs now id user found r) as [f r'].
        destruct IH as (I1 & I2 & I3 & I4 & I5 & I6). cbn [fst snd] in *.
        split; [exact I1|].
        split; [destruct found; cbn; by rewrite I2|].
        split; [destruct found; cbn; by rewrite I3|].
        assert (Hsame : pendingCount user
                          ((if found
                            then stamp now user (PrizeDistribution.distributions log) log
                            else log) :: r')
                        = (length (filter (fun d => Get.pendingFor user d = true)
                                     (PrizeDistribution.distributions log))
                           + pendingCount user r')%nat).
        { by destruct found. }
        rewrite Hsame, pendingCount_cons.
        split; [lia|]. split; [intros H; specialize (I5 H); lia|].
        intros -> H. by rewrite (I6 eq_refl H).
    + specialize (IH found). cbv zeta in IH.
      destruct (approveLogs now id user found r) as [f r'].
      destruct IH as (I1 & I2 & I3 & I4 & I5 & I6). cbn [fst snd] in *.
      split; [exact I1|]. split; [cbn; by rewrite I2|]. split; [cbn; by rewrite I3|].
      rewrite !pendingCount_cons.
      split; [lia|]. split; [intros H; specialize (I5 H); lia|].
      intros Hfound H. by rewrite (I6 Hfound H).
Qed.

Lemma approvable_pending id user ls :
  approvable id user ls = true -> (0 < pendingCount user ls)%nat.
Proof.
  induction ls as [|log r IH]; [discriminate|].
  rewrite pendingCount_cons. unfold approvable in *. cbn [existsb].
  intros H. apply orb_true_iff in H as [H|H]; [|specialize (IH H); lia].
  enough (0 < length (filter (fun d => Get.pendingFor user d = true)
                        (PrizeDistribution.distributions log)))%nat by lia.
  apply andb_true_iff in H as [_ H].
  induction (PrizeDistribution.distributions log) as [|d ds IHd]; [discriminate H|].
  cbn [existsb] in H. destruct (Get.pendingFor user d) eqn:Hd.
  - rewrite filter_cons_True by exact Hd. simpl. lia.
  - rewrite filter_cons_False by congruence. apply IHd. exact H.
Qed.
End Distribution.

(** X8. [distributePrizes] is refused with status 400 exactly when the
    paid leaderboard is empty or the prize pool holds nothing, and a refused
    request leaves the server as it was, whatever other instances write in
    between. *)
Theorem distribution_refused_iff_nothing_to_share :
  forall interference now newId s,
    (StorageData.paid (Route.data s) = []
     \/ (PrizePool.totalAmount (StorageData.prizePool (Route.data s)) == 0)%Q)
    <-> Route.distributePrizesWith interference now newId s
        = (Route.Failure 400 "No participants or empty prize pool", s).
Proof.
  intros interference now newId s. unfold Route.distributePrizesWith.
  destruct (Route.calculate now newId (Route.data s)) as [log|] eqn:Hc.
  - split; [|discriminate].
    intros H. apply (proj2 (calculate_refuses now newId _)) in H. congruence.
  - split; [reflexivity|]. intros _. by apply (proj1 (calculate_refuses now newId _)).
Qed.

(** X9. [distributePrizes] changes nothing of the document but the prize
    pool: both leaderboards, with the paid players and their [isPaid] mark,
    the statistics and the balances are what they were, so no winner is
    credited by the distribution itself; the pool is either untouched or
    empty with the time of the request. *)
Theorem distribution_touches_the_pool_only :
  forall now newId s,
    let d := Route.data s in
    let d' := Route.data (snd (Route.distributePrizes now newId s)) in
    StorageData.free d' = StorageData.free d
    /\ StorageData.paid d' = StorageData.paid d
    /\ StorageData.playerStats d' = StorageData.playerStats d
    /\ StorageData.playerBalances d' = StorageData.playerBalances d
    /\ (StorageData.prizePool d' = StorageData.prizePool d
        \/ StorageData.prizePool d' = PrizePool.mk 0 0 now).
Proof.
  intros now newId s. cbv zeta.
  unfold Route.distributePrizes, Route.distributePrizesWith.
  destruct (Route.calculate now newId (Route.data s)) as [log|].
  - cbn [snd Route.data]. repeat split; try reflexivity. right. reflexivity.
  - cbn [snd]. repeat split; try reflexivity. by left.
Qed.

(** X10. [approveDistribution] answers 404 exactly when no log with the
    given identifier holds a distribution pending for the address, letter
    case aside, and then the logs are untouched. Otherwise the first such
    distribution of every log with the identifier is approved, which pays
    nobody else and nothing else (addresses and amounts of every log stay
    as they were, and so do the identifiers) and leaves the address with
    fewer pending distributions; the answer is a success with these logs
    when the log file is written, and 500 when the write throws. *)
Theorem approval_needs_a_pending_distribution :
  forall now write body s id user,
    Js.given (Route.distributionId body) = Some id ->
    Js.given (Route.address body) = Some user ->
    (Facts.approvable id user (Route.logs s) = false ->
     Route.approveDistribution now write body s
     = (Route.Failure 404 "Distribution not found", s))
    /\ (Facts.approvable id user (Route.logs s) = true ->
        exists logs',
          map Facts.payees logs' = map Facts.payees (Route.logs s)
          /\ map PrizeDistribution.log_distributionId logs'
             = map PrizeDistribution.log_distributionId (Route.logs s)
          /\ (Facts.pendingCount user logs' < Facts.pendingCount user (Route.logs s))%nat
          /\ Route.approveDistribution now write body s
             = match write with
               | Route.LogWritten =>
                   (Route.Success (Route.LogsPayload logs'),
                    Route.mkServer (Route.data s) logs' (Route.console s))
               | Route.LogWriteThrows kept =>
                   (Route.Failure 500 "Internal server error",
                    Route.mkServer (Route.data s)
                      (if kept then logs' else Route.logs s) (Route.console s))
               end).
Proof.
  intros now write body s id user Hid Huser. unfold Route.approveDistribution.
  rewrite Hid, Huser.
  pose proof (approveLogs_spec now id user (Route.logs s) false) as H. cbv zeta in H.
  destruct (Route.approveLogs now id user false (Route.logs s)) as [found logs'].
  cbn [fst snd] in H. destruct H as (H1 & H2 & H3 & _ & H5 & H6).
  rewrite orb_false_l in H1. subst found. split; intros Ha; rewrite Ha.
  - rewrite (H6 eq_refl Ha). by destruct s.
  - exists logs'. repeat split; auto.
Qed.

(** X10 where [0xA1] approves her prize of the distribution [dist_9] and
    the log file cannot be written: the answer is 500. *)
Lemma approval_needs_a_pending_distribution_witness :
  Facts.approvable "dist_9" "0xA1" (Route.logs Samples.serverWithLog) = true
  /\ fst (Route.approveDistribution 60 (Route.LogWriteThrows false)
            (Samples.approval "dist_9" "0xA1") Samples.serverWithLog)
     = Route.Failure 500 "Internal server error"
  /\ fst (Route.approveDistribution 60 Route.LogWritten
            (Samples.approval "dist_9" "0xA1") Samples.serverWithLog)
     = Route.Success
         (Route.LogsPayload
            (Route.logs (snd (Route.approveDistribution 60 Route.LogWritten
                                (Samples.approval "dist_9" "0xA1") Samples.serverWithLog)))).
Proof.
  split; [reflexivity|].
  destruct (proj2 (approval_needs_a_pending_distribution 60 (Route.LogWriteThrows false)
                     (Samples.approval "dist_9" "0xA1") Samples.serverWithLog
                     "dist_9" "0xA1" eq_refl eq_refl) eq_refl)
    as (logs1 & _ & _ & _ & Hthrows).
  destruct (proj2 (approval_needs_a_pending_distribution 60 Route.LogWritten
                     (Samples.approval "dist_9" "0xA1") Samples.serverWithLog
                     "dist_9" "0xA1" eq_refl eq_refl) eq_refl)
    as (logs2 & _ & _ & _ & Hwritten).
  split; [by rewrite Hthrows|]. by rewrite Hwritten.
Defined.

Section Approvals.
Import Props Route Facts.

Lemma approve_step now body s id user :
  Js.given (distributionId body) = Some id ->
  Js.given (address body) = Some user ->
  (approvable id user (logs s) = false
   /\ forall write, approveDistribution now write body s
                    = (Failure 404 "Distribution not found", s))
  \/ (approvable id user (logs s) = true
      /\ (pendingCount user (logs (snd (approveDistribution now LogWritten body s)))
          < pendingCount user (logs s))%nat).
Proof.
  intros Hid Huser. unfold approveDistribution. rewrite Hid, Huser.
  pose proof (approveLogs_spec now id user (logs s) false) as H. cbv zeta in H.
  destruct (approveLogs now id user false (logs s)) as [found logs'].
  cbn [fst snd] in H. destruct H as (H1 & _ & _ & _ & H5 & H6).
  rewrite orb_false_l in H1. subst found.
  destruct (approvable id user (logs s)) eqn:Ha.
  - right. split; [reflexivity|]. cbn [snd logs]. auto.
  - left. split; [reflexivity|]. intros _. rewrite (H6 eq_refl eq_refl). by destruct s.
Qed.

Lemma approvals_run_out now body s id user n :
  Js.given (distributionId body) = Some id ->
  Js.given (address body) = Some user ->
  approvable id user
    (logs (repeatedly n (approveDistribution now LogWritten body) s)) = false
  \/ (pendingCount user
        (logs (repeatedly n (approveDistribution now LogWritten body) s)) + n
      <= pendingCount user (logs s))%nat.
Proof.
  intros Hid Huser. induction n as [|n IH].
  - right. simpl. lia.
  - unfold repeatedly in *. rewrite Nat.iter_succ.
    set (sn := Nat.iter n (fun s' => snd (approveDistribution now LogWritten body s')) s)
      in *.
    cbv beta.
    destruct (approve_step now body sn id user Hid Huser) as [[Ha Heq]|[Ha Hlt]].
    + left. rewrite (Heq LogWritten). exact Ha.
    + destruct IH as [Hb|Hle]; [congruence|]. right. lia.
Qed.
End Approvals.

(** X11. Approvals run out: after as many [approveDistribution] requests of
    one address for one identifier as the address has pending
    distributions, each of them with the log file written, every further
    one is answered 404 and changes nothing, whether the file can be written
    or not. No distribution is approved twice. *)
Theorem approvals_are_spent :
  forall now write body s id user n,
    Js.given (Route.distributionId body) = Some id ->
    Js.given (Route.address body) = Some user ->
    (Facts.pendingCount user (Route.logs s) <= n)%nat ->
    let s' := Facts.repeatedly n (Route.approveDistribution now Route.LogWritten body) s in
    Route.approveDistribution now write body s'
    = (Route.Failure 404 "Distribution not found", s').
Proof.
  intros now write body s id user n Hid Huser Hn. cbv zeta.
  set (s' := Facts.repeatedly n (Route.approveDistribution now Route.LogWritten body) s).
  destruct (approve_step now body s' id user Hid Huser) as [[_ H]|[Ha _]]; [apply H|].
  exfalso.
  destruct (approvals_run_out now body s id user n Hid Huser) as [Hb|Hle].
  - fold s' in Hb. congruence.
  - fold s' in Hle. apply approvable_pending in Ha. lia.
Qed.

Lemma approvals_are_spent_witness :
  (Facts.pendingCount "0xA1" (Route.logs Samples.serverWithLog) <= 1)%nat
  /\ let s' := Facts.repeatedly 1
                 (Route.approveDistribution 60 Route.LogWritten
                    (Samples.approval "dist_9" "0xA1"))
                 Samples.serverWithLog in
     Route.approveDistribution 60 Route.LogWritten (Samples.approval "dist_9" "0xA1") s'
     = (Route.Failure 404 "Distribution not found", s').
Proof.
  assert (H : (Facts.pendingCount "0xA1" (Route.logs Samples.serverWithLog) <= 1)%nat).
  { vm_compute. lia. }
  split; [exact H|].
  exact (approvals_are_spent 60 Route.LogWritten (Samples.approval "dist_9" "0xA1")
           Samples.serverWithLog "dist_9" "0xA1" 1 eq_refl eq_refl H).
Defined.

(** ** Pending prizes as the first revision of [GET] adds them up *)

Section PendingPrizes.
Import Props Route Facts.

Lemma pendingFor_other a user d :
  Js.sameAddress a user = false ->
  Js.sameAddress (PrizeDistribution.dist_address d) user = true ->
  Js.sameAddress (PrizeDistribution.dist_address d) a = false.
Proof.
  rewrite !sameAddress_false, sameAddress_true. congruence.
Qed.

Lemma approveFirst_other now user a ds ds' :
  Js.sameAddress a user = false ->
  approveFirst now user ds = Some ds' ->
  forall acc, Get.addPending a acc ds' = Get.addPending a acc ds.
Proof.
  intros Ha. revert ds'. induction ds as [|d r IH]; intros ds'; simpl; [discriminate|].
  destruct (Js.sameAddress _ _ && _) eqn:Hd.
  - intros [= <-] acc. unfold Get.addPending. cbn [fold_left].
    apply andb_true_iff in Hd as [Hd _].
    unfold Get.pendingFor at 2 4. cbn [PrizeDistribution.dist_address PrizeDistribution.status].
    by rewrite (pendingFor_other a user d Ha Hd).
  - destruct (approveFirst now user r) as [r'|]; [|discriminate].
    intros [= <-] acc. unfold Get.addPending in *. cbn [fold_left].
    apply (IH r' eq_refl).
Qed.

Lemma approveLogs_other now id user a ls :
  Js.sameAddress a user = false ->
  forall found acc,
    fold_left (fun total log => Get.addPending a total (PrizeDistribution.distributions log))
      (snd (approveLogs now id user found ls)) acc
    = fold_left (fun total log => Get.addPending a total (PrizeDistribution.distributions log))
        ls acc.
Proof.
  intros Ha. induction ls as [|log r IH]; intros found acc; [reflexivity|].
  cbn [approveLogs].
  destruct (bool_decide (PrizeDistribution.log_distributionId log = id)).
  - destruct (approveFirst now user (PrizeDistribution.distributions log)) as [ds|] eqn:Hf.
    + specialize (IH true). destruct (approveLogs now id user true r) as [f r'].
      cbn [snd fold_left PrizeDistribution.distributions stamp] in *.
      rewrite (approveFirst_other now user a _ ds Ha Hf). apply IH.
    + specialize (IH found). destruct (approveLogs now id user found r) as [f r'].
      cbn [snd fold_left] in *. destruct found; apply IH.
  - specialize (IH found). destruct (approveLogs now id user found r) as [f r'].
    cbn [snd fold_left] in *. apply IH.
Qed.

Lemma addPending_none a acc ds :
  filter (fun d => Get.pendingFor a d = true) ds = [] ->
  Get.addPending a acc ds = acc.
Proof.
  unfold Get.addPending. revert acc. induction ds as [|d r IH]; intros acc; [reflexivity|].
  destruct (Get.pendingFor a d) eqn:Hd.
  - rewrite filter_cons_True by exact Hd. discriminate.
  - rewrite filter_cons_False by congruence. cbn [fold_left]. rewrite Hd. apply IH.
Qed.

Lemma totalPending_none a ls :
  pendingCount a ls = 0%nat ->
  forall acc,
    fold_left (fun total log => Get.addPending a total (PrizeDistribution.distributions log))
      ls acc = acc.
Proof.
  induction ls as [|log r IH]; [reflexivity|].
  rewrite pendingCount_cons. intros H acc. cbn [fold_left].
  rewrite addPending_none; [apply IH; lia|].
  apply length_zero_iff_nil. lia.
Qed.

Lemma asks_pendingPrizes q :
  Get.asks (Get.action q) "pendingPrizes" = true ->
  Get.action q = Some "pendingPrizes"%string.
Proof. unfold Get.asks. apply bool_decide_eq_true. Qed.
End PendingPrizes.

(** X12. What [GET ?action=pendingPrizes] of the first revision answers for
    an address is not changed by an approval that another address asks
    for, and it is 0 for an address that no pending distribution names. *)
Theorem pending_prizes_of_others :
  forall now write body s q a,
    Get.asks (Get.action q) "pendingPrizes" = true ->
    Js.given (Get.address q) = Some a ->
    (forall user,
       Js.given (Route.address body) = Some user ->
       Js.sameAddress a user = false ->
       Get.GETFirstRevision q (snd (Route.approveDistribution now write body s))
       = Get.GETFirstRevision q s)
    /\ (Facts.pendingCount a (Route.logs s) = 0%nat ->
        Get.GETFirstRevision q s = Get.PendingPrizes 0).
Proof.
  intros now write body s q a Hq Ha. apply asks_pendingPrizes in Hq.
  unfold Get.GETFirstRevision. rewrite Hq, Ha.
  change (Get.asks (Some "pendingPrizes"%string) "leaderboard") with false.
  change (Get.asks (Some "pendingPrizes"%string) "stats") with false.
  change (Get.asks (Some "pendingPrizes"%string) "prizepool") with false.
  change (Get.asks (Some "pendingPrizes"%string) "pendingPrizes") with true.
  cbv iota. split.
  - intros user Huser Hother. f_equal. unfold Route.approveDistribution.
    rewrite Huser. destruct (Js.given (Route.distributionId body)) as [id|]; [|reflexivity].
    pose proof (approveLogs_other now id user a (Route.logs s) Hother false 0%Q) as H.
    destruct (Route.approveLogs now id user false (Route.logs s)) as [[] logs'];
      [destruct write as [|[]]|]; cbn [snd Route.logs] in *;
      first [exact H | reflexivity].
  - intros H. f_equal. unfold Get.totalPending. by apply totalPending_none.
Qed.

Lemma pending_prizes_of_others_witness :
  let q := Get.mkQuery (Some "pendingPrizes"%string) (Some "0xb2"%string) None in
  (forall user,
     Js.given (Route.address (Samples.approval "dist_9" "0xA1")) = Some user ->
     Js.sameAddress "0xb2" user = false ->
     Get.GETFirstRevision q
       (snd (Route.approveDistribution 60 Route.LogWritten
               (Samples.approval "dist_9" "0xA1") Samples.serverWithLog))
     = Get.GETFirstRevision q Samples.serverWithLog)
  /\ (Facts.pendingCount "0xb2" (Route.logs Samples.serverWithLog) = 0%nat ->
      Get.GETFirstRevision q Samples.serverWithLog = Get.PendingPrizes 0).
Proof.
  exact (pending_prizes_of_others 60 Route.LogWritten (Samples.approval "dist_9" "0xA1")
           Samples.serverWithLog
           (Get.mkQuery (Some "pendingPrizes"%string) (Some "0xb2"%string) None)
           "0xb2" eq_refl eq_refl).
Defined.

(** ** The transfer that a USDC deposit is checked against *)

Section TransferEvents.
Import Props Route Facts.

Lemma findTransfer_skips usdc pre rest :
  Forall (skipped usdc) pre ->
  Chain.findTransfer usdc (pre ++ rest) = Chain.findTransfer usdc rest.
Proof.
  induction 1 as [|l r [Hl|Hl] _ IH]; [reflexivity| |]; cbn [app Chain.findTransfer].
  - by rewrite Hl.
  - rewrite Hl. by destruct (Js.sameAddress _ _).
Qed.

Lemma findTransfer_first usdc pre l post ev :
  Forall (skipped usdc) pre ->
  Js.sameAddress (Chain.log_address l) usdc = true ->
  Chain.decoded l = Some ev ->
  Chain.findTransfer usdc (pre ++ l :: post) = Some ev.
Proof.
  intros Hpre Hl Hev. rewrite findTransfer_skips by exact Hpre.
  cbn [Chain.findTransfer]. by rewrite Hl, Hev.
Qed.

Lemma findTransfer_none usdc ls :
  Forall (skipped usdc) ls -> Chain.findTransfer usdc ls = None.
Proof.
  intros H. rewrite <- (app_nil_r ls). by rewrite findTransfer_skips.
Qed.

Lemma readTransfer_usdc cfg client hash cur receipt :
  isEth cur = false ->
  usdcCall cfg client hash receipt ->
  readTransfer cfg client hash cur = inr (usdcTransfer cfg receipt).
Proof.
  intros Hcur (Hr & Hs & contract & Hto & Hc). unfold readTransfer.
  by rewrite Hr, Hs, Hcur, Hto, Hc.
Qed.

Lemma given_nonempty x a : Js.given x = Some a -> Js.sameAddress "" a = false.
Proof.
  destruct x as [[|c r]|]; simpl; [discriminate| |discriminate].
  intros [= <-]. apply sameAddress_false. discriminate.
Qed.

Lemma sender_mismatch now cfg client body s a h receipt :
  Js.given (address body) = Some a ->
  Js.given (transactionHash body) = Some h ->
  isEth (currencyOf body) = false ->
  usdcCall cfg client h receipt ->
  Js.sameAddress (transferFrom (usdcTransfer cfg receipt)) a = false ->
  deposit now cfg client body s = (SenderMismatch, s).
Proof.
  intros Ha Hh Hcur Hcall Hfrom.
  apply (deposit_rejected now cfg client body s a h); [exact Ha|exact Hh|].
  unfold verifyDeposit. rewrite (readTransfer_usdc _ _ _ _ receipt Hcur Hcall).
  unfold checkParties. by rewrite Hfrom.
Qed.
End TransferEvents.

(** X13. A USDC deposit is checked against the first log of the USDC
    contract that decodes to a transfer, and against no other: when that
    transfer is not from the depositing address the deposit is refused as a
    sender mismatch whatever the later logs of the receipt hold, and a
    receipt in which no log of the contract decodes is refused the same
    way. The server is left as it was. *)
Theorem usdc_deposit_reads_first_transfer :
  forall now cfg client body s a h receipt,
    Js.given (Route.address body) = Some a ->
    Js.given (Route.transactionHash body) = Some h ->
    Route.isEth (Route.currencyOf body) = false ->
    Facts.usdcCall cfg client h receipt ->
    (forall pre l post ev,
        Chain.logs receipt = pre ++ l :: post ->
        Forall (Facts.skipped (Chain.USDC_ADDRESS cfg)) pre ->
        Js.sameAddress (Chain.log_address l) (Chain.USDC_ADDRESS cfg) = true ->
        Chain.decoded l = Some ev ->
        Js.sameAddress (Chain.ev_from ev) a = false ->
        Route.deposit now cfg client body s = (Route.SenderMismatch, s))
    /\ (Forall (Facts.skipped (Chain.USDC_ADDRESS cfg)) (Chain.logs receipt) ->
        Route.deposit now cfg client body s = (Route.SenderMismatch, s)).
Proof.
  intros now cfg client body s a h receipt Ha Hh Hcur Hcall. split.
  - intros pre l post ev Hlogs Hpre Hl Hev Hfrom.
    apply (sender_mismatch now cfg client body s a h receipt); try assumption.
    unfold Route.usdcTransfer.
    by rewrite Hlogs, (findTransfer_first _ pre l post ev Hpre Hl Hev).
  - intros Hnone.
    apply (sender_mismatch now cfg client body s a h receipt); try assumption.
    unfold Route.usdcTransfer. rewrite (findTransfer_none _ _ Hnone).
    apply (given_nonempty _ _ Ha).
Qed.

Lemma usdc_deposit_reads_first_transfer_witness :
  Route.deposit 50 Examples.testnet Samples.batchChain (Examples.depositRequest 10)
    Examples.emptyServer
  = (Route.SenderMismatch, Examples.emptyServer)
  /\ Route.deposit 50 Examples.testnet Samples.silentChain (Examples.depositRequest 10)
       Examples.emptyServer
     = (Route.SenderMismatch, Examples.emptyServer).
Proof.
  split.
  - refine (proj1 (usdc_deposit_reads_first_transfer 50 Examples.testnet Samples.batchChain
                     (Examples.depositRequest 10) Examples.emptyServer
                     Examples.alice "0x7a01" Samples.batchReceipt
                     eq_refl eq_refl eq_refl _)
              [] _ _ _ eq_refl _ eq_refl eq_refl eq_refl).
    + repeat split. eexists. split; reflexivity.
    + constructor.
  - refine (proj2 (usdc_deposit_reads_first_transfer 50 Examples.testnet Samples.silentChain
                     (Examples.depositRequest 10) Examples.emptyServer
                     Examples.alice "0x7a01" _
                     eq_refl eq_refl eq_refl _) _).
    + repeat split. eexists. split; reflexivity.
    + constructor; [left; reflexivity|]. constructor; [right; reflexivity|]. constructor.
Defined.

(** ** Requests that are answered with an error *)

Section Errors.
Import Props Route Facts.

Lemma untouched_same r s : snd r = s -> untouched r s.
Proof. intros <- status error _ _. by split. Qed.

Lemma untouched_success p s' s : untouched (Success p, s') s.
Proof. intros status error H. discriminate H. Qed.

Lemma untouched_500 e s' s : untouched (Failure 500 e, s') s.
Proof. intros status error [= <- _] H. lia. Qed.

Ltac address_handler h :=
  unfold h;
  repeat match goal with
         | |- context [match ?x with Some _ => _ | None => _ end] => destruct x
         end;
  first [apply untouched_success | by apply untouched_same].

Lemma updateStats_untouched now body s : untouched (updateStats now body s) s.
Proof. address_handler updateStats. Qed.

Lemma joinPrizePoolStale_untouched now d body s :
  untouched (joinPrizePoolStale now d body s) s.
Proof. address_handler joinPrizePoolStale. Qed.

Lemma triggerPull_untouched now body s : untouched (triggerPull now body s) s.
Proof. address_handler triggerPull. Qed.

Lemma death_untouched now body s : untouched (death now body s) s.
Proof. address_handler death. Qed.

Lemma cashout_untouched now body s : untouched (cashout now body s) s.
Proof. address_handler cashout. Qed.

Lemma setUsername_untouched now body s : untouched (setUsername now body s) s.
Proof. address_handler setUsername. Qed.

Lemma joinPrizePool_untouched now body s : untouched (joinPrizePool now body s) s.
Proof. address_handler joinPrizePool. Qed.

Lemma distributePrizes_untouched now newId s :
  untouched (distributePrizes now newId s) s.
Proof.
  unfold distributePrizes, distributePrizesWith.
  destruct (calculate now newId (data s));
    [apply untouched_success | by apply untouched_same].
Qed.

Lemma approveDistribution_untouched now write body s :
  untouched (approveDistribution now write body s) s.
Proof.
  unfold approveDistribution.
  destruct (Js.given (distributionId body)) as [id|]; [|by apply untouched_same].
  destruct (Js.given (address body)) as [user|]; [|by apply untouched_same].
  pose proof (approveLogs_spec now id user (logs s) false) as H. cbv zeta in H.
  destruct (approveLogs now id user false (logs s)) as [[] logs'];
    [destruct write; [apply untouched_success|apply untouched_500]|].
  cbn [fst snd] in H. destruct H as (H1 & _ & _ & _ & _ & H6).
  apply untouched_same. cbn [snd]. rewrite (H6 eq_refl); [by destruct s|].
  by rewrite orb_false_l in H1.
Qed.

Lemma deposit_untouched now cfg client body s :
  untouched (deposit now cfg client body s) s.
Proof.
  unfold deposit.
  destruct (Js.given (address body)) as [a|]; [|by apply untouched_same].
  destruct (Js.given (transactionHash body)) as [h|]; [|by apply untouched_same].
  destruct (verifyDeposit _ _ _ _ _) as [f|v]; [by apply untouched_same|].
  cbv zeta. destruct (Ledger.addBalance _ _ _ _ _ _) as [e|[u d']];
    [|apply untouched_success].
  intros status error _ _. cbn [snd]. by destruct (amountMismatch _ _).
Qed.

Lemma withdraw_untouched now body s : untouched (withdraw now body s) s.
Proof.
  unfold withdraw. destruct (validAmount body) as [[a v]|]; [|by apply untouched_same].
  destruct (Ledger.deductBalance _ _ _ _ _) as [e|[u d']];
    [by apply untouched_same | apply untouched_success].
Qed.

Lemma approvePrize_untouched now body s : untouched (approvePrize now body s) s.
Proof.
  unfold approvePrize. destruct (validAmount body) as [[a v]|]; [|by apply untouched_same].
  destruct (Ledger.approvePendingPrize _ _ _ _) as [e|[u d']];
    [by apply untouched_same | apply untouched_success].
Qed.

Lemma validAmount_refuses body :
  noPositiveAmount body -> validAmount body = None.
Proof.
  unfold validAmount. intros [H|[H|(v & H & Hv)]].
  - by rewrite H.
  - rewrite H. by destruct (Js.given (address body)).
  - rewrite H. destruct (Js.given (address body)); [|reflexivity].
    unfold Js.givenQ. destruct (Qeq_bool v 0); [reflexivity|].
    apply Qle_bool_iff in Hv. by rewrite Hv.
Qed.
End Errors.

(** X14. A request that the route answers with an error of the request,
    that is with a status below 500 (400 or 404), in either revision and
    whatever the action, has written nothing: the document and the
    distribution logs of the server are those from before the request. The
    500 of the [catch] of the route is another matter: it can follow a
    change. *)
Theorem errors_write_nothing :
  forall firstRevision env body s status error,
    fst (Facts.answer firstRevision env body s) = Route.Failure status error ->
    status < 500 ->
    Route.data (snd (Facts.answer firstRevision env body s)) = Route.data s
    /\ Route.logs (snd (Facts.answer firstRevision env body s)) = Route.logs s.
Proof.
  intros firstRevision env body s.
  change (Facts.untouched (Facts.answer firstRevision env body s) s).
  unfold Facts.answer, Route.POST, Route.POSTFirstRevision.
  destruct firstRevision;
    repeat match goal with
           | |- Facts.untouched (if ?b then _ else _) _ => destruct b
           end;
    auto using updateStats_untouched, joinPrizePoolStale_untouched, triggerPull_untouched,
      death_untouched, cashout_untouched, setUsername_untouched, joinPrizePool_untouched,
      distributePrizes_untouched, approveDistribution_untouched, deposit_untouched,
      withdraw_untouched, approvePrize_untouched, untouched_same.
Qed.

Lemma errors_write_nothing_witness :
  let r := Facts.answer false Examples.env
             (Examples.amountRequest "withdraw" Examples.alice 5) Examples.emptyServer in
  fst r = Route.Failure 400 "InsufficientBalance"
  /\ Route.data (snd r) = Route.data Examples.emptyServer
  /\ Route.logs (snd r) = Route.logs Examples.emptyServer.
Proof.
  split; [reflexivity|].
  refine (errors_write_nothing false Examples.env
            (Examples.amountRequest "withdraw" Examples.alice 5) Examples.emptyServer
            400 "InsufficientBalance" eq_refl _).
  lia.
Defined.

(** X15. [withdraw] and [approvePrize] look at the request before they
    look at the ledger: without an address, without an amount, or with an
    amount that is zero or negative, the answer is the 400 of the action and
    the server is left as it was, whatever the player owns. *)
Theorem money_requests_need_a_positive_amount :
  forall now body s,
    Facts.noPositiveAmount body ->
    Route.withdraw now body s = (Route.Failure 400 "Invalid withdrawal data", s)
    /\ Route.approvePrize now body s
       = (Route.Failure 400 "Invalid prize approval data", s).
Proof.
  intros now body s H. unfold Route.withdraw, Route.approvePrize.
  by rewrite (validAmount_refuses body H).
Qed.

Lemma money_requests_need_a_positive_amount_witness :
  let body := Examples.amountRequest "withdraw" Examples.alice (-5) in
  Facts.noPositiveAmount body
  /\ Route.withdraw 50 body Examples.emptyServer
     = (Route.Failure 400 "Invalid withdrawal data", Examples.emptyServer)
  /\ Route.approvePrize 50 body Examples.emptyServer
     = (Route.Failure 400 "Invalid prize approval data", Examples.emptyServer).
Proof.
  assert (H : Facts.noPositiveAmount (Examples.amountRequest "withdraw" Examples.alice (-5))).
  { right. right. exists (-5)%Q. split; [reflexivity|]. discriminate. }
  split; [exact H|].
  exact (money_requests_need_a_positive_amount 50 _ Examples.emptyServer H).
Defined.

(** ** Initialisation of the store *)

(** X16. [POST /api/init-game-data] protects the document that its read
    of the store returns, and no other. When the read returns a document,
    nothing is written, whatever the deployment. When the read returns
    nothing, the initial document is written over whatever the store holds
    by then: a document that the read did not see, or that arrived after
    it, is replaced. When the read returns what the store holds and the
    store stands still, a second call leaves what the first call left. *)
Theorem init_game_data_trusts_its_read :
  forall now now' env store,
    (forall d, snd (Init.initGameData now env (Some d) store) = store)
    /\ (Init.getThrows env = false ->
        Init.unconfigured env = false ->
        Init.patch env = Init.PatchOk ->
        Init.initGameData now env None store
        = (Init.Created (StorageData.initialData now), Some (StorageData.initialData now)))
    /\ (let left := snd (Init.initGameData now env store store) in
        snd (Init.initGameData now' env left left) = left).
Proof.
  intros now now' env store. split; [|split].
  - intros d. unfold Init.initGameData. by destruct (Init.getThrows env).
  - intros Hg Hu Hp. unfold Init.initGameData, Init.create. by rewrite Hg, Hu, Hp.
  - cbv zeta. unfold Init.initGameData, Init.create.
    destruct (Init.getThrows env); [reflexivity|].
    destruct store as [d|]; [reflexivity|].
    destruct (Init.unconfigured env); [reflexivity|].
    by destruct (Init.patch env).
Qed.

(** X16 where the read sees nothing although the store holds the document
    of four players: the document is replaced by the empty one. *)
Lemma init_game_data_trusts_its_read_witness :
  Init.initGameData 70 Samples.healthy None (Some Examples.poolOf100)
  = (Init.Created (StorageData.initialData 70), Some (StorageData.initialData 70)).
Proof.
  exact (proj1 (proj2 (init_game_data_trusts_its_read 70 70 Samples.healthy
                         (Some Examples.poolOf100)))
           eq_refl eq_refl eq_refl).
Defined.

(** X17. [POST /api/init-edge-config] can replace a document. Its first revision
    never looks at the store and replaces whatever is there by the empty
    document. Its second revision skips a document that it can read, but
    when the read of the store throws it goes on and replaces the document
    all the same. *)
Theorem init_edge_config_can_overwrite :
  forall now env d,
    Init.unconfigured env = false ->
    Init.patch env = Init.PatchOk ->
    Init.initEdgeConfigFirstRevision now env (Some d)
    = (Init.Created (StorageData.initialData now), Some (StorageData.initialData now))
    /\ Init.initEdgeConfig now env (Some d)
       = if Init.getThrows env
         then (Init.Created (StorageData.initialData now),
               Some (StorageData.initialData now))
         else (Init.Skipped d, Some d).
Proof.
  intros now env d Hu Hp.
  unfold Init.initEdgeConfigFirstRevision, Init.initEdgeConfig, Init.create.
  rewrite Hu, Hp. split; [reflexivity|]. by destruct (Init.getThrows env).
Qed.

Lemma init_edge_config_can_overwrite_witness :
  Init.initEdgeConfigFirstRevision 70 Samples.blind (Some Examples.poolOf100)
  = (Init.Created (StorageData.initialData 70), Some (StorageData.initialData 70))
  /\ Init.initEdgeConfig 70 Samples.blind (Some Examples.poolOf100)
     = if Init.getThrows Samples.blind
       then (Init.Created (StorageData.initialData 70),
             Some (StorageData.initialData 70))
       else (Init.Skipped Examples.poolOf100, Some Examples.poolOf100).
Proof.
  exact (init_edge_config_can_overwrite 70 Samples.blind Examples.poolOf100
           eq_refl eq_refl).
Defined.

(** ** The storage modules as a whole *)

(** X18. File-backed storage: what [saveData] is given is what [getData]
    returns next, written or not; after a write that succeeded [loadData]
    returns it too and changes nothing; after a write that failed
    [loadData] returns the older content of the file when there is one, and
    [getData] follows it, so the update is gone. The same holds for the
    updates of the statistics, which are built from [getData]. *)
Theorem file_storage_round_trip :
  forall writable data st,
    FileStorage.getData (FileStorage.saveData writable data st) = data
    /\ FileStorage.loadData (FileStorage.saveData true data st)
       = (data, FileStorage.saveData true data st)
    /\ (forall old,
          FileStorage.file st = Some old ->
          FileStorage.loadData (FileStorage.saveData false data st)
          = (old, FileStorage.mkState old (Some old)))
    /\ (forall old now address stats,
          FileStorage.file st = Some old ->
          FileStorage.getPlayerStats address
            (FileStorage.initStorage
               (FileStorage.updatePlayerStats false now address stats st))
          = Storage.getPlayerStats address old).
Proof.
  intros writable data st. repeat split.
  - intros old Hold. unfold FileStorage.loadData, FileStorage.saveData.
    cbn [FileStorage.file]. by rewrite Hold.
  - intros old now address stats Hold.
    unfold FileStorage.getPlayerStats, FileStorage.initStorage,
      FileStorage.updatePlayerStats, FileStorage.loadData, FileStorage.saveData.
    cbn [FileStorage.file]. by rewrite Hold.
Qed.

(** X18 where the file holds the document of four players, and a write of
    another document fails. *)
Lemma file_storage_round_trip_witness :
  let st := FileStorage.mkState Examples.emptyDocument (Some Examples.poolOf100) in
  FileStorage.getData (FileStorage.saveData false Examples.oneEntry st) = Examples.oneEntry
  /\ FileStorage.loadData (FileStorage.saveData false Examples.oneEntry st)
     = (Examples.poolOf100,
        FileStorage.mkState Examples.poolOf100 (Some Examples.poolOf100)).
Proof.
  pose proof (file_storage_round_trip false Examples.oneEntry
                (FileStorage.mkState Examples.emptyDocument (Some Examples.poolOf100)))
    as (H1 & _ & H3 & _).
  split; [exact H1|]. exact (H3 Examples.poolOf100 eq_refl).
Defined.

(** X19. Edge Config storage, the cache window: for 30 seconds after a
    [saveData], [loadData] of the same instance answers with the saved
    document and does not look at Edge Config, whether the write arrived or
    not and whatever other instances have written since. Once the 30
    seconds are over, a document that is in Edge Config replaces the cache. *)
Theorem edge_cache_window :
  forall now now' written getThrows data other st,
    let saved :=
      EdgeStorage.elsewhereWritten other (EdgeStorage.saveData now written data st) in
    (now' - now < EdgeStorage.CACHE_TTL ->
     EdgeStorage.loadData now' getThrows saved = (data, saved))
    /\ (EdgeStorage.CACHE_TTL <= now' - now ->
        EdgeStorage.loadData now' false saved
        = (other, EdgeStorage.mkState other now' (Some other))).
Proof.
  intros now now' written getThrows data other st. cbv zeta.
  unfold EdgeStorage.loadData, EdgeStorage.elsewhereWritten, EdgeStorage.saveData.
  cbn [EdgeStorage.lastFetch EdgeStorage.cachedData EdgeStorage.remote].
  split; intros H.
  - by rewrite (proj2 (Z.ltb_lt _ _) H).
  - by rewrite (proj2 (Z.ltb_ge _ _) H).
Qed.

(** X19 twenty seconds after a write that did not arrive, while another
    instance has written the document of four players. *)
Lemma edge_cache_window_witness :
  let saved :=
    EdgeStorage.elsewhereWritten Examples.poolOf100
      (EdgeStorage.saveData 1700000000000 false Examples.oneEntry
         (EdgeStorage.coldStart 1699999999000 None)) in
  EdgeStorage.loadData 1700000020000 false saved = (Examples.oneEntry, saved).
Proof.
  refine (proj1 (edge_cache_window 1700000000000 1700000020000 false false
                   Examples.oneEntry Examples.poolOf100
                   (EdgeStorage.coldStart 1699999999000 None)) _).
  unfold EdgeStorage.CACHE_TTL. lia.
Defined.

(** X20. Edge Config storage, a new instance: the write functions build
    the document from the cache alone. An instance that has just started
    and whose first read of Edge Config throws therefore writes a document
    made of the one new entry, and the statistics and the other entries
    that Edge Config held are replaced by it; when the read succeeds the
    entry is added to the document that was read. *)
Theorem edge_cold_instance_overwrites :
  forall now started stored mode entry getThrows,
    EdgeStorage.CACHE_TTL <= now ->
    let st :=
      EdgeStorage.updateLeaderboardEntry now true mode entry
        (EdgeStorage.initStorage now getThrows
           (EdgeStorage.coldStart started (Some stored))) in
    EdgeStorage.remote st
    = Some (Storage.updateLeaderboardEntryEdge mode entry
              (if getThrows then StorageData.initialData started else stored))
    /\ (getThrows = true ->
        exists d,
          EdgeStorage.remote st = Some d
          /\ Storage.board mode d = [LeaderboardEntry.setRank entry 1]
          /\ StorageData.playerStats d = ∅
          /\ StorageData.playerBalances d = ∅).
Proof.
  intros now started stored mode entry getThrows Hnow. cbv zeta.
  unfold EdgeStorage.updateLeaderboardEntry, EdgeStorage.initStorage,
    EdgeStorage.loadData, EdgeStorage.coldStart, EdgeStorage.saveData, EdgeStorage.getData.
  cbn [EdgeStorage.lastFetch EdgeStorage.cachedData EdgeStorage.remote].
  rewrite Z.sub_0_r, (proj2 (Z.ltb_ge _ _) Hnow).
  destruct getThrows; cbn [snd EdgeStorage.cachedData EdgeStorage.remote].
  - split; [reflexivity|]. intros _. eexists. split; [reflexivity|].
    by destruct mode.
  - split; [reflexivity|discriminate].
Qed.

Lemma edge_cold_instance_overwrites_witness :
  let st :=
    EdgeStorage.updateLeaderboardEntry 1700000000000 true FreeMode Examples.rejoin
      (EdgeStorage.initStorage 1700000000000 true
         (EdgeStorage.coldStart 1699999999000 (Some Examples.poolOf100))) in
  EdgeStorage.remote st
  = Some (Storage.updateLeaderboardEntryEdge FreeMode Examples.rejoin
            (if true then StorageData.initialData 1699999999000 else Examples.poolOf100))
  /\ (true = true ->
      exists d,
        EdgeStorage.remote st = Some d
        /\ Storage.board FreeMode d = [LeaderboardEntry.setRank Examples.rejoin 1]
        /\ StorageData.playerStats d = ∅
        /\ StorageData.playerBalances d = ∅).
Proof.
  refine (edge_cold_instance_overwrites 1700000000000 1699999999000 Examples.poolOf100
            FreeMode Examples.rejoin true _).
  unfold EdgeStorage.CACHE_TTL. lia.
Defined.

(** X21. The guard of [saveData] compares the numbers of leaderboard
    entries and nothing else: a document with at least one entry is written
    over whatever the backend holds, and so is any document when the
    backend holds no entry, statistics and balances included. *)
Theorem guard_counts_entries_only :
  forall data st,
    (0 < Storage.entryCount data)%nat
    \/ (forall current,
          Storage.gameData st = Some current -> Storage.entryCount current = 0%nat) ->
    Storage.saveData data st
    = (Js.Returns tt,
       Storage.mkBackend (Some data)
         (Storage.console st ++ ["Saved data to Edge Config"%string])).
Proof.
  intros data st H. unfold Storage.saveData.
  assert (Hg : Storage.guardTrips (Storage.gameData st) data = false).
  { unfold Storage.guardTrips. destruct (Storage.gameData st) as [current|]; [|reflexivity].
    destruct H as [H|H].
    - apply andb_false_iff. right. apply Nat.eqb_neq. lia.
    - apply andb_false_iff. left. apply Nat.ltb_ge. rewrite (H current eq_refl). lia. }
  by rewrite Hg.
Qed.

Lemma guard_counts_entries_only_witness :
  let data :=
    Storage.updateLeaderboardEntryEdge FreeMode Examples.rejoin
      (StorageData.initialData 1699999999000) in
  (0 < Storage.entryCount data)%nat
  /\ Storage.saveData data (Storage.mkBackend (Some Examples.poolOf100) [])
     = (Js.Returns tt,
        Storage.mkBackend (Some data) ([] ++ ["Saved data to Edge Config"%string])).
Proof.
  assert (H : (0 < Storage.entryCount
                     (Storage.updateLeaderboardEntryEdge FreeMode Examples.rejoin
                        (StorageData.initialData 1699999999000)))%nat).
  { vm_compute. lia. }
  split; [exact H|].
  exact (guard_counts_entries_only _ (Storage.mkBackend (Some Examples.poolOf100) [])
           (or_introl H)).
Defined.

(** ** Cash-outs, user names and repeated joins *)

Section OtherHandlers.
Import Props Route Facts.

Lemma cashout_counters now body s a :
  Js.given (address body) = Some a ->
  let s' := snd (cashout now body s) in
  stored PlayerStats.triggerPulls a (data s') = stored PlayerStats.triggerPulls a (data s)
  /\ stored PlayerStats.currentStreak a (data s') = 0
  /\ stored PlayerStats.deaths a (data s') = stored PlayerStats.deaths a (data s)
  /\ stored PlayerStats.maxStreak a (data s')
     = Z.max (stored PlayerStats.maxStreak a (data s)) 7.
Proof.
  intros Ha. cbv zeta. unfold cashout. rewrite Ha. cbv beta iota zeta. cbn [snd].
  unfold stored at 1 3 4 6. rewrite saveStats_playerStats, updatePlayerStats_lookup.
  rewrite <- (existing_stored PlayerStats.triggerPulls (newStats now a) a (data s) eq_refl).
  rewrite <- (existing_stored PlayerStats.deaths (newStats now a) a (data s) eq_refl).
  rewrite <- (existing_stored PlayerStats.maxStreak (newStats now a) a (data s) eq_refl).
  unfold existingOr, Storage.getPlayerStats.
  destruct (StorageData.playerStats (data s) !! a) as [old|]; cbn;
    rewrite ?over_same; repeat split; reflexivity.
Qed.

Lemma setUsername_counters now body s a name :
  Js.given (address body) = Some a ->
  Js.given (username body) = Some name ->
  let s' := snd (setUsername now body s) in
  stored PlayerStats.triggerPulls a (data s') = stored PlayerStats.triggerPulls a (data s)
  /\ stored PlayerStats.currentStreak a (data s')
     = stored PlayerStats.currentStreak a (data s)
  /\ stored PlayerStats.deaths a (data s') = stored PlayerStats.deaths a (data s)
  /\ stored PlayerStats.maxStreak a (data s') = stored PlayerStats.maxStreak a (data s)
  /\ exists st,
       StorageData.playerStats (data s') !! a = Some st
       /\ PlayerStats.username st = Some name.
Proof.
  intros Ha Hn. cbv zeta. unfold setUsername. rewrite Ha, Hn. cbv beta iota zeta. cbn [snd].
  unfold stored at 1 3 5 7. rewrite saveStats_playerStats, updatePlayerStats_lookup.
  rewrite <- (existing_stored PlayerStats.triggerPulls (newStats now a) a (data s) eq_refl).
  rewrite <- (existing_stored PlayerStats.currentStreak (newStats now a) a (data s) eq_refl).
  rewrite <- (existing_stored PlayerStats.deaths (newStats now a) a (data s) eq_refl).
  rewrite <- (existing_stored PlayerStats.maxStreak (newStats now a) a (data s) eq_refl).
  unfold existingOr, Storage.getPlayerStats.
  destruct (StorageData.playerStats (data s) !! a) as [old|]; cbn;
    rewrite ?over_same; repeat split; try reflexivity; eexists; split; reflexivity.
Qed.

Lemma joinPrizePool_pool now body s a :
  Js.given (address body) = Some a ->
  StorageData.prizePool (data (snd (joinPrizePool now body s)))
  = Storage.incrementPool now (Storage.relative 1 1) (StorageData.prizePool (data s))
  /\ StorageData.playerBalances (data (snd (joinPrizePool now body s)))
     = StorageData.playerBalances (data s).
Proof. intros Ha. unfold joinPrizePool. by rewrite Ha. Qed.

End OtherHandlers.

(** X22. [joinPrizePool] counts requests, not players, and takes nothing
    from the balance of the player: [n] joins in a row from one address add
    [n] participants and [n] units to the pool, and the balances of the
    document are what they were. *)
Theorem joins_count_requests :
  forall n now body s a,
    Js.given (Route.address body) = Some a ->
    let s' := Facts.repeatedly n (Route.joinPrizePool now body) s in
    PrizePool.participants (StorageData.prizePool (Route.data s'))
    = PrizePool.participants (StorageData.prizePool (Route.data s)) + Z.of_nat n
    /\ (PrizePool.totalAmount (StorageData.prizePool (Route.data s'))
        == PrizePool.totalAmount (StorageData.prizePool (Route.data s))
           + inject_Z (Z.of_nat n))%Q
    /\ StorageData.playerBalances (Route.data s')
       = StorageData.playerBalances (Route.data s).
Proof.
  intros n now body s a Ha. cbv zeta. induction n as [|n (IH1 & IH2 & IH3)].
  - simpl. repeat split; [lia|]. unfold inject_Z. ring.
  - unfold Facts.repeatedly in *. rewrite Nat.iter_succ.
    destruct (joinPrizePool_pool now body
                (Nat.iter n (fun s' => snd (Route.joinPrizePool now body s')) s) a Ha)
      as [Hp Hb].
    rewrite Hp, Hb. cbn [Storage.incrementPool Storage.relative Storage.setAmount
      Storage.setParticipants Storage.incrementAmount Storage.incrementParticipants
      Storage.orZeroQ Js.orZero PrizePool.participants PrizePool.totalAmount].
    repeat split; [lia| |exact IH3].
    rewrite Qred_correct, IH2, Nat2Z.inj_succ, <- Z.add_1_r, inject_Z_plus. ring.
Qed.

Lemma joins_count_requests_witness :
  let s' :=
    Facts.repeatedly 3
      (Route.joinPrizePool 50 (Examples.request "joinPrizePool" Examples.alice))
      Examples.seasonedServer in
  PrizePool.participants (StorageData.prizePool (Route.data s'))
  = PrizePool.participants (StorageData.prizePool (Route.data Examples.seasonedServer))
    + Z.of_nat 3
  /\ (PrizePool.totalAmount (StorageData.prizePool (Route.data s'))
      == PrizePool.totalAmount (StorageData.prizePool (Route.data Examples.seasonedServer))
         + inject_Z (Z.of_nat 3))%Q
  /\ StorageData.playerBalances (Route.data s')
     = StorageData.playerBalances (Route.data Examples.seasonedServer).
Proof.
  exact (joins_count_requests 3 50 (Examples.request "joinPrizePool" Examples.alice)
           Examples.seasonedServer Examples.alice eq_refl).
Defined.

(** X23. [cashout] is not checked against the streak that the server has
    recorded: whatever the current streak of the player, and for a player
    never seen before too, the best streak stored afterwards is the larger
    of the former one and 7, the current streak is 0, and pulls and deaths
    are what they were. *)
Theorem cashout_records_seven :
  forall now body s a,
    Js.given (Route.address body) = Some a ->
    let s' := snd (Route.cashout now body s) in
    Facts.stored PlayerStats.maxStreak a (Route.data s')
    = Z.max (Facts.stored PlayerStats.maxStreak a (Route.data s)) 7
    /\ Facts.stored PlayerStats.currentStreak a (Route.data s') = 0
    /\ Facts.stored PlayerStats.triggerPulls a (Route.data s')
       = Facts.stored PlayerStats.triggerPulls a (Route.data s)
    /\ Facts.stored PlayerStats.deaths a (Route.data s')
       = Facts.stored PlayerStats.deaths a (Route.data s).
Proof.
  intros now body s a Ha. cbv zeta.
  destruct (cashout_counters now body s a Ha) as (H1 & H2 & H3 & H4). by repeat split.
Qed.

Lemma cashout_records_seven_witness :
  let s' := snd (Route.cashout 50 (Examples.request "cashout" Examples.bob)
                   Examples.emptyServer) in
  Facts.stored PlayerStats.maxStreak Examples.bob (Route.data s')
  = Z.max (Facts.stored PlayerStats.maxStreak Examples.bob (Route.data Examples.emptyServer)) 7
  /\ Facts.stored PlayerStats.currentStreak Examples.bob (Route.data s') = 0
  /\ Facts.stored PlayerStats.triggerPulls Examples.bob (Route.data s')
     = Facts.stored PlayerStats.triggerPulls Examples.bob (Route.data Examples.emptyServer)
  /\ Facts.stored PlayerStats.deaths Examples.bob (Route.data s')
     = Facts.stored PlayerStats.deaths Examples.bob (Route.data Examples.emptyServer).
Proof.
  exact (cashout_records_seven 50 (Examples.request "cashout" Examples.bob)
           Examples.emptyServer Examples.bob eq_refl).
Defined.

(** X24. [setUsername] stores the name and leaves the four counters of the
    player as they were. *)
Theorem setUsername_keeps_counters :
  forall now body s a name,
    Js.given (Route.address body) = Some a ->
    Js.given (Route.username body) = Some name ->
    let s' := snd (Route.setUsername now body s) in
    (exists st,
        StorageData.playerStats (Route.data s') !! a = Some st
        /\ PlayerStats.username st = Some name)
    /\ Facts.stored PlayerStats.triggerPulls a (Route.data s')
       = Facts.stored PlayerStats.triggerPulls a (Route.data s)
    /\ Facts.stored PlayerStats.deaths a (Route.data s')
       = Facts.stored PlayerStats.deaths a (Route.data s)
    /\ Facts.stored PlayerStats.maxStreak a (Route.data s')
       = Facts.stored PlayerStats.maxStreak a (Route.data s)
    /\ Facts.stored PlayerStats.currentStreak a (Route.data s')
       = Facts.stored PlayerStats.currentStreak a (Route.data s).
Proof.
  intros now body s a name Ha Hn. cbv zeta.
  destruct (setUsername_counters now body s a name Ha Hn) as (H1 & H2 & H3 & H4 & H5).
  by repeat split.
Qed.

Lemma setUsername_keeps_counters_witness :
  let s' := snd (Route.setUsername 50 Samples.naming Examples.seasonedServer) in
  (exists st,
      StorageData.playerStats (Route.data s') !! Examples.alice = Some st
      /\ PlayerStats.username st = Some "ace"%string)
  /\ Facts.stored PlayerStats.triggerPulls Examples.alice (Route.data s')
     = Facts.stored PlayerStats.triggerPulls Examples.alice
         (Route.data Examples.seasonedServer)
  /\ Facts.stored PlayerStats.deaths Examples.alice (Route.data s')
     = Facts.stored PlayerStats.deaths Examples.alice (Route.data Examples.seasonedServer)
  /\ Facts.stored PlayerStats.maxStreak Examples.alice (Route.data s')
     = Facts.stored PlayerStats.maxStreak Examples.alice
         (Route.data Examples.seasonedServer)
  /\ Facts.stored PlayerStats.currentStreak Examples.alice (Route.data s')
     = Facts.stored PlayerStats.currentStreak Examples.alice
         (Route.data Examples.seasonedServer).
Proof.
  exact (setUsername_keeps_counters 50 Samples.naming Examples.seasonedServer
           Examples.alice "ace" eq_refl eq_refl).
Defined.

(** ** Reading back what was written *)

Section ReadBack.
Import Props Route Facts.

Lemma given_again x a : Js.given x = Some a -> Js.given (Some a) = Some a.
Proof. destruct x as [[|c r]|]; simpl; [discriminate| |discriminate]. by intros [= <-]. Qed.

Lemma board_setBoard mode d b : Storage.board mode (Storage.setBoard mode d b) = b.
Proof. by destruct mode. Qed.

Lemma board_updatePlayerStats mode now a u d :
  Storage.board mode (Storage.updatePlayerStats now a u d) = Storage.board mode d.
Proof. by destruct mode. Qed.

Lemma saveStats_board now a u s :
  Storage.board (modeOf (PlayerStats.isPaid u)) (data (saveStats now a u s))
  = Storage.upsertTop50 (Storage.board (modeOf (PlayerStats.isPaid u)) (data s))
      (entryOf u).
Proof.
  unfold saveStats, withData, Storage.updateLeaderboardEntryEdge. cbn [data].
  by rewrite board_setBoard, board_updatePlayerStats.
Qed.

Lemma holds_upsert b e :
  (length b < 50)%nat ->
  holds (Storage.upsertTop50 b e) (LeaderboardEntry.address e) = true.
Proof.
  intros Hlen. rewrite upsertTop50_take, take_ge
    by (rewrite upsert_length; destruct (holds b _); lia).
  unfold holds. apply existsb_exists.
  pose proof (upsert_present b e) as Hin. apply in_map_iff in Hin as (x & Hx & Hin).
  exists x. split; [exact Hin|]. by apply sameAddress_true.
Qed.

Lemma event_read_back h now body s a :
  In h gameEvents ->
  Js.given (address body) = Some a ->
  exists u,
    h now body s = (Success (StatsPayload u), saveStats now a u s)
    /\ Storage.getPlayerStats a (data (saveStats now a u s)) = Some (stamped u now).
Proof.
  intros Hh Ha. unfold gameEvents in Hh. cbn [In] in Hh.
  destruct Hh as [<- | [<- | [<- | []]]].
  - unfold triggerPull. rewrite Ha. cbv zeta. eexists. split; [reflexivity|].
    unfold Storage.getPlayerStats. rewrite saveStats_playerStats, updatePlayerStats_lookup.
    unfold existingOr, Storage.getPlayerStats, stamped.
    destruct (StorageData.playerStats (data s) !! a) as [old|]; cbn;
      by rewrite ?over_same.
  - unfold death. rewrite Ha. cbv zeta. eexists. split; [reflexivity|].
    unfold Storage.getPlayerStats. rewrite saveStats_playerStats, updatePlayerStats_lookup.
    unfold existingOr, Storage.getPlayerStats, stamped.
    destruct (StorageData.playerStats (data s) !! a) as [old|]; cbn;
      by rewrite ?over_same.
  - unfold cashout. rewrite Ha. cbv zeta. eexists. split; [reflexivity|].
    unfold Storage.getPlayerStats. rewrite saveStats_playerStats, updatePlayerStats_lookup.
    unfold existingOr, Storage.getPlayerStats, stamped.
    destruct (StorageData.playerStats (data s) !! a) as [old|]; cbn;
      by rewrite ?over_same.
Qed.

Lemma over_orElseZ x d : PlayerStats.over (Js.orElseZ x d) d = Js.orElseZ x d.
Proof.
  unfold Js.orElseZ. destruct x as [v|]; [destruct (v =? 0)|]; by destruct d.
Qed.

Lemma sent_orElseZ x d : Js.orZero (Js.orElseZ x d) = sent x (Js.orZero d).
Proof.
  unfold Js.orElseZ, sent. destruct x as [v|]; [|reflexivity].
  by destruct (v =? 0).
Qed.
End ReadBack.

(** X25. What a game event answers is what is read back, for as long as
    the storage module answers from its cache. [st] is the Edge Config
    storage module before the last [saveData] of the event. Within 30
    seconds of [triggerPull], [death] or [cashout], [GET ?action=stats] of
    the second revision returns the statistics of the response with
    [lastUpdated] set to the time of the request, whether the write reached
    Edge Config or not. Later, [GET] answers from the document that Edge
    Config holds. And when the partition of the player held fewer than 50
    entries, the document that the event leaves holds an entry of the
    player; with 50 entries the new entry can be the one that the cap
    drops. *)
Theorem game_event_is_read_back :
  forall h now now' body s a mode st written getThrows,
    In h Facts.gameEvents ->
    Js.given (Route.address body) = Some a ->
    exists u,
      fst (h now body s) = Route.Success (Route.StatsPayload u)
      /\ (let cache :=
            EdgeStorage.saveData now written (Route.data (snd (h now body s))) st in
          let q := Get.mkQuery (Some "stats"%string) (Some a) mode in
          (now' - now < EdgeStorage.CACHE_TTL ->
           Get.GET now' (fst (EdgeStorage.loadData now' getThrows cache)) q
             (snd (h now body s))
           = Get.Stats (Some (Facts.stamped u now)))
          /\ (forall held,
                EdgeStorage.CACHE_TTL <= now' - now ->
                EdgeStorage.remote cache = Some held ->
                Get.GET now' (fst (EdgeStorage.loadData now' false cache)) q
                  (snd (h now body s))
                = Get.Stats (Storage.getPlayerStats a held)))
      /\ ((length (Storage.board (Route.modeOf (PlayerStats.isPaid u)) (Route.data s)) < 50)%nat ->
          Facts.holds
            (Storage.board (Route.modeOf (PlayerStats.isPaid u))
               (Route.data (snd (h now body s))))
            (PlayerStats.address u) = true).
Proof.
  intros h now now' body s a mode st written getThrows Hh Ha.
  destruct (event_read_back h now body s a Hh Ha) as (u & Hr & Hs).
  exists u. rewrite Hr. cbn [fst snd]. split; [reflexivity|]. split.
  - cbv zeta. unfold Get.GET. cbn [Get.action Get.address].
    change (Get.asks (Some "stats"%string) "leaderboard") with false.
    change (Get.asks (Some "stats"%string) "stats") with true.
    cbv iota. rewrite (given_again _ _ Ha).
    unfold EdgeStorage.loadData, EdgeStorage.saveData.
    cbn [EdgeStorage.lastFetch EdgeStorage.cachedData EdgeStorage.remote].
    split.
    + intros Hw. rewrite (proj2 (Z.ltb_lt _ _) Hw). cbn [fst]. by rewrite Hs.
    + intros held Hw Hheld. rewrite (proj2 (Z.ltb_ge _ _) Hw), Hheld. reflexivity.
  - intros Hlen. rewrite saveStats_board.
    exact (holds_upsert _ (Route.entryOf u) Hlen).
Qed.

(** X25 where alice dies and asks for her statistics ten seconds later,
    the write not having reached Edge Config. *)
Lemma game_event_is_read_back_witness :
  let s' := snd (Route.death 1700000000000 (Examples.request "death" Examples.alice)
                   Examples.seasonedServer) in
  let cache :=
    EdgeStorage.saveData 1700000000000 false (Route.data s')
      (EdgeStorage.coldStart 1699999999000 (Some Examples.poolOf100)) in
  exists u,
    fst (Route.death 1700000000000 (Examples.request "death" Examples.alice)
           Examples.seasonedServer)
    = Route.Success (Route.StatsPayload u)
    /\ Get.GET 1700000010000 (fst (EdgeStorage.loadData 1700000010000 false cache))
         (Get.mkQuery (Some "stats"%string) (Some Examples.alice) None) s'
       = Get.Stats (Some (Facts.stamped u 1700000000000))
    /\ Get.GET 1700000040000 (fst (EdgeStorage.loadData 1700000040000 false cache))
         (Get.mkQuery (Some "stats"%string) (Some Examples.alice) None) s'
       = Get.Stats (Storage.getPlayerStats Examples.alice Examples.poolOf100).
Proof.
  cbv zeta.
  destruct (game_event_is_read_back Route.death 1700000000000 1700000010000
              (Examples.request "death" Examples.alice) Examples.seasonedServer
              Examples.alice None
              (EdgeStorage.coldStart 1699999999000 (Some Examples.poolOf100)) false false
              (or_intror (or_introl eq_refl)) eq_refl)
    as (u & Hu & [Hin _] & _).
  exists u. split; [exact Hu|]. split.
  - apply Hin. unfold EdgeStorage.CACHE_TTL. lia.
  - reflexivity.
Defined.

(** X26. [updateStats] of the first revision stores the counters that the
    client sends: pulls and deaths become the values sent, whatever was
    stored, unless the value is missing or 0; they can go down. Only the
    best streak is compared with the stored one. *)
Theorem updateStats_stores_what_is_sent :
  forall now body s a st,
    Js.given (Route.address body) = Some a ->
    Route.stats body = Some st ->
    let s' := snd (Route.updateStats now body s) in
    Facts.stored PlayerStats.triggerPulls a (Route.data s')
    = Facts.sent (Route.in_triggerPulls st)
        (Facts.stored PlayerStats.triggerPulls a (Route.data s))
    /\ Facts.stored PlayerStats.deaths a (Route.data s')
       = Facts.sent (Route.in_deaths st) (Facts.stored PlayerStats.deaths a (Route.data s))
    /\ Facts.stored PlayerStats.maxStreak a (Route.data s')
       = match Route.in_maxStreak st with
         | Some m => Z.max (Facts.stored PlayerStats.maxStreak a (Route.data s)) m
         | None => Facts.stored PlayerStats.maxStreak a (Route.data s)
         end.
Proof.
  intros now body s a st Ha Hst. cbv zeta. unfold Route.updateStats. rewrite Ha, Hst.
  cbv beta iota zeta. cbn [snd].
  unfold Facts.stored at 1 3 5.
  rewrite saveStatsFirstRevision_playerStats, updatePlayerStats_lookup.
  rewrite <- (existing_stored PlayerStats.triggerPulls
                (Route.newStatsFirstRevision now a) a (Route.data s) eq_refl).
  rewrite <- (existing_stored PlayerStats.deaths
                (Route.newStatsFirstRevision now a) a (Route.data s) eq_refl).
  rewrite <- (existing_stored PlayerStats.maxStreak
                (Route.newStatsFirstRevision now a) a (Route.data s) eq_refl).
  rewrite <- !sent_orElseZ.
  unfold Route.existingOr, Storage.getPlayerStats.
  destruct (StorageData.playerStats (Route.data s) !! a) as [old|]; cbn.
  - rewrite !over_orElseZ. repeat split. by destruct (Route.in_maxStreak st).
  - repeat split. by destruct (Route.in_maxStreak st).
Qed.

Lemma updateStats_stores_what_is_sent_witness :
  let body :=
    Route.mkBody "updateStats" (Some Examples.alice) None
      (Some (Route.mkStatsInput (Some 1) (Some 1) (Some 2) None)) None None None None None in
  let s' := snd (Route.updateStats 50 body Examples.seasonedServer) in
  Facts.stored PlayerStats.triggerPulls Examples.alice (Route.data s')
  = Facts.sent (Some 1)
      (Facts.stored PlayerStats.triggerPulls Examples.alice
         (Route.data Examples.seasonedServer))
  /\ Facts.stored PlayerStats.deaths Examples.alice (Route.data s')
     = Facts.sent (Some 1)
         (Facts.stored PlayerStats.deaths Examples.alice
            (Route.data Examples.seasonedServer))
  /\ Facts.stored PlayerStats.maxStreak Examples.alice (Route.data s')
     = Z.max (Facts.stored PlayerStats.maxStreak Examples.alice
                (Route.data Examples.seasonedServer)) 2.
Proof.
  exact (updateStats_stores_what_is_sent 50
           (Route.mkBody "updateStats" (Some Examples.alice) None
              (Some (Route.mkStatsInput (Some 1) (Some 1) (Some 2) None))
              None None None None None)
           Examples.seasonedServer Examples.alice
           (Route.mkStatsInput (Some 1) (Some 1) (Some 2) None) eq_refl eq_refl).
Defined.

(** ** The amount that a deposit credits *)

Section Credits.
Import Props Route Facts.

Lemma readTransfer_onChain cfg client h cur sender recipient amount :
  onChain cfg client h cur sender recipient amount ->
  readTransfer cfg client h cur = inr (mkTransfer sender recipient amount).
Proof.
  intros (receipt & Hr & Hs & H). unfold readTransfer. rewrite Hr, Hs.
  destruct (isEth cur).
  - destruct H as (tx & Htx & <- & Hto & ->). rewrite Htx. unfold ethTransfer.
    by rewrite Hto.
  - destruct H as ((contract & Hto & Hc) & pre & l & post & ev & Hl & Hpre & Hu & Hd
                   & <- & <- & ->).
    rewrite Hto, Hc. cbn [negb]. unfold usdcTransfer.
    by rewrite Hl, (findTransfer_first _ pre l post ev Hpre Hu Hd).
Qed.

Lemma amountMismatch_beyond expected amount :
  amountMismatch expected amount = beyondTolerance expected amount.
Proof.
  unfold amountMismatch, beyondTolerance, Js.givenQ.
  destruct expected as [e|]; [|reflexivity]. by destruct (Qeq_bool e 0).
Qed.

Lemma verifyDeposit_onChain cfg client a h cur sender recipient amount :
  onChain cfg client h cur sender recipient amount ->
  sameParty sender a ->
  paysInto recipient (depositWallet cfg cur) ->
  verifyDeposit cfg client a h cur = inr (mkVerified amount (inUsd cur amount)).
Proof.
  intros Hc Hs Hp.
  rewrite (verifyDeposit_passes cfg client a h cur _ (readTransfer_onChain _ _ _ _ _ _ _ Hc)).
  - reflexivity.
  - apply checkParties_None. split.
    + by apply sameAddress_true.
    + by apply differsFrom_false.
Qed.
End Credits.

(** C7. A deposit whose transfer is found on the chain, from the claimed
    address to the deposit wallet, is credited whatever [expectedAmount] the
    client sent. The response is a success that names the amount read from
    the chain ([Number(value) / 1e18] ETH or [Number(value) / 1_000_000]
    USDC, computed in doubles) and its value in USD (3000 USD for one ETH);
    the balance grows by that value and by nothing else; the document left
    is the same for every [expectedAmount]; and an expected amount more than
    0.0001 away from the amount read adds one warning to the console. *)
Theorem deposit_credits_verified_amount :
  forall now cfg client body s a h sender recipient amount,
    Js.given (Route.address body) = Some a ->
    Js.given (Route.transactionHash body) = Some h ->
    Facts.onChain cfg client h (Route.currencyOf body) sender recipient amount ->
    Props.sameParty sender a ->
    Props.paysInto recipient (Route.depositWallet cfg (Route.currencyOf body)) ->
    exists updated s',
      Route.deposit now cfg client body s
      = (Route.Success
           (Route.DepositPayload updated amount (Route.currencyOf body)
              (Facts.inUsd (Route.currencyOf body) amount) h), s')
      /\ PlayerBalance.balance updated
         = Qred (PlayerBalance.balance (Ledger.getPlayerBalance now a (Route.data s))
                 + Double.toQ (Facts.inUsd (Route.currencyOf body) amount))
      /\ StorageData.playerBalances (Route.data s') !! a = Some updated
      /\ (forall expected,
            Route.data (snd (Route.deposit now cfg client (Facts.expecting body expected) s))
            = Route.data s')
      /\ Route.console s'
         = Route.console s
           ++ (if Facts.beyondTolerance (Route.expectedAmount body) amount
               then ["Amount mismatch"%string] else []).
Proof.
  intros now cfg client body s a h sender recipient amount Ha Hh Hc Hs Hp.
  pose proof (verifyDeposit_onChain cfg client a h _ sender recipient amount Hc Hs Hp) as Hv.
  rewrite (deposit_verified now cfg client body s a h _ Ha Hh Hv).
  eexists. eexists. split; [reflexivity|]. split; [reflexivity|].
  split; [cbn; apply lookup_insert_eq|].
  split; [|cbn [Route.console Route.verifiedAmount]; by rewrite amountMismatch_beyond].
  intros expected.
  by rewrite (deposit_verified now cfg client (Facts.expecting body expected) s a h _ Ha Hh Hv).
Qed.

(** C7 where alice sent 0.07 ETH, credited as 210.00000000000003 USD, the
    product of the doubles 0.07 and 3000; and where she sent 0.0011 USDC and
    expected 0.001, which is more than 0.0001 away in doubles and is
    credited with a warning. *)
Lemma deposit_credits_verified_amount_witness :
  let eth := Double.div (Double.ofN 70000000000000000) (Double.ofZ (10 ^ 18)) in
  let usdc := Double.div (Double.ofN 1100) (Double.ofZ 1000000) in
  (Double.toQ (Facts.inUsd "ETH" eth) = 7388718138654721 # 35184372088832
   /\ Facts.beyondTolerance (Some 0.001%Q) usdc = true)
  /\ (exists updated s',
        Route.deposit 50 Examples.testnet Samples.ethChain Samples.ethRequest
          Examples.emptyServer
        = (Route.Success
             (Route.DepositPayload updated eth "ETH" (Facts.inUsd "ETH" eth) "0xe7e7"), s')
        /\ PlayerBalance.balance updated
           = Qred (PlayerBalance.balance
                     (Ledger.getPlayerBalance 50 Examples.alice Examples.emptyDocument)
                   + Double.toQ (Facts.inUsd "ETH" eth))
        /\ StorageData.playerBalances (Route.data s') !! Examples.alice = Some updated
        /\ (forall expected,
              Route.data (snd (Route.deposit 50 Examples.testnet Samples.ethChain
                                 (Facts.expecting Samples.ethRequest expected)
                                 Examples.emptyServer))
              = Route.data s')
        /\ Route.console s' = [] ++ [])
  /\ (exists updated s',
        Route.deposit 50 Examples.testnet Samples.smallChain
          (Examples.depositRequest 0.001) Examples.emptyServer
        = (Route.Success
             (Route.DepositPayload updated usdc "USDC" (Facts.inUsd "USDC" usdc) "0x7a01"),
           s')
        /\ PlayerBalance.balance updated
           = Qred (PlayerBalance.balance
                     (Ledger.getPlayerBalance 50 Examples.alice Examples.emptyDocument)
                   + Double.toQ (Facts.inUsd "USDC" usdc))
        /\ StorageData.playerBalances (Route.data s') !! Examples.alice = Some updated
        /\ (forall expected,
              Route.data (snd (Route.deposit 50 Examples.testnet Samples.smallChain
                                 (Facts.expecting (Examples.depositRequest 0.001) expected)
                                 Examples.emptyServer))
              = Route.data s')
        /\ Route.console s' = [] ++ ["Amount mismatch"%string]).
Proof.
  cbv zeta. split; [split; vm_compute; reflexivity|]. split.
  - refine (deposit_credits_verified_amount 50 Examples.testnet Samples.ethChain
              Samples.ethRequest Examples.emptyServer Examples.alice "0xe7e7"
              Samples.aliceLower (Js.toLowerCase Chain.ETH_DEPOSIT_WALLET) _
              eq_refl eq_refl _ eq_refl _).
    + eexists. split; [reflexivity|]. split; [reflexivity|].
      eexists. repeat split; reflexivity.
    + eexists. split; reflexivity.
  - refine (deposit_credits_verified_amount 50 Examples.testnet Samples.smallChain
              (Examples.depositRequest 0.001) Examples.emptyServer Examples.alice "0x7a01"
              Samples.aliceLower (Js.toLowerCase Examples.wallet) _
              eq_refl eq_refl _ eq_refl _).
    + eexists. split; [reflexivity|]. split; [reflexivity|]. split.
      * eexists. split; reflexivity.
      * exists [Chain.mkLogEntry "0x4200000000000000000000000000000000000006" None].
        eexists. exists []. eexists.
        split; [reflexivity|]. split; [repeat constructor|]. repeat split; reflexivity.
    + eexists. split; reflexivity.
Defined.
